(** * DirServices client API: session registry and RPC envelope

    A shallow embedding of the session-handling part of the DirServices
    framework API (dsOpenDirService, dsOpenDirServiceProxy,
    dsOpenDirServiceLocal, dsCloseDirService, dsGetRecordList,
    dsDoAttributeValueSearch, dsVerifyDirRefNum and
    CheckToCleanUpLostTCPConnection) and of the operations on an open
    session (dsAddChildPIDToReference, dsGetDirNodeCount,
    dsGetDirNodeCountWithInfo, dsGetDirNodeList, dsReleaseContinueData,
    dsFindDirNodes, dsOpenDirNode, dsCloseDirNode, dsDoDirNodeAuth,
    dsDoDirNodeAuthOnRecordType and dsDoPlugInCustomCall).

    The process globals are an explicit record, the locals of each API
    function live in a frame, and C++ [throw]/[catch] is an error monad.
    The collaborators whose code is not part of the files at hand
    (CMessaging, CDSRefMap, the Mach bootstrap server, lstat) are an
    oracle [World] that fixes what each of their calls returns; every call
    to them is recorded in a trace. *)

From Stdlib Require Import ZArith Bool List Ascii String Lia.
From stdpp Require Import base tactics option list numbers.

Local Open Scope Z_scope.

(** ** Status codes

    The values of the [tDirStatus] enumeration are declared in
    DirServicesTypes.h, which is not among the sources.  The development
    is parametric in them. *)

Class StatusCodes := {
  eDSNoErr : Z;
  eDSNullParameter : Z;
  eDSInvalidReference : Z;
  eDSMaxSessionsOpen : Z;
  eDSCannotAccessSession : Z;
  eDSLocalDSDaemonInUse : Z;
  eDSNormalDSDaemonInUse : Z;
  eServerNotRunning : Z;
  eMemoryAllocError : Z;
  eMemoryError : Z;
  eDSInvalidFilePath : Z;
  eDSBufferTooSmall : Z;
  eDSRefTableIndexOutOfBoundsError : Z;
  eDSRefTableEntryNilError : Z;
  eDSTCPSendError : Z;
  eDSTCPReceiveError : Z;
  eParameterSendError : Z;
  eParameterReceiveError : Z;
  eDataReceiveErr_NoDirRef : Z;
  eDataReceiveErr_NoDataBuff : Z;
  eDataReceiveErr_NoRecEntryCount : Z;
  eDataReceiveErr_NoRecMatchCount : Z;
  eDataReceiveErr_NoContinueData : Z;
  eDSNullAutMethod : Z;
  eDSEmptyAuthMethod : Z;
  eDSNullAuthStepData : Z;
  eDSEmptyAuthStepData : Z;
  eDSNullAuthStepDataResp : Z;
  eDSEmptyAuthStepDataResp : Z;
  eDSNullDataBuff : Z;
  eDSEmptyBuffer : Z;
  eDSNullRecNameList : Z;
  eDSEmptyRecordNameList : Z;
  eDSNullRecTypeList : Z;
  eDSEmptyRecordTypeList : Z;
  eDSNullAttributeTypeList : Z;
  eDSEmptyAttributeTypeList : Z;
  eDSNullAttributeType : Z;
  eDSEmptyAttributeType : Z;
  eDSNullNodeNamePattern : Z;
  eDSEmptyPatternMatch : Z
}.

(** One assignment of pairwise distinct values, used to run the model on
    concrete inputs. *)
Definition ref_codes : StatusCodes := {|
  eDSNoErr := 0;
  eDSNullParameter := -14165;
  eDSInvalidReference := -14071;
  eDSMaxSessionsOpen := -14005;
  eDSCannotAccessSession := -14006;
  eDSLocalDSDaemonInUse := -14015;
  eDSNormalDSDaemonInUse := -14016;
  eServerNotRunning := -14990;
  eMemoryAllocError := -14901;
  eMemoryError := -14900;
  eDSInvalidFilePath := -14168;
  eDSBufferTooSmall := -14135;
  eDSRefTableIndexOutOfBoundsError := -14083;
  eDSRefTableEntryNilError := -14084;
  eDSTCPSendError := -14402;
  eDSTCPReceiveError := -14403;
  eParameterSendError := -14740;
  eParameterReceiveError := -14760;
  eDataReceiveErr_NoDirRef := -14700;
  eDataReceiveErr_NoDataBuff := -14708;
  eDataReceiveErr_NoRecEntryCount := -14706;
  eDataReceiveErr_NoRecMatchCount := -14714;
  eDataReceiveErr_NoContinueData := -14709;
  eDSNullAutMethod := -14206;
  eDSEmptyAuthMethod := -14207;
  eDSNullAuthStepData := -14208;
  eDSEmptyAuthStepData := -14209;
  eDSNullAuthStepDataResp := -14210;
  eDSEmptyAuthStepDataResp := -14211;
  eDSNullDataBuff := -14200;
  eDSEmptyBuffer := -14201;
  eDSNullRecNameList := -14218;
  eDSEmptyRecordNameList := -14219;
  eDSNullRecTypeList := -14220;
  eDSEmptyRecordTypeList := -14221;
  eDSNullAttributeTypeList := -14222;
  eDSEmptyAttributeTypeList := -14223;
  eDSNullAttributeType := -14224;
  eDSEmptyAttributeType := -14225;
  eDSNullNodeNamePattern := -14202;
  eDSEmptyPatternMatch := -14203
|}.

(** ** Wire vocabulary *)

(** Message opcodes passed to [SendInlineMessage]. *)
Inductive OpCode :=
| kOpenDirService | kOpenDirServiceProxy | kOpenDirServiceLocal
| kCloseDirService | kGetRecordList | kDoAttributeValueSearch
| kVerifyDirRefNum.

(** Field tags of the request and reply fields. *)
Inductive Tag :=
| kResult | ktDirRef | ktNodeRef | ktDataBuff | kOutBuffLen
| kAuthMethod | kAuthStepBuff | kAuthResponseBuff | kContextData
| kNodeCount | kRecNameList | ktDirPattMatch | kRecTypeList
| kAttrTypeList | kAttrInfoOnly | kAttrRecEntryCount
| kAttrType | kAttrPattMatch | kAttrMatch | kMatchRecCount.

Inductive RefType := eDirectoryRefType | eNodeRefType.

Record tDataBuffer := { fBufferSize : Z; fBufferLength : Z }.
Record tDataList := { fDataNodeCount : Z }.

Definition kDSFWDefaultRemotePort : Z := 625.
Definition kDSFWMaxRemoteConnections : Z := 8.

(** [UInt32] values are integers reduced modulo 2^32. *)
Definition UInt32 (x : Z) : Z := x mod 2 ^ 32.

(** ** Process globals *)

(** Modelled from the spec: the CMessaging endpoint class is not among the
    sources; an endpoint is either the shared Mach channel or a TCP
    connection and carries the negotiated server version. *)
Record CMessaging := { fMachEndpoint : bool; fServerVersion : Z }.

Record Globals := {
  gMessageTable : list (option CMessaging);
  gDSConnections : Z;
  gNormalDaemonInUse : bool;
  gLocalDaemonInUse : bool;
  gTranslateBit : Z;
  gProcessForked : bool;
  gProcessPID : Z
}.

Definition gMaxEndpoints : Z := kDSFWMaxRemoteConnections + 1.

(** The static initialisers of the globals. *)
Definition initial_globals (pid : Z) : Globals := {|
  gMessageTable := [None; None; None; None; None; None; None; None; None];
  gDSConnections := 0;
  gNormalDaemonInUse := false;
  gLocalDaemonInUse := false;
  gTranslateBit := 0;
  gProcessForked := true;
  gProcessPID := pid
|}.

Definition set_gMessageTable (t : list (option CMessaging)) (g : Globals) :=
  {| gMessageTable := t; gDSConnections := gDSConnections g;
     gNormalDaemonInUse := gNormalDaemonInUse g;
     gLocalDaemonInUse := gLocalDaemonInUse g;
     gTranslateBit := gTranslateBit g;
     gProcessForked := gProcessForked g; gProcessPID := gProcessPID g |}.

Definition set_gDSConnections (n : Z) (g : Globals) :=
  {| gMessageTable := gMessageTable g; gDSConnections := n;
     gNormalDaemonInUse := gNormalDaemonInUse g;
     gLocalDaemonInUse := gLocalDaemonInUse g;
     gTranslateBit := gTranslateBit g;
     gProcessForked := gProcessForked g; gProcessPID := gProcessPID g |}.

Definition set_gNormalDaemonInUse (b : bool) (g : Globals) :=
  {| gMessageTable := gMessageTable g; gDSConnections := gDSConnections g;
     gNormalDaemonInUse := b;
     gLocalDaemonInUse := gLocalDaemonInUse g;
     gTranslateBit := gTranslateBit g;
     gProcessForked := gProcessForked g; gProcessPID := gProcessPID g |}.

Definition set_gLocalDaemonInUse (b : bool) (g : Globals) :=
  {| gMessageTable := gMessageTable g; gDSConnections := gDSConnections g;
     gNormalDaemonInUse := gNormalDaemonInUse g;
     gLocalDaemonInUse := b;
     gTranslateBit := gTranslateBit g;
     gProcessForked := gProcessForked g; gProcessPID := gProcessPID g |}.

Definition set_gProcessForked (b : bool) (g : Globals) :=
  {| gMessageTable := gMessageTable g; gDSConnections := gDSConnections g;
     gNormalDaemonInUse := gNormalDaemonInUse g;
     gLocalDaemonInUse := gLocalDaemonInUse g;
     gTranslateBit := gTranslateBit g;
     gProcessForked := b; gProcessPID := gProcessPID g |}.

Definition set_gProcessPID (p : Z) (g : Globals) :=
  {| gMessageTable := gMessageTable g; gDSConnections := gDSConnections g;
     gNormalDaemonInUse := gNormalDaemonInUse g;
     gLocalDaemonInUse := gLocalDaemonInUse g;
     gTranslateBit := gTranslateBit g;
     gProcessForked := gProcessForked g; gProcessPID := p |}.

(** ** Locals of an API call

    The locals that the API functions share by name, and the cells behind
    the caller's out-pointers ([None] is a nil pointer). *)
Record Frame := {
  outResult : Z;
  siStatus : Z;
  messageIndex : Z;
  tableIndex : Z;
  serverVersion : Z;
  outDirRef : option Z;
  inOutRecEntryCount : option Z;
  ioContinueData : option Z
}.

Definition set_outResult (v : Z) (f : Frame) :=
  {| outResult := v; siStatus := siStatus f; messageIndex := messageIndex f;
     tableIndex := tableIndex f; serverVersion := serverVersion f;
     outDirRef := outDirRef f; inOutRecEntryCount := inOutRecEntryCount f;
     ioContinueData := ioContinueData f |}.

Definition set_siStatus (v : Z) (f : Frame) :=
  {| outResult := outResult f; siStatus := v; messageIndex := messageIndex f;
     tableIndex := tableIndex f; serverVersion := serverVersion f;
     outDirRef := outDirRef f; inOutRecEntryCount := inOutRecEntryCount f;
     ioContinueData := ioContinueData f |}.

Definition set_messageIndex (v : Z) (f : Frame) :=
  {| outResult := outResult f; siStatus := siStatus f; messageIndex := v;
     tableIndex := tableIndex f; serverVersion := serverVersion f;
     outDirRef := outDirRef f; inOutRecEntryCount := inOutRecEntryCount f;
     ioContinueData := ioContinueData f |}.

Definition set_tableIndex (v : Z) (f : Frame) :=
  {| outResult := outResult f; siStatus := siStatus f;
     messageIndex := messageIndex f;
     tableIndex := v; serverVersion := serverVersion f;
     outDirRef := outDirRef f; inOutRecEntryCount := inOutRecEntryCount f;
     ioContinueData := ioContinueData f |}.

Definition set_serverVersion (v : Z) (f : Frame) :=
  {| outResult := outResult f; siStatus := siStatus f;
     messageIndex := messageIndex f;
     tableIndex := tableIndex f; serverVersion := v;
     outDirRef := outDirRef f; inOutRecEntryCount := inOutRecEntryCount f;
     ioContinueData := ioContinueData f |}.

Definition set_outDirRef (v : option Z) (f : Frame) :=
  {| outResult := outResult f; siStatus := siStatus f;
     messageIndex := messageIndex f;
     tableIndex := tableIndex f; serverVersion := serverVersion f;
     outDirRef := v; inOutRecEntryCount := inOutRecEntryCount f;
     ioContinueData := ioContinueData f |}.

Definition set_inOutRecEntryCount (v : option Z) (f : Frame) :=
  {| outResult := outResult f; siStatus := siStatus f;
     messageIndex := messageIndex f;
     tableIndex := tableIndex f; serverVersion := serverVersion f;
     outDirRef := outDirRef f; inOutRecEntryCount := v;
     ioContinueData := ioContinueData f |}.

Definition set_ioContinueData (v : option Z) (f : Frame) :=
  {| outResult := outResult f; siStatus := siStatus f;
     messageIndex := messageIndex f;
     tableIndex := tableIndex f; serverVersion := serverVersion f;
     outDirRef := outDirRef f; inOutRecEntryCount := inOutRecEntryCount f;
     ioContinueData := v |}.

(** ** Calls to the collaborators *)

Inductive Event :=
| EvWaitLock                                  (* gLock->WaitLock() *)
| EvSignalLock                                (* gLock->SignalLock() *)
| EvNew (idx : Z) (mach : bool)               (* new CMessaging(mach, ..) *)
| EvDelete (idx : Z)                          (* delete gMessageTable[idx] *)
| EvLock (idx : Z)
| EvUnlock (idx : Z)
| EvClearMessageBlock (idx : Z)
| EvOpenCommPort (local : bool)
| EvCloseCommPort
| EvChangeLocalDaemonUse (local : bool)
| EvConfigTCP (idx : Z) (port : Z)
| EvOpenTCPEndpoint (idx : Z)
| EvCloseTCPEndpoint (idx : Z)
| EvSetServerVersion (idx : Z) (v : Z)
| EvAdd (idx : Z) (t : Tag)                   (* Add_*_ToMsg *)
| EvSend (idx : Z) (op : OpCode)              (* SendInlineMessage *)
| EvGetReply (idx : Z)                        (* GetReplyMessage *)
| EvGet (idx : Z) (t : Tag)                   (* Get_*_FromMsg *)
| EvGetMessageTableIndex (ref : Z) (ty : RefType)
| EvGetRefNum (ref : Z) (ty : RefType)
| EvNewDirRefMap (aRef : Z) (idx : Z)
| EvRemoveDirRef (ref : Z)
| EvClearAllMaps
| EvBootstrapLookUp (local : bool)
| EvLstat (path : list ascii).

(** The answers of the collaborators during one API call. *)
Record World := {
  (* CDSRefMap *)
  w_GetMessageTableIndex : Z -> RefType -> Z -> Z;
  w_GetRefNum : Z -> RefType -> Z -> Z;
  w_NewDirRefMap : Z -> Z -> Z -> Z;
  (* CMessaging *)
  w_new : bool;                       (* operator new returns an object *)
  w_OpenCommPort : Z;
  w_ConfigTCP : Z;
  w_OpenTCPEndpoint : Z;
  w_Add : Tag -> Z;                   (* status of Add_*_ToMsg *)
  w_Send : Z;                         (* status of SendInlineMessage *)
  w_Reply : Z;                        (* status of GetReplyMessage *)
  w_Get : Tag -> Z * option Z;        (* status of Get_*_FromMsg and the
                                         value stored through the pointer *)
  (* data buffer allocation *)
  w_dsDataBufferAllocate : bool;
  w_dsDataBufferDeAllocate : Z;
  (* operating system *)
  w_bootstrap_look_up : bool -> Z;    (* by port name: false the standard
                                         daemon, true the local-only one *)
  w_lstat : list ascii -> option (Z * Z)   (* st_ino, st_dev; None: -1 *)
}.

(** ** The monad of API calls

    A computation transforms the state (globals, frame, trace) and ends
    normally, with a thrown [SInt32], with a [return] out of the middle
    of the function, or in a read or write outside [gMessageTable] or
    [newPath], whose behaviour C++ does not define.
    The collaborators report failure through status codes, so no other
    C++ exception arises and the [catch ( ... )] handlers stay unused. *)

Record St := { st_g : Globals; st_f : Frame; st_tr : list Event }.

Inductive Res (A : Type) :=
| Ok (a : A)
| Throw (err : Z)
| Return (v : Z)
| Undef.
Arguments Ok {A} a.
Arguments Throw {A} err.
Arguments Return {A} v.
Arguments Undef {A}.

Definition M (A : Type) : Type := St -> Res A * St.

Definition ret {A} (a : A) : M A := fun s => (Ok a, s).

Definition bind {A B} (m : M A) (k : A -> M B) : M B :=
  fun s =>
    match m s with
    | (Ok a, s') => k a s'
    | (Throw e, s') => (Throw e, s')
    | (Return v, s') => (Return v, s')
    | (Undef, s') => (Undef, s')
    end.

Definition throw {A} (e : Z) : M A := fun s => (Throw e, s).

Definition undef {A} : M A := fun s => (Undef, s).

(** [return v;] inside nested blocks *)
Definition return_ {A} (v : Z) : M A := fun s => (Return v, s).

(** The body of a function that has a [return] inside its blocks. *)
Definition function (body : M Z) : M Z :=
  fun s =>
    match body s with
    | (Return v, s') => (Ok v, s')
    | r => r
    end.

(** [try { m } catch ( SInt32 err ) { h err }] *)
Definition try_catch {A} (m : M A) (h : Z -> M A) : M A :=
  fun s =>
    match m s with
    | (Throw e, s') => h e s'
    | r => r
    end.

Declare Scope api_scope.
Delimit Scope api_scope with api.
Notation "x <- c1 ;; c2" := (bind c1 (fun x => c2))
  (at level 100, c1 at next level, right associativity) : api_scope.
Notation "c1 ;; c2" := (bind c1 (fun _ => c2))
  (at level 100, right associativity) : api_scope.
Local Open Scope api_scope.

Definition emit (e : Event) : M unit :=
  fun s => (Ok tt, {| st_g := st_g s; st_f := st_f s; st_tr := st_tr s ++ [e] |}).

Definition getG {A} (p : Globals -> A) : M A := fun s => (Ok (p (st_g s)), s).

Definition modG (u : Globals -> Globals) : M unit :=
  fun s => (Ok tt, {| st_g := u (st_g s); st_f := st_f s; st_tr := st_tr s |}).

Definition getF {A} (p : Frame -> A) : M A := fun s => (Ok (p (st_f s)), s).

Definition modF (u : Frame -> Frame) : M unit :=
  fun s => (Ok tt, {| st_g := st_g s; st_f := u (st_f s); st_tr := st_tr s |}).

(** [x = m] for a local [x] *)
Definition assign {A} (set : A -> Frame -> Frame) (m : M A) : M unit :=
  v <- m ;; modF (set v).

(** [gMessageTable[idx]] as an rvalue; the array has nine entries. *)
Definition table_get (idx : Z) : M (option CMessaging) :=
  fun s =>
    match gMessageTable (st_g s) !! Z.to_nat idx with
    | Some e => (Ok e, s)
    | None => (Undef, s)
    end.

(** [gMessageTable[idx] = v] *)
Definition table_set (idx : Z) (v : option CMessaging) : M unit :=
  fun s =>
    match gMessageTable (st_g s) !! Z.to_nat idx with
    | Some _ =>
        (Ok tt, {| st_g := set_gMessageTable
                             (<[Z.to_nat idx := v]> (gMessageTable (st_g s)))
                             (st_g s);
                   st_f := st_f s; st_tr := st_tr s |})
    | None => (Undef, s)
    end.

(** [gMessageTable[idx]->...]: the entry must point to an object. *)
Definition deref (idx : Z) : M CMessaging :=
  e <- table_get idx ;;
  match e with
  | Some c => ret c
  | None => undef
  end.

(** A method of [gMessageTable[idx]] that returns nothing. *)
Definition method (idx : Z) (ev : Event) : M unit :=
  deref idx ;; emit ev.

(** A method of [gMessageTable[idx]] that returns what the world says. *)
Definition method_ret {A} (idx : Z) (ev : Event) (a : A) : M A :=
  deref idx ;; emit ev ;; ret a.

Definition run {A} (m : M A) (g : Globals) : Res A * St :=
  m {| st_g := g;
       st_f := {| outResult := 0; siStatus := 0; messageIndex := 0;
                  tableIndex := 0; serverVersion := 0; outDirRef := None;
                  inOutRecEntryCount := None; ioContinueData := None |};
       st_tr := [] |}.

(** ** C strings in a character array *)

Definition NUL : ascii := "000"%char.

Definition str (s : string) : list ascii := list_ascii_of_string s.

(** [strlen( buf )]: the index of the first NUL; [None] when the array
    holds none, where strlen reads past its end. *)
Fixpoint c_strlen (buf : list ascii) : option nat :=
  match buf with
  | [] => None
  | c :: r => if Ascii.eqb c NUL then Some 0%nat else S <$> c_strlen r
  end.

(** The string that a terminated array holds. *)
Definition c_str (buf : list ascii) : option (list ascii) :=
  n ← c_strlen buf; Some (take n buf).

(** [strlcpy( dst, src, sizeof(dst) )]: at most [sizeof(dst) - 1]
    characters of [src], then a NUL. *)
Definition strlcpy (dst src : list ascii) : list ascii :=
  let n := (length src `min` (length dst - 1))%nat in
  take n src ++ [NUL] ++ drop (n + 1) dst.

(** [strlcat( dst, src, sizeof(dst) )]: appends what fits and terminates;
    leaves an unterminated [dst] alone. *)
Definition strlcat (dst src : list ascii) : list ascii :=
  match c_strlen dst with
  | Some n =>
      let k := (length src `min` (length dst - 1 - n))%nat in
      take n dst ++ take k src ++ [NUL] ++ drop (n + k + 1) dst
  | None => dst
  end.

Fixpoint str_eqb (a b : list ascii) : bool :=
  match a, b with
  | [], [] => true
  | x :: a', y :: b' => Ascii.eqb x y && str_eqb a' b'
  | _, _ => false
  end.

Fixpoint str_prefixb (p s : list ascii) : bool :=
  match p, s with
  | [], _ => true
  | x :: p', y :: s' => Ascii.eqb x y && str_prefixb p' s'
  | _ :: _, [] => false
  end.

(** [strstr( hay, needle )]: the tail of [hay] from the first occurrence
    of [needle], [None] for a null result. *)
Fixpoint strstr (hay needle : list ascii) : option (list ascii) :=
  if str_prefixb needle hay then Some hay
  else match hay with
       | [] => None
       | _ :: r => strstr r needle
       end.

Section API.

Context `{StatusCodes}.

(** The constant of <limits.h>. *)
Variable PATH_MAX : nat.

(** The declarations and initialisers at the head of every API function,
    with the cells behind the out-pointers it was called with. *)
Definition enter (dirRef recCount contData : option Z) : M unit :=
  modF (fun _ =>
    {| outResult := eDSNoErr; siStatus := eDSNoErr; messageIndex := 0;
       tableIndex := 0; serverVersion := 0; outDirRef := dirRef;
       inOutRecEntryCount := recCount; ioContinueData := contData |}).

(** *** The macros of DSLogException.h

    Their definitions are not among the sources; they behave as their
    names and every use say. *)

Definition LogThenThrowIfDSErrorMacro (v : Frame -> Z) : M unit :=
  e <- getF v ;;
  if e =? eDSNoErr then ret tt else throw e.

Definition LogThenThrowThisIfDSErrorMacro (v : Frame -> Z) (this : Z) : M unit :=
  e <- getF v ;;
  if e =? eDSNoErr then ret tt else throw this.

Definition LogThenThrowIfNilMacro {A} (p : option A) (e : Z) : M unit :=
  match p with
  | Some _ => ret tt
  | None => throw e
  end.

Definition LogThenThrowIfTrueMacro (b : bool) (e : Z) : M unit :=
  if b then throw e else ret tt.

(** *** CMessaging and CDSRefMap calls *)

Definition Lock (idx : Z) : M unit := method idx (EvLock idx).
Definition Unlock (idx : Z) : M unit := method idx (EvUnlock idx).
Definition ClearMessageBlock (idx : Z) : M unit :=
  method idx (EvClearMessageBlock idx).
Definition CloseTCPEndpoint (idx : Z) : M unit :=
  method idx (EvCloseTCPEndpoint idx).
Definition CloseCommPort : M unit := method 0 EvCloseCommPort.
Definition ChangeLocalDaemonUse (b : bool) : M unit :=
  method 0 (EvChangeLocalDaemonUse b).
Definition OpenCommPort (w : World) (b : bool) : M Z :=
  method_ret 0 (EvOpenCommPort b) (w_OpenCommPort w).
Definition ConfigTCP (w : World) (idx port : Z) : M Z :=
  method_ret idx (EvConfigTCP idx port) (w_ConfigTCP w).
Definition OpenTCPEndpoint (w : World) (idx : Z) : M Z :=
  method_ret idx (EvOpenTCPEndpoint idx) (w_OpenTCPEndpoint w).
Definition Add_Value_ToMsg (w : World) (idx : Z) (t : Tag) : M Z :=
  method_ret idx (EvAdd idx t) (w_Add w t).
Definition Add_tDataBuff_ToMsg (w : World) (idx : Z) (t : Tag) : M Z :=
  method_ret idx (EvAdd idx t) (w_Add w t).
Definition Add_tDataList_ToMsg (w : World) (idx : Z) (t : Tag) : M Z :=
  method_ret idx (EvAdd idx t) (w_Add w t).
Definition SendInlineMessage (w : World) (idx : Z) (op : OpCode) : M Z :=
  method_ret idx (EvSend idx op) (w_Send w).
Definition GetReplyMessage (w : World) (idx : Z) : M Z :=
  method_ret idx (EvGetReply idx) (w_Reply w).

(** [siStatus = gMessageTable[idx]->Get_Value_FromMsg( &cell, t )]: the
    status goes to [siStatus]; what the call stored through the pointer,
    if anything, goes to the cell. *)
Definition Get_Value_FromMsg (w : World) (idx : Z) (t : Tag)
    (store : Z -> Frame -> Frame) : M unit :=
  r <- method_ret idx (EvGet idx t) (w_Get w t) ;;
  modF (set_siStatus (fst r)) ;;
  match snd r with
  | Some v => modF (store v)
  | None => ret tt
  end.

(** [siStatus = gMessageTable[idx]->Get_tDataBuff_FromMsg( &buff, t )] *)
Definition Get_tDataBuff_FromMsg (w : World) (idx : Z) (t : Tag) : M unit :=
  r <- method_ret idx (EvGet idx t) (w_Get w t) ;;
  modF (set_siStatus (fst r)).

Definition GetMessageTableIndex (w : World) (ref : Z) (ty : RefType) : M Z :=
  emit (EvGetMessageTableIndex ref ty) ;;
  pid <- getG gProcessPID ;;
  ret (UInt32 (w_GetMessageTableIndex w ref ty pid)).

Definition GetRefNum (w : World) (ref : Z) (ty : RefType) : M Z :=
  emit (EvGetRefNum ref ty) ;;
  pid <- getG gProcessPID ;;
  ret (w_GetRefNum w ref ty pid).

(** [gMessageTable[idx] = new CMessaging( mach, gTranslateBit )] *)
Definition New (w : World) (idx : Z) (mach : bool) : M unit :=
  emit (EvNew idx mach) ;;
  table_set idx
    (if w_new w then Some {| fMachEndpoint := mach; fServerVersion := 0 |}
     else None).

(** [delete( gMessageTable[idx] ); gMessageTable[idx] = nil;] *)
Definition Delete (idx : Z) : M unit :=
  emit (EvDelete idx) ;;
  table_set idx None.

(** *** CheckToCleanUpLostTCPConnection *)

Definition isNil {A} (p : option A) : bool :=
  match p with Some _ => false | None => true end.

Definition CheckToCleanUpLostTCPConnection (inMessageIndex : Z) : M unit :=
  inStatus <- getF outResult ;;
  if negb (inStatus =? eDSNoErr) then
    if negb (inMessageIndex =? 0) then
      if (inStatus =? eDSTCPReceiveError) || (inStatus =? eDSTCPSendError) then
        modF (set_outResult eDSCannotAccessSession) ;;
        e <- table_get inMessageIndex ;;
        if negb (isNil e) then
          emit EvWaitLock ;;
          e' <- table_get inMessageIndex ;;
          (if negb (isNil e') then
             Lock inMessageIndex ;;
             CloseTCPEndpoint inMessageIndex ;;
             Unlock inMessageIndex ;;
             Delete inMessageIndex
           else ret tt) ;;
          emit EvSignalLock
        else ret tt
      else ret tt
    else ret tt
  else ret tt.

(** The two statements that end every API function that resolved a
    reference to an endpoint:
    [CheckToCleanUpLostTCPConnection( &outResult, messageIndex, __LINE__ );
     return( outResult );] *)
Definition epilogue : M Z :=
  idx <- getF messageIndex ;;
  CheckToCleanUpLostTCPConnection idx ;;
  getF outResult.

(** *** dsVerifyDirRefNum *)

Definition dsVerifyDirRefNum (w : World) (inDirRef : Z) : M Z :=
  enter None None None ;;
  if inDirRef =? 0x00F0F0F0 then getF outResult
  else if inDirRef =? 0x0 then ret eDSInvalidReference
  else
    try_catch
      (assign set_messageIndex (GetMessageTableIndex w inDirRef eDirectoryRefType) ;;
       idx <- getF messageIndex ;;
       LogThenThrowIfTrueMacro (idx >? gMaxEndpoints) eDSRefTableIndexOutOfBoundsError ;;
       e <- table_get idx ;;
       LogThenThrowIfNilMacro e eDSRefTableEntryNilError ;;
       Lock idx ;;
       try_catch
         (ClearMessageBlock idx ;;
          (* Add the directory reference *)
          GetRefNum w inDirRef eDirectoryRefType ;;
          assign set_siStatus (Add_Value_ToMsg w idx ktDirRef) ;;
          LogThenThrowThisIfDSErrorMacro siStatus eParameterSendError ;;
          (* Send the message *)
          assign set_siStatus (SendInlineMessage w idx kVerifyDirRefNum) ;;
          LogThenThrowIfDSErrorMacro siStatus ;;
          (* Get the reply *)
          assign set_siStatus (GetReplyMessage w idx) ;;
          LogThenThrowIfDSErrorMacro siStatus ;;
          (* Get the return result *)
          Get_Value_FromMsg w idx kResult set_outResult ;;
          LogThenThrowIfDSErrorMacro outResult)
         (fun err => modF (set_outResult err)) ;;
       Unlock idx)
      (fun err => modF (set_outResult err)) ;;
    epilogue.

(** *** Fork handling and the reset of all sessions *)

(** [for ( i = first; ...; i++ ) body], over the indices in [l] *)
Fixpoint for_each (l : list Z) (body : Z -> M unit) : M unit :=
  match l with
  | [] => ret tt
  | i :: l' => body i ;; for_each l' body
  end.

(** The indices [1 .. gMaxEndpoints - 1] of the TCP slots. *)
Definition remote_slots : list Z := seqZ 1 (gMaxEndpoints - 1).

Definition __ForkChild (pid : Z) (g : Globals) : Globals :=
  set_gLocalDaemonInUse false
    (set_gNormalDaemonInUse false
       (set_gProcessForked true (set_gProcessPID pid g))).

Definition __ResetAllSessions : M unit :=
  emit EvClearAllMaps ;;
  for_each remote_slots (fun tableIndex =>
    e <- table_get tableIndex ;;
    if negb (isNil e) then
      Lock tableIndex ;;
      CloseTCPEndpoint tableIndex ;;
      Unlock tableIndex ;;
      Delete tableIndex
    else ret tt) ;;
  e0 <- table_get 0 ;;
  (if negb (isNil e0) then
     Lock 0 ;;
     CloseCommPort ;;
     Unlock 0
   else ret tt) ;;
  modG (set_gLocalDaemonInUse false) ;;
  modG (set_gNormalDaemonInUse false) ;;
  modG (set_gDSConnections 0).

(** *** dsIsDirServiceRunning, dsIsDirServiceLocalRunning *)

Definition dsIsDirServiceRunning (w : World) : M Z :=
  emit (EvBootstrapLookUp false) ;;
  if w_bootstrap_look_up w false =? 0 then ret eDSNoErr
  else ret eServerNotRunning.

Definition dsIsDirServiceLocalRunning (w : World) : M Z :=
  emit (EvBootstrapLookUp true) ;;
  if w_bootstrap_look_up w true =? 0 then ret eDSNoErr
  else ret eServerNotRunning.

(** *** dsOpenDirService *)

Definition dsOpenDirService (w : World) (dirRef : option Z) : M Z :=
  enter dirRef None None ;;
  try_catch
    (p <- getF outDirRef ;;
     LogThenThrowIfNilMacro p eDSNullParameter ;;
     emit EvWaitLock ;;
     try_catch
       (inUse <- getG gLocalDaemonInUse ;;
        if inUse then modF (set_siStatus eDSLocalDSDaemonInUse)
        else
          (* if the daemon is not registered, just return the error *)
          assign set_siStatus (dsIsDirServiceRunning w) ;;
          st <- getF siStatus ;;
          if negb (st =? eDSNoErr) then ret tt
          else
            forked <- getG gProcessForked ;;
            (if forked then
               __ResetAllSessions ;;
               modG (set_gProcessForked false)
             else ret tt) ;;
            e <- table_get 0 ;;
            (if isNil e then
               New w 0 true ;;
               assign set_siStatus (OpenCommPort w false)
             else ChangeLocalDaemonUse false) ;;
            modG (fun g => set_gDSConnections (UInt32 (gDSConnections g + 1)) g) ;;
            modG (set_gNormalDaemonInUse true))
       (fun err => emit EvSignalLock ;; throw err) ;;
     emit EvSignalLock ;;
     LogThenThrowIfDSErrorMacro siStatus ;;
     e <- table_get 0 ;;
     LogThenThrowIfNilMacro e eMemoryAllocError ;;
     Lock 0 ;;
     try_catch
       (ClearMessageBlock 0 ;;
        (* Send the message *)
        assign set_siStatus (SendInlineMessage w 0 kOpenDirService) ;;
        LogThenThrowIfDSErrorMacro siStatus ;;
        (* Get the reply *)
        assign set_siStatus (GetReplyMessage w 0) ;;
        LogThenThrowIfDSErrorMacro siStatus ;;
        (* Get the return result *)
        Get_Value_FromMsg w 0 kResult set_outResult ;;
        LogThenThrowIfDSErrorMacro outResult ;;
        p <- getF outDirRef ;;
        if negb (isNil p) then
          (* Get the directory reference *)
          Get_Value_FromMsg w 0 ktDirRef (fun v => set_outDirRef (Some v)) ;;
          LogThenThrowThisIfDSErrorMacro siStatus eDataReceiveErr_NoDirRef
        else ret tt)
       (fun err => modF (set_outResult err)) ;;
     Unlock 0)
    (fun err => modF (set_outResult err)) ;;
  getF outResult.

(** *** dsCloseDirService *)

Definition dsCloseDirService (w : World) (inDirRef : Z) : M Z :=
  enter None None None ;;
  try_catch
    (LogThenThrowIfTrueMacro (inDirRef =? 0) eDSInvalidReference ;;
     assign set_messageIndex (GetMessageTableIndex w inDirRef eDirectoryRefType) ;;
     idx <- getF messageIndex ;;
     LogThenThrowIfTrueMacro (idx >? gMaxEndpoints) eDSRefTableIndexOutOfBoundsError ;;
     e <- table_get idx ;;
     LogThenThrowIfNilMacro e eDSRefTableEntryNilError ;;
     Lock idx ;;
     try_catch
       (ClearMessageBlock idx ;;
        (* Add the directory reference *)
        GetRefNum w inDirRef eDirectoryRefType ;;
        assign set_siStatus (Add_Value_ToMsg w idx ktDirRef) ;;
        LogThenThrowThisIfDSErrorMacro siStatus eParameterSendError ;;
        (* Add the connections count *)
        assign set_siStatus (Add_Value_ToMsg w idx kNodeCount) ;;
        LogThenThrowThisIfDSErrorMacro siStatus eParameterSendError ;;
        (* Send the message *)
        assign set_siStatus (SendInlineMessage w idx kCloseDirService) ;;
        LogThenThrowIfDSErrorMacro siStatus ;;
        (* Get the reply *)
        assign set_siStatus (GetReplyMessage w idx) ;;
        LogThenThrowIfDSErrorMacro siStatus ;;
        (* Get the return result *)
        Get_Value_FromMsg w idx kResult set_outResult ;;
        LogThenThrowIfDSErrorMacro outResult ;;
        (* now remove the dir reference here if it exists *)
        emit (EvRemoveDirRef inDirRef))
       (fun err => Unlock idx ;; throw err) ;;
     Unlock idx ;;
     emit EvWaitLock ;;
     try_catch
       (n <- getG gDSConnections ;;
        (if (idx =? 0) && (n >? 0) then
           (* decrement the number of DS mach connections open *)
           modG (set_gDSConnections (n - 1))
         else ret tt) ;;
        n' <- getG gDSConnections ;;
        (if n' =? 0 then
           (* just close the mach port since we have no sessions *)
           e0 <- table_get 0 ;;
           (if negb (isNil e0) then
              Lock 0 ;;
              CloseCommPort ;;
              Unlock 0
            else ret tt) ;;
           modG (set_gLocalDaemonInUse false) ;;
           modG (set_gNormalDaemonInUse false)
         else ret tt) ;;
        (* always clean up the TCP Endpt upon the close *)
        if negb (idx =? 0) then
          ei <- table_get idx ;;
          if negb (isNil ei) then
            Lock idx ;;
            CloseTCPEndpoint idx ;;
            Unlock idx ;;
            Delete idx
          else ret tt
        else ret tt)
       (fun err => modF (set_outResult err)) ;;
     emit EvSignalLock)
    (fun err => modF (set_outResult err)) ;;
  epilogue.

(** *** Argument checks and small helpers *)

(** Modelled from the spec: VerifyTDataBuff is not among the sources; it
    is the "buffer non-null/non-empty" check. *)
Definition VerifyTDataBuff (b : option tDataBuffer) (nullErr emptyErr : Z) : Z :=
  match b with
  | None => nullErr
  | Some d => if fBufferSize d =? 0 then emptyErr else eDSNoErr
  end.

(** Modelled from the spec: VerifyTNodeList is not among the sources; it
    is the same check for a data list. *)
Definition VerifyTNodeList (l : option tDataList) (nullErr emptyErr : Z) : Z :=
  match l with
  | None => nullErr
  | Some d => if fDataNodeCount d =? 0 then emptyErr else eDSNoErr
  end.

(** [siStatus = gMessageTable[idx]->Get_Value_FromMsg( &local, t )] for a
    block-local variable holding [init]; returns its value afterwards. *)
Definition Get_Value_FromMsg_local (w : World) (idx : Z) (t : Tag) (init : Z) : M Z :=
  r <- method_ret idx (EvGet idx t) (w_Get w t) ;;
  modF (set_siStatus (fst r)) ;;
  ret (default init (snd r)).

Definition SetServerVersion (idx v : Z) : M unit :=
  c <- deref idx ;;
  emit (EvSetServerVersion idx v) ;;
  table_set idx (Some {| fMachEndpoint := fMachEndpoint c; fServerVersion := v |}).

Definition GetServerVersion (idx : Z) : M Z :=
  c <- deref idx ;;
  ret (fServerVersion c).

(** [gFWRefMap->NewDirRefMap( outDirRef, gProcessPID, aRef, idx )] *)
Definition NewDirRefMap (w : World) (aRef idx : Z) : M unit :=
  emit (EvNewDirRefMap aRef idx) ;;
  pid <- getG gProcessPID ;;
  modF (set_outDirRef (Some (w_NewDirRefMap w pid aRef idx))).

(** *** dsOpenDirServiceProxy *)

(** The search for the next available gMessageTable slot:
    [for ( tableIndex = 1; tableIndex < gMaxEndpoints; tableIndex++ )
       if ( gMessageTable[tableIndex] == nil )
         { messageIndex = tableIndex; break; }] *)
Fixpoint find_slot (l : list Z) : M unit :=
  match l with
  | [] => modF (set_tableIndex gMaxEndpoints)
  | i :: l' =>
      modF (set_tableIndex i) ;;
      e <- table_get i ;;
      if isNil e then modF (set_messageIndex i)
      else find_slot l'
  end.

Definition dsOpenDirServiceProxy (w : World) (dirRef : option Z) (inIPPort : Z)
    (inAuthMethod inAuthStepData outAuthStepDataResponse : option tDataBuffer)
    (contData : option Z) : M Z :=
  enter dirRef None contData ;;
  try_catch
    (p <- getF outDirRef ;;
     LogThenThrowIfNilMacro p eDSNullParameter ;;
     emit EvWaitLock ;;
     try_catch
       (forked <- getG gProcessForked ;;
        (if forked then
           __ResetAllSessions ;;
           modG (set_gProcessForked false)
         else ret tt) ;;
        (* search for the next available gMessageTable slot *)
        find_slot remote_slots ;;
        idx <- getF messageIndex ;;
        (* don't allow more than max sessions to be opened *)
        LogThenThrowIfTrueMacro (idx =? 0) eDSMaxSessionsOpen ;;
        e <- table_get idx ;;
        if isNil e then
          New w idx false ;;
          e' <- table_get idx ;;
          if negb (isNil e') then
            (if negb (inIPPort =? 0) then
               assign set_siStatus (ConfigTCP w idx inIPPort)
             else
               assign set_siStatus (ConfigTCP w idx kDSFWDefaultRemotePort)) ;;
            LogThenThrowIfDSErrorMacro siStatus ;;
            assign set_siStatus (OpenTCPEndpoint w idx)
          else ret tt
        else ret tt)
       (fun err => emit EvSignalLock ;; throw err) ;;
     emit EvSignalLock ;;
     LogThenThrowIfDSErrorMacro siStatus ;;
     idx <- getF messageIndex ;;
     e <- table_get idx ;;
     LogThenThrowIfNilMacro e eMemoryAllocError ;;
     (* go ahead and pack the message to send *)
     Lock idx ;;
     try_catch
       (ClearMessageBlock idx ;;
        (* Make sure we have a non-null data buffer *)
        modF (set_outResult (VerifyTDataBuff inAuthMethod eDSNullAutMethod eDSEmptyAuthMethod)) ;;
        LogThenThrowIfDSErrorMacro outResult ;;
        modF (set_outResult (VerifyTDataBuff inAuthStepData eDSNullAuthStepData eDSEmptyAuthStepData)) ;;
        LogThenThrowIfDSErrorMacro outResult ;;
        modF (set_outResult (VerifyTDataBuff outAuthStepDataResponse eDSNullAuthStepDataResp eDSEmptyAuthStepDataResp)) ;;
        LogThenThrowIfDSErrorMacro outResult ;;
        (* Add the version info DSProxy1.3 *)
        LogThenThrowIfNilMacro (if w_dsDataBufferAllocate w then Some tt else None) eMemoryAllocError ;;
        assign set_siStatus (Add_tDataBuff_ToMsg w idx ktDataBuff) ;;
        LogThenThrowThisIfDSErrorMacro siStatus eParameterSendError ;;
        modF (set_siStatus (w_dsDataBufferDeAllocate w)) ;;
        LogThenThrowThisIfDSErrorMacro siStatus eMemoryError ;;
        (* Add the auth method *)
        assign set_siStatus (Add_tDataBuff_ToMsg w idx kAuthMethod) ;;
        LogThenThrowThisIfDSErrorMacro siStatus (eParameterSendError - 1) ;;
        (* Add the auth step data *)
        assign set_siStatus (Add_tDataBuff_ToMsg w idx kAuthStepBuff) ;;
        LogThenThrowThisIfDSErrorMacro siStatus (eParameterSendError - 2) ;;
        (* Add the auth step response *)
        assign set_siStatus (Add_tDataBuff_ToMsg w idx kAuthResponseBuff) ;;
        LogThenThrowThisIfDSErrorMacro siStatus (eParameterSendError - 3) ;;
        c <- getF ioContinueData ;;
        (if negb (isNil c) then
           (* Add the context data *)
           assign set_siStatus (Add_Value_ToMsg w idx kContextData) ;;
           LogThenThrowThisIfDSErrorMacro siStatus (eParameterReceiveError - 4)
         else ret tt) ;;
        (* Send the message *)
        assign set_siStatus (SendInlineMessage w idx kOpenDirServiceProxy) ;;
        LogThenThrowIfDSErrorMacro siStatus ;;
        (* Get the reply *)
        assign set_siStatus (GetReplyMessage w idx) ;;
        LogThenThrowIfDSErrorMacro siStatus ;;
        (* Get the return result *)
        Get_Value_FromMsg w idx kResult set_outResult ;;
        LogThenThrowIfDSErrorMacro outResult ;;
        (* Get the server DSProxy version if it exists *)
        Get_Value_FromMsg w idx kNodeCount set_serverVersion ;;
        modF (set_siStatus eDSNoErr) ;;
        v <- getF serverVersion ;;
        SetServerVersion idx v ;;
        p <- getF outDirRef ;;
        if negb (isNil p) then
          (* Get the directory reference *)
          aRef <- Get_Value_FromMsg_local w idx ktDirRef 0 ;;
          LogThenThrowThisIfDSErrorMacro siStatus eDataReceiveErr_NoDirRef ;;
          NewDirRefMap w aRef idx
        else ret tt)
       (fun err =>
          idx <- getF messageIndex ;;
          (if negb (idx =? 0) then
             e <- table_get idx ;;
             if negb (isNil e) then
               emit EvWaitLock ;;
               e' <- table_get idx ;;
               (if negb (isNil e') then
                  CloseTCPEndpoint idx ;;
                  Unlock idx ;;
                  Delete idx
                else ret tt) ;;
               emit EvSignalLock
             else ret tt
           else ret tt) ;;
          throw err) ;;
     Unlock idx)
    (fun err => modF (set_outResult err)) ;;
  getF outResult.

(** *** dsGetRecordList *)

Definition dsGetRecordList (w : World) (inNodeRef : Z)
    (inOutDataBuff : option tDataBuffer)
    (inRecNameList inRecTypeList inAttribTypeList : option tDataList)
    (recCount contData : option Z) : M Z :=
  enter None recCount contData ;;
  try_catch
    (LogThenThrowIfTrueMacro (inNodeRef =? 0) eDSInvalidReference ;;
     assign set_messageIndex (GetMessageTableIndex w inNodeRef eNodeRefType) ;;
     idx <- getF messageIndex ;;
     LogThenThrowIfTrueMacro (idx >? gMaxEndpoints) eDSRefTableIndexOutOfBoundsError ;;
     e <- table_get idx ;;
     LogThenThrowIfNilMacro e eDSRefTableEntryNilError ;;
     Lock idx ;;
     try_catch
       (ClearMessageBlock idx ;;
        (* Make sure we have a non-null data buffer *)
        modF (set_outResult (VerifyTDataBuff inOutDataBuff eDSNullDataBuff eDSEmptyBuffer)) ;;
        LogThenThrowIfDSErrorMacro outResult ;;
        modF (set_outResult (VerifyTNodeList inRecNameList eDSNullRecNameList eDSEmptyRecordNameList)) ;;
        LogThenThrowIfDSErrorMacro outResult ;;
        modF (set_outResult (VerifyTNodeList inRecTypeList eDSNullRecTypeList eDSEmptyRecordTypeList)) ;;
        LogThenThrowIfDSErrorMacro outResult ;;
        modF (set_outResult (VerifyTNodeList inAttribTypeList eDSNullAttributeTypeList eDSEmptyAttributeTypeList)) ;;
        LogThenThrowIfDSErrorMacro outResult ;;
        (* Add the node reference *)
        GetRefNum w inNodeRef eNodeRefType ;;
        assign set_siStatus (Add_Value_ToMsg w idx ktNodeRef) ;;
        LogThenThrowThisIfDSErrorMacro siStatus eParameterSendError ;;
        (* Add the data buffer *)
        assign set_serverVersion (GetServerVersion idx) ;;
        v <- getF serverVersion ;;
        (if v >? 0 then
           assign set_siStatus (Add_Value_ToMsg w idx kOutBuffLen)
         else
           assign set_siStatus (Add_tDataBuff_ToMsg w idx ktDataBuff)) ;;
        LogThenThrowThisIfDSErrorMacro siStatus (eParameterSendError - 1) ;;
        (* Add the Record Name list *)
        assign set_siStatus (Add_tDataList_ToMsg w idx kRecNameList) ;;
        LogThenThrowThisIfDSErrorMacro siStatus (eParameterSendError - 2) ;;
        (* Add the Pattern Match type *)
        assign set_siStatus (Add_Value_ToMsg w idx ktDirPattMatch) ;;
        LogThenThrowThisIfDSErrorMacro siStatus (eParameterSendError - 3) ;;
        (* Add the Record Type list *)
        assign set_siStatus (Add_tDataList_ToMsg w idx kRecTypeList) ;;
        LogThenThrowThisIfDSErrorMacro siStatus (eParameterSendError - 4) ;;
        (* Add the Attribute Type list *)
        assign set_siStatus (Add_tDataList_ToMsg w idx kAttrTypeList) ;;
        LogThenThrowThisIfDSErrorMacro siStatus (eParameterSendError - 5) ;;
        (* Add the Attribute Info Only boolean *)
        assign set_siStatus (Add_Value_ToMsg w idx kAttrInfoOnly) ;;
        LogThenThrowThisIfDSErrorMacro siStatus (eParameterSendError - 6) ;;
        rc <- getF inOutRecEntryCount ;;
        match rc with
        | Some n =>
            (if n <? 0 then modF (set_inOutRecEntryCount (Some 0)) else ret tt) ;;
            (* Add the record count *)
            assign set_siStatus (Add_Value_ToMsg w idx kAttrRecEntryCount) ;;
            LogThenThrowThisIfDSErrorMacro siStatus (eParameterSendError - 7)
        | None => ret tt
        end ;;
        c <- getF ioContinueData ;;
        (if negb (isNil c) then
           (* Add the context data *)
           assign set_siStatus (Add_Value_ToMsg w idx kContextData) ;;
           LogThenThrowThisIfDSErrorMacro siStatus (eParameterReceiveError - 8)
         else ret tt) ;;
        (* Send the message *)
        assign set_siStatus (SendInlineMessage w idx kGetRecordList) ;;
        LogThenThrowIfDSErrorMacro siStatus ;;
        (* Get the reply *)
        assign set_siStatus (GetReplyMessage w idx) ;;
        LogThenThrowIfDSErrorMacro siStatus ;;
        (* Get the return result *)
        Get_Value_FromMsg w idx kResult set_outResult ;;
        r <- getF outResult ;;
        (if negb (r =? eDSBufferTooSmall) then
           LogThenThrowIfDSErrorMacro outResult
         else ret tt) ;;
        (* Get the data buffer *)
        Get_tDataBuff_FromMsg w idx ktDataBuff ;;
        LogThenThrowThisIfDSErrorMacro siStatus eDataReceiveErr_NoDataBuff ;;
        rc' <- getF inOutRecEntryCount ;;
        (if negb (isNil rc') then
           (* Get the record count *)
           Get_Value_FromMsg w idx kAttrRecEntryCount (fun v => set_inOutRecEntryCount (Some v)) ;;
           LogThenThrowThisIfDSErrorMacro siStatus eDataReceiveErr_NoRecEntryCount
         else ret tt) ;;
        c' <- getF ioContinueData ;;
        if negb (isNil c') then
          (* Get the context data *)
          Get_Value_FromMsg w idx kContextData (fun v => set_ioContinueData (Some v)) ;;
          LogThenThrowThisIfDSErrorMacro siStatus eDataReceiveErr_NoContinueData
        else ret tt)
       (fun err => modF (set_outResult err)) ;;
     Unlock idx)
    (fun err => modF (set_outResult err)) ;;
  (* This belongs in the "catch", but the compiler is broken *)
  r <- getF outResult ;;
  (if negb (r =? eDSNoErr) && negb (r =? eDSBufferTooSmall) then
     c <- getF ioContinueData ;;
     if negb (isNil c) then modF (set_ioContinueData (Some 0))
     else ret tt
   else ret tt) ;;
  epilogue.

(** *** dsDoAttributeValueSearch *)

Definition dsDoAttributeValueSearch (w : World) (inDirNodeRef : Z)
    (outDataBuff : option tDataBuffer) (inRecTypeList : option tDataList)
    (inAttrType inPatt2Match : option tDataBuffer)
    (recCount contData : option Z) : M Z :=
  enter None recCount contData ;;
  try_catch
    (LogThenThrowIfTrueMacro (inDirNodeRef =? 0) eDSInvalidReference ;;
     assign set_messageIndex (GetMessageTableIndex w inDirNodeRef eNodeRefType) ;;
     idx <- getF messageIndex ;;
     LogThenThrowIfTrueMacro (idx >? gMaxEndpoints) eDSRefTableIndexOutOfBoundsError ;;
     e <- table_get idx ;;
     LogThenThrowIfNilMacro e eDSRefTableEntryNilError ;;
     Lock idx ;;
     try_catch
       (ClearMessageBlock idx ;;
        (* Make sure we have a non-null data buffer *)
        modF (set_outResult (VerifyTDataBuff outDataBuff eDSNullDataBuff eDSEmptyBuffer)) ;;
        LogThenThrowIfDSErrorMacro outResult ;;
        modF (set_outResult (VerifyTNodeList inRecTypeList eDSNullRecTypeList eDSEmptyRecordTypeList)) ;;
        LogThenThrowIfDSErrorMacro outResult ;;
        modF (set_outResult (VerifyTDataBuff inAttrType eDSNullAttributeType eDSEmptyAttributeType)) ;;
        LogThenThrowIfDSErrorMacro outResult ;;
        modF (set_outResult (VerifyTDataBuff inPatt2Match eDSNullNodeNamePattern eDSEmptyPatternMatch)) ;;
        LogThenThrowIfDSErrorMacro outResult ;;
        (* Add the node reference *)
        GetRefNum w inDirNodeRef eNodeRefType ;;
        assign set_siStatus (Add_Value_ToMsg w idx ktNodeRef) ;;
        LogThenThrowThisIfDSErrorMacro siStatus eParameterSendError ;;
        (* Add the return buffer length *)
        assign set_siStatus (Add_Value_ToMsg w idx kOutBuffLen) ;;
        LogThenThrowThisIfDSErrorMacro siStatus (eParameterSendError - 1) ;;
        (* Add the record type list *)
        assign set_siStatus (Add_tDataList_ToMsg w idx kRecTypeList) ;;
        LogThenThrowThisIfDSErrorMacro siStatus (eParameterSendError - 2) ;;
        (* Add the attribute type *)
        assign set_siStatus (Add_tDataBuff_ToMsg w idx kAttrType) ;;
        LogThenThrowThisIfDSErrorMacro siStatus (eParameterSendError - 3) ;;
        (* Add the pattern match value *)
        assign set_siStatus (Add_Value_ToMsg w idx kAttrPattMatch) ;;
        LogThenThrowThisIfDSErrorMacro siStatus (eParameterSendError - 4) ;;
        (* Add the pattern match *)
        assign set_siStatus (Add_tDataBuff_ToMsg w idx kAttrMatch) ;;
        LogThenThrowThisIfDSErrorMacro siStatus (eParameterSendError - 5) ;;
        rc <- getF inOutRecEntryCount ;;
        match rc with
        | Some n =>
            (if n <? 0 then modF (set_inOutRecEntryCount (Some 0)) else ret tt) ;;
            (* Add the record count *)
            assign set_siStatus (Add_Value_ToMsg w idx kMatchRecCount) ;;
            LogThenThrowThisIfDSErrorMacro siStatus (eParameterSendError - 6)
        | None => ret tt
        end ;;
        c <- getF ioContinueData ;;
        (if negb (isNil c) then
           (* Add the context data *)
           assign set_siStatus (Add_Value_ToMsg w idx kContextData) ;;
           LogThenThrowThisIfDSErrorMacro siStatus (eParameterSendError - 7)
         else ret tt) ;;
        (* Send the message *)
        assign set_siStatus (SendInlineMessage w idx kDoAttributeValueSearch) ;;
        LogThenThrowIfDSErrorMacro siStatus ;;
        (* Get the reply *)
        assign set_siStatus (GetReplyMessage w idx) ;;
        LogThenThrowIfDSErrorMacro siStatus ;;
        (* Get the return result *)
        Get_Value_FromMsg w idx kResult set_outResult ;;
        r <- getF outResult ;;
        (if negb (r =? eDSBufferTooSmall) then
           LogThenThrowIfDSErrorMacro outResult
         else ret tt) ;;
        (* Get the data buffer *)
        Get_tDataBuff_FromMsg w idx ktDataBuff ;;
        LogThenThrowThisIfDSErrorMacro siStatus eDataReceiveErr_NoDataBuff ;;
        rc' <- getF inOutRecEntryCount ;;
        (if negb (isNil rc') then
           (* Get the record count *)
           Get_Value_FromMsg w idx kMatchRecCount (fun v => set_inOutRecEntryCount (Some v)) ;;
           LogThenThrowThisIfDSErrorMacro siStatus eDataReceiveErr_NoRecMatchCount
         else ret tt) ;;
        c' <- getF ioContinueData ;;
        if negb (isNil c') then
          (* Get the context data *)
          Get_Value_FromMsg w idx kContextData (fun v => set_ioContinueData (Some v)) ;;
          LogThenThrowThisIfDSErrorMacro siStatus eDataReceiveErr_NoContinueData
        else ret tt)
       (fun err => modF (set_outResult err)) ;;
     Unlock idx)
    (fun err => modF (set_outResult err)) ;;
  epilogue.

(** *** dsOpenDirServiceLocal *)

(** Modelled from the spec: DSIsStringEmpty is not among the sources; it
    holds of a "null/empty path". *)
Definition DSIsStringEmpty (p : option (list ascii)) : bool :=
  match p with
  | None => true
  | Some [] => true
  | Some (_ :: _) => false
  end.

(** The statements on [newPath] before the global lock is taken; the
    result is the array [char newPath[PATH_MAX+1]]. *)
Definition normalize_path (inFilePath : option (list ascii)) : M (list ascii) :=
  let newPath := replicate (PATH_MAX + 1) NUL in
  (* see if we need to set a default path *)
  let newPath :=
    if DSIsStringEmpty inFilePath
       || str_eqb (default [] inFilePath) (str "Default")
    then strlcpy newPath (str "/var/db/dslocal/nodes/Default/")
    else strlcpy newPath (default [] inFilePath) in
  match c_strlen newPath with
  | None => undef
  | Some length =>
      (if (PATH_MAX <=? length)%nat then
         LogThenThrowThisIfDSErrorMacro siStatus eDSInvalidFilePath
       else ret tt) ;;
      (* ensure we have a slash *)
      match length with
      | O => undef
      | S l1 =>
          match newPath !! l1 with
          | None => undef
          | Some c =>
              let newPath :=
                if negb (Ascii.eqb c "/") then <[length := "/"%char]> newPath
                else newPath in
              (* see if we need with just "/dslocal/nodes", if so add /Default *)
              match c_str newPath with
              | None => undef
              | Some s =>
                  match strstr s (str "/dslocal/nodes/") with
                  | Some dirPath =>
                      if str_eqb dirPath (str "/dslocal/nodes/")
                      then ret (strlcat newPath (str "Default/"))
                      else ret newPath
                  | None => ret newPath
                  end
              end
          end
      end
  end.

(** [lstat( path, &st )] on the string in [buf] *)
Definition lstat (w : World) (buf : list ascii) : M (option (Z * Z)) :=
  match c_str buf with
  | None => undef
  | Some path => emit (EvLstat path) ;; ret (w_lstat w path)
  end.

Definition dsOpenDirServiceLocal (w : World) (dirRef : option Z)
    (inFilePath : option (list ascii)) : M Z :=
  function
  (enter dirRef None None ;;
   try_catch
     (p <- getF outDirRef ;;
      LogThenThrowIfNilMacro p eDSNullParameter ;;
      newPath <- normalize_path inFilePath ;;
      emit EvWaitLock ;;
      try_catch
        (forked <- getG gProcessForked ;;
         (if forked then
            __ResetAllSessions ;;
            modG (set_gProcessForked false)
          else ret tt) ;;
         (* check that this is a valid file path *)
         statResult <- lstat w newPath ;;
         LogThenThrowIfTrueMacro (isNil statResult) eDSInvalidFilePath ;;
         (* see if we have a real daemon and someone is trying to modify
            the local DB *)
         running <- dsIsDirServiceRunning w ;;
         (if running =? eDSNoErr then
            localDirStat <- lstat w (str "/var/db/dslocal/nodes/Default" ++ [NUL]) ;;
            match statResult, localDirStat with
            | Some (ino, dev), Some (ino', dev') =>
                (* if these are the same files *)
                if (ino =? ino') && (dev =? dev') then
                  emit EvSignalLock ;;
                  p <- getF outDirRef ;;
                  r <- dsOpenDirService w p ;;
                  return_ r
                else ret tt
            | _, _ => ret tt
            end
          else ret tt) ;;
         inUse <- getG gNormalDaemonInUse ;;
         if inUse then modF (set_siStatus eDSNormalDSDaemonInUse)
         else
           (* if the daemon is not registered, just return the error *)
           assign set_siStatus (dsIsDirServiceLocalRunning w) ;;
           st <- getF siStatus ;;
           if negb (st =? eDSNoErr) then ret tt
           else
             e <- table_get 0 ;;
             (if isNil e then
                New w 0 true ;;
                assign set_siStatus (OpenCommPort w true)
              else ChangeLocalDaemonUse true) ;;
             modG (fun g => set_gDSConnections (UInt32 (gDSConnections g + 1)) g) ;;
             modG (set_gLocalDaemonInUse true))
        (fun err => emit EvSignalLock ;; throw err) ;;
      emit EvSignalLock ;;
      LogThenThrowIfDSErrorMacro siStatus ;;
      e <- table_get 0 ;;
      LogThenThrowIfNilMacro e eMemoryAllocError ;;
      Lock 0 ;;
      try_catch
        (ClearMessageBlock 0 ;;
         (* Add the file path to the ds local node DB *)
         LogThenThrowIfNilMacro (if w_dsDataBufferAllocate w then Some tt else None) eMemoryAllocError ;;
         assign set_siStatus (Add_tDataBuff_ToMsg w 0 ktDataBuff) ;;
         LogThenThrowThisIfDSErrorMacro siStatus eParameterSendError ;;
         modF (set_siStatus (w_dsDataBufferDeAllocate w)) ;;
         LogThenThrowThisIfDSErrorMacro siStatus eMemoryError ;;
         (* Send the message *)
         assign set_siStatus (SendInlineMessage w 0 kOpenDirServiceLocal) ;;
         LogThenThrowIfDSErrorMacro siStatus ;;
         (* Get the reply *)
         assign set_siStatus (GetReplyMessage w 0) ;;
         LogThenThrowIfDSErrorMacro siStatus ;;
         (* Get the return result *)
         Get_Value_FromMsg w 0 kResult set_outResult ;;
         LogThenThrowIfDSErrorMacro outResult ;;
         p <- getF outDirRef ;;
         if negb (isNil p) then
           (* Get the directory reference *)
           Get_Value_FromMsg w 0 ktDirRef (fun v => set_outDirRef (Some v)) ;;
           LogThenThrowThisIfDSErrorMacro siStatus eDataReceiveErr_NoDirRef
         else ret tt)
        (fun err => modF (set_outResult err)) ;;
      Unlock 0)
     (fun err => modF (set_outResult err)) ;;
   getF outResult).

End API.

#[global] Arguments UInt32 : simpl never.
#[global] Arguments for_each : simpl never.
#[global] Arguments find_slot : simpl never.
#[global] Arguments __ResetAllSessions : simpl never.
#[global] Arguments normalize_path : simpl never.
#[global] Arguments dsOpenDirService : simpl never.

Create HintDb keeps.

(** ** Vocabulary of the properties *)

Section Vocabulary.

Context `{StatusCodes}.

(** The locals of an API function after its declarations. *)
Definition frame0 : Frame :=
  {| outResult := eDSNoErr; siStatus := eDSNoErr; messageIndex := 0;
     tableIndex := 0; serverVersion := 0; outDirRef := None;
     inOutRecEntryCount := None; ioContinueData := None |}.


(** Slot [i] of the table holds a live endpoint. *)
Definition occupied (g : Globals) (i : Z) : Prop :=
  exists c, gMessageTable g !! Z.to_nat i = Some (Some c).

(** Slot [i] of the table is nil. *)
Definition free (g : Globals) (i : Z) : Prop :=
  gMessageTable g !! Z.to_nat i = Some None.



(** What the statements on [newPath] yield in a call of
    dsOpenDirServiceLocal, whose siStatus is still eDSNoErr there. *)
Definition normalized (PATH_MAX : nat) (inFilePath : option (list ascii))
    : Res (list ascii) :=
  fst (normalize_path PATH_MAX inFilePath
         {| st_g := initial_globals 0; st_f := frame0; st_tr := [] |}).

(** The API calls of the model with their arguments. *)
Inductive ApiCall :=
| CallOpenDirService (dirRef : option Z)
| CallOpenDirServiceProxy (dirRef : option Z) (inIPPort : Z)
    (inAuthMethod inAuthStepData outAuthStepDataResponse : option tDataBuffer)
    (contData : option Z)
| CallOpenDirServiceLocal (PATH_MAX : nat) (dirRef : option Z)
    (inFilePath : option (list ascii))
| CallCloseDirService (inDirRef : Z)
| CallGetRecordList (inNodeRef : Z) (inOutDataBuff : option tDataBuffer)
    (inRecNameList inRecTypeList inAttribTypeList : option tDataList)
    (recCount contData : option Z)
| CallDoAttributeValueSearch (inDirNodeRef : Z)
    (outDataBuff : option tDataBuffer) (inRecTypeList : option tDataList)
    (inAttrType inPatt2Match : option tDataBuffer)
    (recCount contData : option Z)
| CallVerifyDirRefNum (inDirRef : Z).

Definition perform (w : World) (c : ApiCall) : M Z :=
  match c with
  | CallOpenDirService d => dsOpenDirService w d
  | CallOpenDirServiceProxy d port m a r c =>
      dsOpenDirServiceProxy w d port m a r c
  | CallOpenDirServiceLocal pm d path => dsOpenDirServiceLocal pm w d path
  | CallCloseDirService ref => dsCloseDirService w ref
  | CallGetRecordList ref b l1 l2 l3 rc c =>
      dsGetRecordList w ref b l1 l2 l3 rc c
  | CallDoAttributeValueSearch ref b l b1 b2 rc c =>
      dsDoAttributeValueSearch w ref b l b1 b2 rc c
  | CallVerifyDirRefNum ref => dsVerifyDirRefNum w ref
  end.

(** The globals a process can be in: those of program start, those after
    an API call that returned, in any world, and those of the child after
    a fork. *)
Inductive reachable : Globals -> Prop :=
| reachable_init (pid : Z) : reachable (initial_globals pid)
| reachable_call (g : Globals) (w : World) (c : ApiCall) (r : Z) (s' : St) :
    reachable g ->
    run (perform w c) g = (Ok r, s') ->
    reachable (st_g s')
| reachable_fork (g : Globals) (pid : Z) :
    reachable g ->
    reachable (__ForkChild pid g).

(** At most one of the two daemons is in use, and none while a fork is
    pending. *)
Definition exclusive (g : Globals) : Prop :=
  (gNormalDaemonInUse g = true -> gLocalDaemonInUse g = true -> False)
  /\ (gProcessForked g = true ->
      gNormalDaemonInUse g = false /\ gLocalDaemonInUse g = false).

(** A computation keeps a predicate on the state, however it ends. *)
Definition keeps (P : St -> Prop) {A} (m : M A) : Prop :=
  forall s r s', m s = (r, s') -> P s -> P s'.

(** A predicate on the globals, as one on the state. *)
Definition on_globals (P : Globals -> Prop) : St -> Prop :=
  fun s => P (st_g s).

(** The caller passed a continuation cell. *)
Definition token_given (s : St) : Prop :=
  ioContinueData (st_f s) <> None.

(** The globals other than the table are the same. *)
Definition same_flags (g g' : Globals) : Prop :=
  gNormalDaemonInUse g' = gNormalDaemonInUse g
  /\ gLocalDaemonInUse g' = gLocalDaemonInUse g
  /\ gProcessForked g' = gProcessForked g
  /\ gDSConnections g' = gDSConnections g
  /\ gProcessPID g' = gProcessPID g.

(** The states differ in the table and the trace at most. *)
Definition table_only (s s' : St) : Prop :=
  same_flags (st_g s) (st_g s') /\ st_f s' = st_f s.

End Vocabulary.

(** ** Sample inputs *)

Section Samples.

#[local] Existing Instance ref_codes.

(** lstat in a file system where both spellings of the default node
    directory are one directory and every other path is another one. *)
Definition sample_lstat (path : list ascii) : option (Z * Z) :=
  if str_eqb path (str "/var/db/dslocal/nodes/Default")
     || str_eqb path (str "/var/db/dslocal/nodes/Default/")
  then Some (2, 1) else Some (3, 1).

(** Everything succeeds; references resolve to slot [idx]; both daemons
    are registered. *)
Definition world_ok (idx : Z) : World := {|
  w_GetMessageTableIndex := fun _ _ _ => idx;
  w_GetRefNum := fun ref _ _ => ref;
  w_NewDirRefMap := fun _ aRef _ => aRef + 1000;
  w_new := true;
  w_OpenCommPort := eDSNoErr;
  w_ConfigTCP := eDSNoErr;
  w_OpenTCPEndpoint := eDSNoErr;
  w_Add := fun _ => eDSNoErr;
  w_Send := eDSNoErr;
  w_Reply := eDSNoErr;
  w_Get := fun t =>
    match t with
    | kResult => (eDSNoErr, Some eDSNoErr)
    | ktDirRef => (eDSNoErr, Some 77)
    | kContextData => (eDSNoErr, Some 0)
    | _ => (eDSNoErr, Some 1)
    end;
  w_dsDataBufferAllocate := true;
  w_dsDataBufferDeAllocate := eDSNoErr;
  w_bootstrap_look_up := fun _ => 0;
  w_lstat := sample_lstat
|}.

(** The same world with one answer changed. *)
Definition with_Add (t : Tag -> Z) (w : World) : World := {|
  w_GetMessageTableIndex := w_GetMessageTableIndex w;
  w_GetRefNum := w_GetRefNum w; w_NewDirRefMap := w_NewDirRefMap w;
  w_new := w_new w; w_OpenCommPort := w_OpenCommPort w;
  w_ConfigTCP := w_ConfigTCP w; w_OpenTCPEndpoint := w_OpenTCPEndpoint w;
  w_Add := t; w_Send := w_Send w; w_Reply := w_Reply w; w_Get := w_Get w;
  w_dsDataBufferAllocate := w_dsDataBufferAllocate w;
  w_dsDataBufferDeAllocate := w_dsDataBufferDeAllocate w;
  w_bootstrap_look_up := w_bootstrap_look_up w; w_lstat := w_lstat w |}.

Definition with_Send (v : Z) (w : World) : World := {|
  w_GetMessageTableIndex := w_GetMessageTableIndex w;
  w_GetRefNum := w_GetRefNum w; w_NewDirRefMap := w_NewDirRefMap w;
  w_new := w_new w; w_OpenCommPort := w_OpenCommPort w;
  w_ConfigTCP := w_ConfigTCP w; w_OpenTCPEndpoint := w_OpenTCPEndpoint w;
  w_Add := w_Add w; w_Send := v; w_Reply := w_Reply w; w_Get := w_Get w;
  w_dsDataBufferAllocate := w_dsDataBufferAllocate w;
  w_dsDataBufferDeAllocate := w_dsDataBufferDeAllocate w;
  w_bootstrap_look_up := w_bootstrap_look_up w; w_lstat := w_lstat w |}.

Definition with_Get (t : Tag -> Z * option Z) (w : World) : World := {|
  w_GetMessageTableIndex := w_GetMessageTableIndex w;
  w_GetRefNum := w_GetRefNum w; w_NewDirRefMap := w_NewDirRefMap w;
  w_new := w_new w; w_OpenCommPort := w_OpenCommPort w;
  w_ConfigTCP := w_ConfigTCP w; w_OpenTCPEndpoint := w_OpenTCPEndpoint w;
  w_Add := w_Add w; w_Send := w_Send w; w_Reply := w_Reply w; w_Get := t;
  w_dsDataBufferAllocate := w_dsDataBufferAllocate w;
  w_dsDataBufferDeAllocate := w_dsDataBufferDeAllocate w;
  w_bootstrap_look_up := w_bootstrap_look_up w; w_lstat := w_lstat w |}.

Definition with_ConfigTCP (v : Z) (w : World) : World := {|
  w_GetMessageTableIndex := w_GetMessageTableIndex w;
  w_GetRefNum := w_GetRefNum w; w_NewDirRefMap := w_NewDirRefMap w;
  w_new := w_new w; w_OpenCommPort := w_OpenCommPort w;
  w_ConfigTCP := v; w_OpenTCPEndpoint := w_OpenTCPEndpoint w;
  w_Add := w_Add w; w_Send := w_Send w; w_Reply := w_Reply w; w_Get := w_Get w;
  w_dsDataBufferAllocate := w_dsDataBufferAllocate w;
  w_dsDataBufferDeAllocate := w_dsDataBufferDeAllocate w;
  w_bootstrap_look_up := w_bootstrap_look_up w; w_lstat := w_lstat w |}.

Definition with_OpenTCPEndpoint (v : Z) (w : World) : World := {|
  w_GetMessageTableIndex := w_GetMessageTableIndex w;
  w_GetRefNum := w_GetRefNum w; w_NewDirRefMap := w_NewDirRefMap w;
  w_new := w_new w; w_OpenCommPort := w_OpenCommPort w;
  w_ConfigTCP := w_ConfigTCP w; w_OpenTCPEndpoint := v;
  w_Add := w_Add w; w_Send := w_Send w; w_Reply := w_Reply w; w_Get := w_Get w;
  w_dsDataBufferAllocate := w_dsDataBufferAllocate w;
  w_dsDataBufferDeAllocate := w_dsDataBufferDeAllocate w;
  w_bootstrap_look_up := w_bootstrap_look_up w; w_lstat := w_lstat w |}.

Definition with_bootstrap_look_up (v : bool -> Z) (w : World) : World := {|
  w_GetMessageTableIndex := w_GetMessageTableIndex w;
  w_GetRefNum := w_GetRefNum w; w_NewDirRefMap := w_NewDirRefMap w;
  w_new := w_new w; w_OpenCommPort := w_OpenCommPort w;
  w_ConfigTCP := w_ConfigTCP w; w_OpenTCPEndpoint := w_OpenTCPEndpoint w;
  w_Add := w_Add w; w_Send := w_Send w; w_Reply := w_Reply w; w_Get := w_Get w;
  w_dsDataBufferAllocate := w_dsDataBufferAllocate w;
  w_dsDataBufferDeAllocate := w_dsDataBufferDeAllocate w;
  w_bootstrap_look_up := v; w_lstat := w_lstat w |}.

(** The daemon answers the request with the result code [r]. *)
Definition with_result (r : Z) (w : World) : World :=
  with_Get (fun t => match t with
                     | kResult => (eDSNoErr, Some r)
                     | _ => w_Get w t
                     end) w.

Definition a_buffer : option tDataBuffer :=
  Some {| fBufferSize := 64; fBufferLength := 8 |}.

Definition a_list : option tDataList := Some {| fDataNodeCount := 1 |}.

Definition tcp_endpoint : option CMessaging :=
  Some {| fMachEndpoint := false; fServerVersion := 1 |}.

Definition mach_endpoint : option CMessaging :=
  Some {| fMachEndpoint := true; fServerVersion := 0 |}.

(** The process after its first successful dsOpenDirService. *)
Definition one_local_session : Globals :=
  st_g (snd (run (dsOpenDirService (world_ok 0) (Some 0)) (initial_globals 100))).

(** A process with the table [t] and no fork pending. *)
Definition globals_with (t : list (option CMessaging)) : Globals := {|
  gMessageTable := t;
  gDSConnections := 0;
  gNormalDaemonInUse := false;
  gLocalDaemonInUse := false;
  gTranslateBit := 0;
  gProcessForked := false;
  gProcessPID := 100
|}.

(** A world in which only the request field [bad] cannot be appended. *)
Definition world_bad_field (bad : Tag -> bool) : World :=
  with_Add (fun t => if bad t then eMemoryError else eDSNoErr) (world_ok 0).

Definition is_kNodeCount (t : Tag) : bool :=
  match t with kNodeCount => true | _ => false end.

Definition is_kContextData (t : Tag) : bool :=
  match t with kContextData => true | _ => false end.

(** The normal daemon is not registered, the local-only one is. *)
Definition world_local_only : World :=
  with_bootstrap_look_up (fun local => if local then 0 else 1) (world_ok 0).

(** A path of [PATH_MAX] characters that ends in a slash. *)
Definition overlength_path : list ascii := repeat "a"%char 1023 ++ ["/"%char].

(** The globals after [n] calls of dsOpenDirServiceProxy in each of which
    ConfigTCP fails. *)
Definition after_failed_configs (n : nat) : Globals :=
  Nat.iter n
    (fun g => st_g (snd (run (dsOpenDirServiceProxy
                                (with_ConfigTCP eDSNullParameter (world_ok 0))
                                (Some 0) 0 a_buffer a_buffer a_buffer None) g)))
    one_local_session.


(** All eight remote slots hold a session. *)
Definition eight_sessions : Globals :=
  globals_with (mach_endpoint :: replicate 8 tcp_endpoint).

End Samples.

(** ** The operations on an open session

    dsAddChildPIDToReference, dsGetDirNodeCount, dsGetDirNodeCountWithInfo,
    dsGetDirNodeList, dsReleaseContinueData, dsFindDirNodes, dsOpenDirNode,
    dsCloseDirNode, dsDoDirNodeAuth, dsDoDirNodeAuthOnRecordType and
    dsDoPlugInCustomCall use request fields, opcodes, status codes and
    out-parameters beyond those of the calls above.  Their state adds the
    cells of those out-parameters to the globals and the frame, and their
    trace adds the calls that carry the further vocabulary. *)

(** The status codes and the [tDirPatternMatch] values that only these
    operations name; their values are declared in DirServicesTypes.h. *)
Class SessionCodes := {
  eDSInvalidContext : Z;
  eDataReceiveErr_NoNodeCount : Z;
  eDataReceiveErr_NoNodeChangeToken : Z;
  eDSNullNodeName : Z;
  eDSEmptyNodeName : Z;
  eDSEmptyNodeNamePattern : Z;
  eDSNullRecType : Z;
  eDSEmptyRecordType : Z;
  eDSLocalNodeNames : Z;
  eDSConfigNodeName : Z;
  eDSAuthenticationSearchNodeName : Z;
  eDSContactsSearchNodeName : Z;
  eDSNetworkSearchNodeName : Z;
  eDSLocalHostedNodes : Z;
  eDSDefaultNetworkNodes : Z
}.

(** One assignment of values, used to run the model on concrete inputs. *)
Definition ref_session_codes : SessionCodes := {|
  eDSInvalidContext := -14097;
  eDataReceiveErr_NoNodeCount := -14707;
  eDataReceiveErr_NoNodeChangeToken := -14724;
  eDSNullNodeName := -14204;
  eDSEmptyNodeName := -14205;
  eDSEmptyNodeNamePattern := -14212;
  eDSNullRecType := -14216;
  eDSEmptyRecordType := -14217;
  eDSLocalNodeNames := 0x2200;
  eDSConfigNodeName := 0x2202;
  eDSAuthenticationSearchNodeName := 0x2201;
  eDSContactsSearchNodeName := 0x2204;
  eDSNetworkSearchNodeName := 0x2205;
  eDSLocalHostedNodes := 0x2203;
  eDSDefaultNetworkNodes := 0x2206
|}.

(** Field tags: those of the calls above and the further ones. *)
Inductive Field :=
| common (t : Tag)
| ktPidRef | ktGenericRef | kNodeChangeToken | kNodeNamePatt | kDirNodeName
| kAuthOnlyBool | kRecTypeBuff | kAuthStepDataResponse
| ktNodeRefMap | kCustomRequestCode.

Coercion common : Tag >-> Field.

(** The opcodes of these operations. *)
Inductive Request :=
| kAddChildPIDToReference | kGetDirNodeCount | kGetDirNodeChangeToken
| kGetDirNodeList | kReleaseContinueData | kFindDirNodes
| kOpenDirNode | kCloseDirNode
| kDoDirNodeAuth | kDoDirNodeAuthOnRecordType | kDoPlugInCustomCall.

(** The calls to the collaborators: those of [Event] and the ones with
    the further vocabulary, which record the value that goes on the
    wire. *)
Inductive Call :=
| base (e : Event)
| EvAddValue (idx : Z) (v : Z) (f : Field)     (* Add_Value_ToMsg *)
| EvAddBuff (idx : Z) (f : Field)              (* Add_tDataBuff_ToMsg *)
| EvAddList (idx : Z) (f : Field)              (* Add_tDataList_ToMsg *)
| EvSendRequest (idx : Z) (r : Request)        (* SendInlineMessage *)
| EvGetValue (idx : Z) (f : Field)             (* Get_Value_FromMsg *)
| EvGetBuff (idx : Z) (f : Field)              (* Get_tDataBuff_FromMsg *)
| EvRemoveNodeRef (ref : Z)
| EvNewNodeRefMap (inDirRef aRef idx : Z) (pluginNameLength : option Z)
| EvMapServerRefToLocalRef (serverRef ref : Z)
| EvGetDataLength                              (* dsGetDataLength *)
| EvDataListGetNodeAlloc                       (* dsDataListGetNodeAlloc *)
| EvCalloc (n : Z)
| EvDataBufferDeAllocate.

(** The answers of the collaborators during one of these operations. *)
Record WorldX := {
  wx_base : World;
  w_AddField : Field -> Z;                 (* status of Add_*_ToMsg *)
  w_SendRequest : Z;                       (* status of SendInlineMessage *)
  w_GetField : Field -> Z * option Z;      (* status of Get_*_FromMsg and
                                              the value stored *)
  w_NewNodeRefMap : Z -> Z -> Z -> Z -> Z; (* by inDirRef, pid, aRef, index:
                                              the reference handed out *)
  w_dsDataListGetNodeAlloc : option tDataBuffer;   (* the node, or nil *)
  w_calloc : bool                          (* calloc returns memory *)
}.

Coercion wx_base : WorldX >-> World.

(** The cells behind the out-pointers of these operations and the
    locals that only they declare. *)
Record Cells := {
  outNodeCount : option Z;
  outDirectoryNodeChangeToken : option Z;
  outDirNodeCount : option Z;
  outDirNodeRef : option Z;
  bSendList : bool;
  blockLen : Z;
  serverNodeRef : Z
}.

Definition no_cells : Cells :=
  {| outNodeCount := None; outDirectoryNodeChangeToken := None;
     outDirNodeCount := None; outDirNodeRef := None; bSendList := true;
     blockLen := 0; serverNodeRef := 0 |}.

Definition set_outNodeCount (v : option Z) (c : Cells) :=
  {| outNodeCount := v;
     outDirectoryNodeChangeToken := outDirectoryNodeChangeToken c;
     outDirNodeCount := outDirNodeCount c; outDirNodeRef := outDirNodeRef c;
     bSendList := bSendList c; blockLen := blockLen c;
     serverNodeRef := serverNodeRef c |}.

Definition set_outDirectoryNodeChangeToken (v : option Z) (c : Cells) :=
  {| outNodeCount := outNodeCount c;
     outDirectoryNodeChangeToken := v;
     outDirNodeCount := outDirNodeCount c; outDirNodeRef := outDirNodeRef c;
     bSendList := bSendList c; blockLen := blockLen c;
     serverNodeRef := serverNodeRef c |}.

Definition set_outDirNodeCount (v : option Z) (c : Cells) :=
  {| outNodeCount := outNodeCount c;
     outDirectoryNodeChangeToken := outDirectoryNodeChangeToken c;
     outDirNodeCount := v; outDirNodeRef := outDirNodeRef c;
     bSendList := bSendList c; blockLen := blockLen c;
     serverNodeRef := serverNodeRef c |}.

Definition set_outDirNodeRef (v : option Z) (c : Cells) :=
  {| outNodeCount := outNodeCount c;
     outDirectoryNodeChangeToken := outDirectoryNodeChangeToken c;
     outDirNodeCount := outDirNodeCount c; outDirNodeRef := v;
     bSendList := bSendList c; blockLen := blockLen c;
     serverNodeRef := serverNodeRef c |}.

Definition set_bSendList (v : bool) (c : Cells) :=
  {| outNodeCount := outNodeCount c;
     outDirectoryNodeChangeToken := outDirectoryNodeChangeToken c;
     outDirNodeCount := outDirNodeCount c; outDirNodeRef := outDirNodeRef c;
     bSendList := v; blockLen := blockLen c;
     serverNodeRef := serverNodeRef c |}.

Definition set_blockLen (v : Z) (c : Cells) :=
  {| outNodeCount := outNodeCount c;
     outDirectoryNodeChangeToken := outDirectoryNodeChangeToken c;
     outDirNodeCount := outDirNodeCount c; outDirNodeRef := outDirNodeRef c;
     bSendList := bSendList c; blockLen := v;
     serverNodeRef := serverNodeRef c |}.

Definition set_serverNodeRef (v : Z) (c : Cells) :=
  {| outNodeCount := outNodeCount c;
     outDirectoryNodeChangeToken := outDirectoryNodeChangeToken c;
     outDirNodeCount := outDirNodeCount c; outDirNodeRef := outDirNodeRef c;
     bSendList := bSendList c; blockLen := blockLen c;
     serverNodeRef := v |}.

(** *** The monad of these operations *)

Record StX := {
  x_g : Globals; x_f : Frame; x_c : Cells; x_tr : list Call
}.

Definition MX (A : Type) : Type := StX -> Res A * StX.

(** A computation of the calls above, run on the globals and the frame;
    its calls go to the end of the trace. *)
Definition lift {A} (m : M A) : MX A :=
  fun s =>
    let (r, s') := m {| st_g := x_g s; st_f := x_f s; st_tr := [] |} in
    (r, {| x_g := st_g s'; x_f := st_f s'; x_c := x_c s;
           x_tr := x_tr s ++ map base (st_tr s') |}).

Coercion lift : M >-> MX.

Definition bindX {A B} (m : MX A) (k : A -> MX B) : MX B :=
  fun s =>
    match m s with
    | (Ok a, s') => k a s'
    | (Throw e, s') => (Throw e, s')
    | (Return v, s') => (Return v, s')
    | (Undef, s') => (Undef, s')
    end.

(** [try { m } catch ( SInt32 err ) { h err }] *)
Definition try_catchX {A} (m : MX A) (h : Z -> MX A) : MX A :=
  fun s =>
    match m s with
    | (Throw e, s') => h e s'
    | r => r
    end.

Declare Scope session_scope.
Delimit Scope session_scope with session.
Notation "x <- c1 ;; c2" := (bindX c1 (fun x => c2))
  (at level 100, c1 at next level, right associativity) : session_scope.
Notation "c1 ;; c2" := (bindX c1 (fun _ => c2))
  (at level 100, right associativity) : session_scope.

Definition emitX (c : Call) : MX unit :=
  fun s => (Ok tt, {| x_g := x_g s; x_f := x_f s; x_c := x_c s;
                      x_tr := x_tr s ++ [c] |}).

Definition getC {A} (p : Cells -> A) : MX A := fun s => (Ok (p (x_c s)), s).

Definition modC (u : Cells -> Cells) : MX unit :=
  fun s => (Ok tt, {| x_g := x_g s; x_f := x_f s; x_c := u (x_c s);
                      x_tr := x_tr s |}).

(** [x = m] for a local [x] of the frame *)
Definition assignX {A} (set : A -> Frame -> Frame) (m : MX A) : MX unit :=
  bindX m (fun v => lift (modF (set v))).

(** A method of [gMessageTable[idx]] that returns what the world says. *)
Definition methodX {A} (idx : Z) (c : Call) (a : A) : MX A :=
  bindX (lift (deref idx)) (fun _ => bindX (emitX c) (fun _ => lift (ret a))).

Definition runX {A} (m : MX A) (g : Globals) : Res A * StX :=
  m {| x_g := g;
       x_f := {| outResult := 0; siStatus := 0; messageIndex := 0;
                 tableIndex := 0; serverVersion := 0; outDirRef := None;
                 inOutRecEntryCount := None; ioContinueData := None |};
       x_c := no_cells;
       x_tr := [] |}.

Section SessionAPI.

Context `{StatusCodes} `{SessionCodes}.

(** The translation condition [#ifdef __LITTLE_ENDIAN__]. *)
Variable LITTLE_ENDIAN : bool.

Local Open Scope session_scope.

(** The declarations and initialisers at the head of an operation, with
    the cells behind the out-pointers it was called with. *)
Definition enterX (contData : option Z) (c : Cells) : MX unit :=
  enter None None contData ;;
  modC (fun _ => c).

(** [LogThenThrowIfZeroMacro] of DSLogException.h *)
Definition LogThenThrowIfZeroMacro (v e : Z) : M unit :=
  if v =? 0 then throw e else ret tt.

(** *** CMessaging and CDSRefMap calls *)

Definition Add_Value_ToMsgX (w : WorldX) (idx v : Z) (f : Field) : MX Z :=
  methodX idx (EvAddValue idx v f) (w_AddField w f).
Definition Add_tDataBuff_ToMsgX (w : WorldX) (idx : Z) (f : Field) : MX Z :=
  methodX idx (EvAddBuff idx f) (w_AddField w f).
Definition Add_tDataList_ToMsgX (w : WorldX) (idx : Z) (f : Field) : MX Z :=
  methodX idx (EvAddList idx f) (w_AddField w f).
Definition SendInlineMessageX (w : WorldX) (idx : Z) (r : Request) : MX Z :=
  methodX idx (EvSendRequest idx r) (w_SendRequest w).

(** [siStatus = gMessageTable[idx]->Get_Value_FromMsg( &cell, f )]: the
    status goes to [siStatus]; what the call stored through the pointer,
    if anything, goes to the cell. *)
Definition Get_Value_FromMsgX (w : WorldX) (idx : Z) (f : Field)
    (store : Z -> MX unit) : MX unit :=
  r <- methodX idx (EvGetValue idx f) (w_GetField w f) ;;
  modF (set_siStatus (fst r)) ;;
  match snd r with
  | Some v => store v
  | None => ret tt
  end.

(** The same for a block-local variable holding [init]; returns its
    value afterwards. *)
Definition Get_Value_FromMsg_localX (w : WorldX) (idx : Z) (f : Field)
    (init : Z) : MX Z :=
  r <- methodX idx (EvGetValue idx f) (w_GetField w f) ;;
  modF (set_siStatus (fst r)) ;;
  ret (default init (snd r)).

(** [siStatus = gMessageTable[idx]->Get_tDataBuff_FromMsg( &buff, f )] *)
Definition Get_tDataBuff_FromMsgX (w : WorldX) (idx : Z) (f : Field)
    : MX unit :=
  r <- methodX idx (EvGetBuff idx f) (w_GetField w f) ;;
  modF (set_siStatus (fst r)).

(** *** dsAddChildPIDToReference *)

Definition dsAddChildPIDToReference (w : WorldX)
    (inDirRef inValidChildPID inValidAPIReferenceToGrantChild : Z) : MX Z :=
  enterX None no_cells ;;
  try_catchX
    (LogThenThrowIfTrueMacro (inDirRef =? 0) eDSInvalidReference ;;
     assign set_messageIndex (GetMessageTableIndex w inDirRef eDirectoryRefType) ;;
     idx <- getF messageIndex ;;
     LogThenThrowIfTrueMacro (idx >? gMaxEndpoints)
       eDSRefTableIndexOutOfBoundsError ;;
     e <- table_get idx ;;
     LogThenThrowIfNilMacro e eDSRefTableEntryNilError ;;
     Lock idx ;;
     try_catchX
       (ClearMessageBlock idx ;;
        (* Add the directory reference *)
        v <- GetRefNum w inDirRef eDirectoryRefType ;;
        assignX set_siStatus (Add_Value_ToMsgX w idx v ktDirRef) ;;
        LogThenThrowThisIfDSErrorMacro siStatus eParameterSendError ;;
        (* Add the child process PID *)
        assignX set_siStatus (Add_Value_ToMsgX w idx inValidChildPID ktPidRef) ;;
        LogThenThrowThisIfDSErrorMacro siStatus eParameterSendError ;;
        (* Add the node reference to which access to the child is to be
           granted *)
        v <- GetRefNum w inValidAPIReferenceToGrantChild eNodeRefType ;;
        assignX set_siStatus (Add_Value_ToMsgX w idx v ktGenericRef) ;;
        LogThenThrowThisIfDSErrorMacro siStatus eParameterSendError ;;
        (* Send the message *)
        assignX set_siStatus (SendInlineMessageX w idx kAddChildPIDToReference) ;;
        LogThenThrowIfDSErrorMacro siStatus ;;
        (* Get the reply *)
        assign set_siStatus (GetReplyMessage w idx) ;;
        LogThenThrowIfDSErrorMacro siStatus ;;
        (* Get the return result *)
        Get_Value_FromMsgX w idx kResult (fun v => modF (set_outResult v)) ;;
        LogThenThrowIfDSErrorMacro outResult)
       (fun err => modF (set_outResult err)) ;;
     Unlock idx)
    (fun err => modF (set_outResult err)) ;;
  epilogue.

(** *** dsGetDirNodeCount *)

Definition dsGetDirNodeCount (w : WorldX) (inDirRef : Z)
    (nodeCount : option Z) : MX Z :=
  enterX None (set_outNodeCount nodeCount no_cells) ;;
  try_catchX
    (p <- getC outNodeCount ;;
     LogThenThrowIfNilMacro p eDSNullParameter ;;
     LogThenThrowIfTrueMacro (inDirRef =? 0) eDSInvalidReference ;;
     assign set_messageIndex (GetMessageTableIndex w inDirRef eDirectoryRefType) ;;
     idx <- getF messageIndex ;;
     LogThenThrowIfTrueMacro (idx >? gMaxEndpoints)
       eDSRefTableIndexOutOfBoundsError ;;
     e <- table_get idx ;;
     LogThenThrowIfNilMacro e eDSRefTableEntryNilError ;;
     Lock idx ;;
     try_catchX
       (ClearMessageBlock idx ;;
        (* Add the directory reference *)
        v <- GetRefNum w inDirRef eDirectoryRefType ;;
        assignX set_siStatus (Add_Value_ToMsgX w idx v ktDirRef) ;;
        LogThenThrowThisIfDSErrorMacro siStatus eParameterSendError ;;
        (* Send the message *)
        assignX set_siStatus (SendInlineMessageX w idx kGetDirNodeCount) ;;
        LogThenThrowIfDSErrorMacro siStatus ;;
        (* Get the reply *)
        assign set_siStatus (GetReplyMessage w idx) ;;
        LogThenThrowIfDSErrorMacro siStatus ;;
        (* Get the return result *)
        Get_Value_FromMsgX w idx kResult (fun v => modF (set_outResult v)) ;;
        LogThenThrowIfDSErrorMacro outResult ;;
        p <- getC outNodeCount ;;
        if negb (isNil p) then
          (* Get the node count *)
          Get_Value_FromMsgX w idx kNodeCount
            (fun v => modC (set_outNodeCount (Some v))) ;;
          LogThenThrowThisIfDSErrorMacro siStatus eDataReceiveErr_NoNodeCount
        else ret tt)
       (fun err => modF (set_outResult err)) ;;
     Unlock idx)
    (fun err => modF (set_outResult err)) ;;
  epilogue.

(** *** dsGetDirNodeCountWithInfo *)

Definition dsGetDirNodeCountWithInfo (w : WorldX) (inDirRef : Z)
    (nodeCount changeToken : option Z) : MX Z :=
  enterX None
    (set_outDirectoryNodeChangeToken changeToken
       (set_outNodeCount nodeCount no_cells)) ;;
  try_catchX
    (LogThenThrowIfTrueMacro (inDirRef =? 0) eDSInvalidReference ;;
     p <- getC outNodeCount ;;
     q <- getC outDirectoryNodeChangeToken ;;
     (* need at least one container to make the call worth it *)
     LogThenThrowIfTrueMacro (isNil p && isNil q) eDSNullParameter ;;
     assign set_messageIndex (GetMessageTableIndex w inDirRef eDirectoryRefType) ;;
     idx <- getF messageIndex ;;
     LogThenThrowIfTrueMacro (idx >? gMaxEndpoints)
       eDSRefTableIndexOutOfBoundsError ;;
     e <- table_get idx ;;
     LogThenThrowIfNilMacro e eDSRefTableEntryNilError ;;
     Lock idx ;;
     try_catchX
       (ClearMessageBlock idx ;;
        (* Add the directory reference *)
        v <- GetRefNum w inDirRef eDirectoryRefType ;;
        assignX set_siStatus (Add_Value_ToMsgX w idx v ktDirRef) ;;
        LogThenThrowThisIfDSErrorMacro siStatus eParameterSendError ;;
        (* Send the message *)
        assignX set_siStatus (SendInlineMessageX w idx kGetDirNodeChangeToken) ;;
        LogThenThrowIfDSErrorMacro siStatus ;;
        (* Get the reply *)
        assign set_siStatus (GetReplyMessage w idx) ;;
        LogThenThrowIfDSErrorMacro siStatus ;;
        (* Get the return result *)
        Get_Value_FromMsgX w idx kResult (fun v => modF (set_outResult v)) ;;
        LogThenThrowIfDSErrorMacro outResult ;;
        p <- getC outNodeCount ;;
        (if negb (isNil p) then
           (* Get the node count *)
           Get_Value_FromMsgX w idx kNodeCount
             (fun v => modC (set_outNodeCount (Some v))) ;;
           LogThenThrowThisIfDSErrorMacro siStatus eDataReceiveErr_NoNodeCount
         else ret tt) ;;
        q <- getC outDirectoryNodeChangeToken ;;
        if negb (isNil q) then
          (* Get the node change token *)
          Get_Value_FromMsgX w idx kNodeChangeToken
            (fun v => modC (set_outDirectoryNodeChangeToken (Some v))) ;;
          LogThenThrowThisIfDSErrorMacro siStatus
            eDataReceiveErr_NoNodeChangeToken
        else ret tt)
       (fun err => modF (set_outResult err)) ;;
     Unlock idx)
    (fun err => modF (set_outResult err)) ;;
  epilogue.

(** *** dsGetDirNodeList *)

Definition dsGetDirNodeList (w : WorldX) (inDirRef : Z)
    (outDataBuff : option tDataBuffer) (nodeCount contData : option Z)
    : MX Z :=
  enterX contData (set_outNodeCount nodeCount no_cells) ;;
  try_catchX
    (LogThenThrowIfTrueMacro (inDirRef =? 0) eDSInvalidReference ;;
     p <- getC outNodeCount ;;
     LogThenThrowIfNilMacro p eDSNullParameter ;;
     (* ability to accept continue data not enforced *)
     assign set_messageIndex (GetMessageTableIndex w inDirRef eDirectoryRefType) ;;
     idx <- getF messageIndex ;;
     LogThenThrowIfTrueMacro (idx >? gMaxEndpoints)
       eDSRefTableIndexOutOfBoundsError ;;
     e <- table_get idx ;;
     LogThenThrowIfNilMacro e eDSRefTableEntryNilError ;;
     Lock idx ;;
     try_catchX
       (ClearMessageBlock idx ;;
        (* Make sure we have a non-null output buffer *)
        modF (set_outResult
                (VerifyTDataBuff outDataBuff eDSNullDataBuff eDSEmptyBuffer)) ;;
        LogThenThrowIfDSErrorMacro outResult ;;
        (* Add the directory reference *)
        v <- GetRefNum w inDirRef eDirectoryRefType ;;
        assignX set_siStatus (Add_Value_ToMsgX w idx v ktDirRef) ;;
        LogThenThrowThisIfDSErrorMacro siStatus eParameterSendError ;;
        (* Add the return buffer length *)
        match outDataBuff with
        | None => undef
        | Some b =>
            assignX set_siStatus
              (Add_Value_ToMsgX w idx (fBufferSize b) kOutBuffLen)
        end ;;
        LogThenThrowThisIfDSErrorMacro siStatus (eParameterSendError - 1) ;;
        c <- getF ioContinueData ;;
        match c with
        | Some token =>
            (* Add the context data *)
            assignX set_siStatus
              (Add_Value_ToMsgX w idx (UInt32 token) kContextData) ;;
            LogThenThrowThisIfDSErrorMacro siStatus (eParameterReceiveError - 2)
        | None => ret tt
        end ;;
        (* Send the message *)
        assignX set_siStatus (SendInlineMessageX w idx kGetDirNodeList) ;;
        LogThenThrowIfDSErrorMacro siStatus ;;
        (* Get the reply *)
        assign set_siStatus (GetReplyMessage w idx) ;;
        LogThenThrowIfDSErrorMacro siStatus ;;
        (* Get the return result *)
        Get_Value_FromMsgX w idx kResult (fun v => modF (set_outResult v)) ;;
        LogThenThrowIfDSErrorMacro outResult ;;
        (* Get the data buffer *)
        Get_tDataBuff_FromMsgX w idx ktDataBuff ;;
        LogThenThrowThisIfDSErrorMacro siStatus eDataReceiveErr_NoDataBuff ;;
        p <- getC outNodeCount ;;
        (if negb (isNil p) then
           (* Get the node count *)
           Get_Value_FromMsgX w idx kNodeCount
             (fun v => modC (set_outNodeCount (Some v))) ;;
           LogThenThrowThisIfDSErrorMacro siStatus eDataReceiveErr_NoNodeCount
         else ret tt) ;;
        c <- getF ioContinueData ;;
        if negb (isNil c) then
          (* Get the context data *)
          Get_Value_FromMsgX w idx kContextData
            (fun v => modF (set_ioContinueData (Some v))) ;;
          LogThenThrowThisIfDSErrorMacro siStatus eDataReceiveErr_NoContinueData
        else ret tt)
       (fun err => modF (set_outResult err)) ;;
     Unlock idx)
    (fun err => modF (set_outResult err)) ;;
  epilogue.

(** *** dsReleaseContinueData *)

Definition dsReleaseContinueData (w : WorldX)
    (inDirReference inContinueData : Z) : MX Z :=
  enterX None no_cells ;;
  try_catchX
    (LogThenThrowIfTrueMacro (inDirReference =? 0) eDSInvalidReference ;;
     (* LogThenThrowIfZeroMacro under __LP64__, LogThenThrowIfNilMacro
        otherwise *)
     LogThenThrowIfZeroMacro inContinueData eDSInvalidContext ;;
     assign set_messageIndex (GetMessageTableIndex w inDirReference eDirectoryRefType) ;;
     idx <- getF messageIndex ;;
     LogThenThrowIfTrueMacro (idx >? gMaxEndpoints)
       eDSRefTableIndexOutOfBoundsError ;;
     e <- table_get idx ;;
     LogThenThrowIfNilMacro e eDSRefTableEntryNilError ;;
     Lock idx ;;
     try_catchX
       (ClearMessageBlock idx ;;
        (* Add the dir or node reference *)
        assignX set_siStatus (Add_Value_ToMsgX w idx inDirReference ktDirRef) ;;
        LogThenThrowThisIfDSErrorMacro siStatus eParameterSendError ;;
        (* Add the continue data *)
        assignX set_siStatus
          (Add_Value_ToMsgX w idx (UInt32 inContinueData) kContextData) ;;
        LogThenThrowThisIfDSErrorMacro siStatus eParameterSendError ;;
        (* Send the message *)
        assignX set_siStatus (SendInlineMessageX w idx kReleaseContinueData) ;;
        LogThenThrowIfDSErrorMacro siStatus ;;
        (* Get the reply *)
        assign set_siStatus (GetReplyMessage w idx) ;;
        LogThenThrowIfDSErrorMacro siStatus ;;
        (* Get the return result *)
        Get_Value_FromMsgX w idx kResult (fun v => modF (set_outResult v)) ;;
        LogThenThrowIfDSErrorMacro outResult)
       (fun err => modF (set_outResult err)) ;;
     Unlock idx)
    (fun err => modF (set_outResult err)) ;;
  epilogue.

(** *** dsFindDirNodes *)

(** The pattern match types for which no node name pattern is sent. *)
Definition names_its_nodes (inPatternMatchType : Z) : bool :=
  (inPatternMatchType =? eDSLocalNodeNames)
  || (inPatternMatchType =? eDSConfigNodeName)
  || (inPatternMatchType =? eDSAuthenticationSearchNodeName)
  || (inPatternMatchType =? eDSContactsSearchNodeName)
  || (inPatternMatchType =? eDSNetworkSearchNodeName)
  || (inPatternMatchType =? eDSLocalHostedNodes)
  || (inPatternMatchType =? eDSDefaultNetworkNodes).

Definition dsFindDirNodes (w : WorldX) (inDirRef : Z)
    (outDataBuff : option tDataBuffer) (inNodeNamePattern : option tDataList)
    (inPatternMatchType : Z) (dirNodeCount contData : option Z) : MX Z :=
  enterX contData (set_outDirNodeCount dirNodeCount no_cells) ;;
  try_catchX
    (LogThenThrowIfTrueMacro (inDirRef =? 0) eDSInvalidReference ;;
     p <- getC outDirNodeCount ;;
     LogThenThrowIfNilMacro p eDSNullParameter ;;
     (* ability to accept continue data not enforced *)
     assign set_messageIndex (GetMessageTableIndex w inDirRef eDirectoryRefType) ;;
     idx <- getF messageIndex ;;
     LogThenThrowIfTrueMacro (idx >? gMaxEndpoints)
       eDSRefTableIndexOutOfBoundsError ;;
     e <- table_get idx ;;
     LogThenThrowIfNilMacro e eDSRefTableEntryNilError ;;
     Lock idx ;;
     try_catchX
       (ClearMessageBlock idx ;;
        (if names_its_nodes inPatternMatchType then
           modC (set_bSendList false)
         else
           modF (set_outResult
                   (VerifyTNodeList inNodeNamePattern eDSNullNodeNamePattern
                      eDSEmptyNodeNamePattern)) ;;
           LogThenThrowIfDSErrorMacro outResult ;;
           emitX EvGetDataLength) ;;
        (* Make sure we have a non-null output buffer *)
        modF (set_outResult
                (VerifyTDataBuff outDataBuff eDSNullDataBuff eDSEmptyBuffer)) ;;
        LogThenThrowIfDSErrorMacro outResult ;;
        (* Add the directory reference *)
        v <- GetRefNum w inDirRef eDirectoryRefType ;;
        assignX set_siStatus (Add_Value_ToMsgX w idx v ktDirRef) ;;
        LogThenThrowThisIfDSErrorMacro siStatus eParameterSendError ;;
        (* Add the return buffer length *)
        match outDataBuff with
        | None => undef
        | Some b =>
            assignX set_siStatus
              (Add_Value_ToMsgX w idx (fBufferSize b) kOutBuffLen)
        end ;;
        LogThenThrowThisIfDSErrorMacro siStatus (eParameterSendError - 1) ;;
        send <- getC bSendList ;;
        (if send then
           (* Add the node name pattern *)
           assignX set_siStatus (Add_tDataList_ToMsgX w idx kNodeNamePatt) ;;
           LogThenThrowThisIfDSErrorMacro siStatus (eParameterSendError - 2)
         else ret tt) ;;
        (* Add the pattern match type *)
        assignX set_siStatus
          (Add_Value_ToMsgX w idx inPatternMatchType ktDirPattMatch) ;;
        LogThenThrowThisIfDSErrorMacro siStatus (eParameterSendError - 3) ;;
        c <- getF ioContinueData ;;
        match c with
        | Some token =>
            (* Add the context data *)
            assignX set_siStatus
              (Add_Value_ToMsgX w idx (UInt32 token) kContextData) ;;
            LogThenThrowThisIfDSErrorMacro siStatus (eParameterReceiveError - 4)
        | None => ret tt
        end ;;
        (* Send the message *)
        assignX set_siStatus (SendInlineMessageX w idx kFindDirNodes) ;;
        LogThenThrowIfDSErrorMacro siStatus ;;
        (* Get the reply *)
        assign set_siStatus (GetReplyMessage w idx) ;;
        LogThenThrowIfDSErrorMacro siStatus ;;
        (* Get the return result *)
        Get_Value_FromMsgX w idx kResult (fun v => modF (set_outResult v)) ;;
        LogThenThrowIfDSErrorMacro outResult ;;
        (if negb (isNil outDataBuff) then
           (* Get the data buffer *)
           Get_tDataBuff_FromMsgX w idx ktDataBuff ;;
           LogThenThrowThisIfDSErrorMacro siStatus eDataReceiveErr_NoDataBuff
         else ret tt) ;;
        p <- getC outDirNodeCount ;;
        (if negb (isNil p) then
           (* Get the Node count *)
           Get_Value_FromMsgX w idx kNodeCount
             (fun v => modC (set_outDirNodeCount (Some v))) ;;
           LogThenThrowThisIfDSErrorMacro siStatus eDataReceiveErr_NoNodeCount
         else ret tt) ;;
        c <- getF ioContinueData ;;
        if negb (isNil c) then
          (* Get the context data *)
          Get_Value_FromMsgX w idx kContextData
            (fun v => modF (set_ioContinueData (Some v))) ;;
          LogThenThrowThisIfDSErrorMacro siStatus eDataReceiveErr_NoContinueData
        else ret tt)
       (fun err => modF (set_outResult err)) ;;
     Unlock idx)
    (fun err => modF (set_outResult err)) ;;
  epilogue.

(** *** dsOpenDirNode *)

(** [gFWRefMap->NewNodeRefMap( outDirNodeRef, inDirRef, gProcessPID, aRef,
    messageIndex, pluginNameValue )] *)
Definition NewNodeRefMap (w : WorldX) (inDirRef aRef idx : Z)
    (pluginNameLength : option Z) : MX unit :=
  emitX (EvNewNodeRefMap inDirRef aRef idx pluginNameLength) ;;
  pid <- getG gProcessPID ;;
  modC (set_outDirNodeRef (Some (w_NewNodeRefMap w inDirRef pid aRef idx))).

Definition dsOpenDirNode (w : WorldX) (inDirRef : Z)
    (inDirNodeName : option tDataList) (dirNodeRef : option Z) : MX Z :=
  let nodeRef := 0 in
  enterX None (set_outDirNodeRef dirNodeRef no_cells) ;;
  try_catchX
    (LogThenThrowIfTrueMacro (inDirRef =? 0) eDSInvalidReference ;;
     p <- getC outDirNodeRef ;;
     LogThenThrowIfNilMacro p eDSNullParameter ;;
     assign set_messageIndex (GetMessageTableIndex w inDirRef eDirectoryRefType) ;;
     idx <- getF messageIndex ;;
     LogThenThrowIfTrueMacro (idx >? gMaxEndpoints)
       eDSRefTableIndexOutOfBoundsError ;;
     e <- table_get idx ;;
     LogThenThrowIfNilMacro e eDSRefTableEntryNilError ;;
     Lock idx ;;
     try_catchX
       (ClearMessageBlock idx ;;
        modF (set_outResult
                (VerifyTNodeList inDirNodeName eDSNullNodeName eDSEmptyNodeName)) ;;
        LogThenThrowIfDSErrorMacro outResult ;;
        (* Add the directory reference *)
        v <- GetRefNum w inDirRef eDirectoryRefType ;;
        assignX set_siStatus (Add_Value_ToMsgX w idx v ktDirRef) ;;
        LogThenThrowThisIfDSErrorMacro siStatus eParameterSendError ;;
        (* Add the node name *)
        assignX set_siStatus (Add_tDataList_ToMsgX w idx kDirNodeName) ;;
        LogThenThrowThisIfDSErrorMacro siStatus (eParameterSendError - 1) ;;
        (* Add the Node reference *)
        assignX set_siStatus (Add_Value_ToMsgX w idx nodeRef ktNodeRef) ;;
        LogThenThrowThisIfDSErrorMacro siStatus (eParameterSendError - 2) ;;
        (* Send the message *)
        assignX set_siStatus (SendInlineMessageX w idx kOpenDirNode) ;;
        LogThenThrowIfDSErrorMacro siStatus ;;
        (* Get the reply *)
        assign set_siStatus (GetReplyMessage w idx) ;;
        LogThenThrowIfDSErrorMacro siStatus ;;
        (* Get the return result *)
        Get_Value_FromMsgX w idx kResult (fun v => modF (set_outResult v)) ;;
        LogThenThrowIfDSErrorMacro outResult ;;
        p <- getC outDirNodeRef ;;
        if negb (isNil p) then
          (* Get the Node reference *)
          aRef <- Get_Value_FromMsg_localX w idx ktNodeRef 0 ;;
          LogThenThrowThisIfDSErrorMacro siStatus eDataReceiveErr_NoDirRef ;;
          if negb (idx =? 0) then
            (* we will assume that the plugin name is the first segment of
               the inDirNodeName *)
            emitX EvDataListGetNodeAlloc ;;
            pluginNameValue <-
              match w_dsDataListGetNodeAlloc w with
              | Some nodePtr =>
                  if fBufferLength nodePtr >? 0 then
                    let pluginNameLength := fBufferLength nodePtr in
                    emitX (EvCalloc (1 + pluginNameLength)) ;;
                    (* memcpy into the memory calloc returned *)
                    (if w_calloc w then ret tt else undef) ;;
                    emitX EvDataBufferDeAllocate ;;
                    ret (Some pluginNameLength)
                  else ret None
              | None => ret None
              end ;;
            NewNodeRefMap w inDirRef aRef idx pluginNameValue
          else
            modC (set_outDirNodeRef (Some aRef))
        else ret tt)
       (fun err => modF (set_outResult err)) ;;
     Unlock idx)
    (fun err => modF (set_outResult err)) ;;
  epilogue.

(** *** dsCloseDirNode *)

Definition dsCloseDirNode (w : WorldX) (inNodeRef : Z) : MX Z :=
  enterX None no_cells ;;
  try_catchX
    (LogThenThrowIfTrueMacro (inNodeRef =? 0) eDSInvalidReference ;;
     assign set_messageIndex (GetMessageTableIndex w inNodeRef eNodeRefType) ;;
     idx <- getF messageIndex ;;
     LogThenThrowIfTrueMacro (idx >? gMaxEndpoints)
       eDSRefTableIndexOutOfBoundsError ;;
     e <- table_get idx ;;
     LogThenThrowIfNilMacro e eDSRefTableEntryNilError ;;
     Lock idx ;;
     try_catchX
       (ClearMessageBlock idx ;;
        (* Add the node reference *)
        v <- GetRefNum w inNodeRef eNodeRefType ;;
        assignX set_siStatus (Add_Value_ToMsgX w idx v ktNodeRef) ;;
        LogThenThrowThisIfDSErrorMacro siStatus eParameterSendError ;;
        (* Send the message *)
        assignX set_siStatus (SendInlineMessageX w idx kCloseDirNode) ;;
        LogThenThrowIfDSErrorMacro siStatus ;;
        (* Get the reply *)
        assign set_siStatus (GetReplyMessage w idx) ;;
        LogThenThrowIfDSErrorMacro siStatus ;;
        (* Get the return result *)
        Get_Value_FromMsgX w idx kResult (fun v => modF (set_outResult v)) ;;
        LogThenThrowIfDSErrorMacro outResult ;;
        (* now remove the node reference here if it exists *)
        emitX (EvRemoveNodeRef inNodeRef))
       (fun err => modF (set_outResult err)) ;;
     Unlock idx)
    (fun err => modF (set_outResult err)) ;;
  epilogue.

(** *** dsDoDirNodeAuthOnRecordType, dsDoDirNodeAuth *)

Definition dsDoDirNodeAuthOnRecordType (w : WorldX) (inNodeRef : Z)
    (inAuthMethod : option tDataBuffer) (inDirNodeAuthOnlyFlag : bool)
    (inAuthStepData outAuthStepDataResponse : option tDataBuffer)
    (contData : option Z) (inRecordType : option tDataBuffer) : MX Z :=
  enterX contData no_cells ;;
  try_catchX
    (LogThenThrowIfTrueMacro (inNodeRef =? 0) eDSInvalidReference ;;
     assign set_messageIndex (GetMessageTableIndex w inNodeRef eNodeRefType) ;;
     idx <- getF messageIndex ;;
     LogThenThrowIfTrueMacro (idx >? gMaxEndpoints)
       eDSRefTableIndexOutOfBoundsError ;;
     e <- table_get idx ;;
     LogThenThrowIfNilMacro e eDSRefTableEntryNilError ;;
     Lock idx ;;
     try_catchX
       (ClearMessageBlock idx ;;
        (* Make sure we have a non-null data buffer *)
        modF (set_outResult
                (VerifyTDataBuff inAuthMethod eDSNullAutMethod eDSEmptyAuthMethod)) ;;
        LogThenThrowIfDSErrorMacro outResult ;;
        modF (set_outResult
                (VerifyTDataBuff inAuthStepData eDSNullAuthStepData
                   eDSEmptyAuthStepData)) ;;
        LogThenThrowIfDSErrorMacro outResult ;;
        modF (set_outResult
                (VerifyTDataBuff outAuthStepDataResponse eDSNullAuthStepDataResp
                   eDSEmptyAuthStepDataResp)) ;;
        LogThenThrowIfDSErrorMacro outResult ;;
        (* Add the Node Reference *)
        v <- GetRefNum w inNodeRef eNodeRefType ;;
        assignX set_siStatus (Add_Value_ToMsgX w idx v ktNodeRef) ;;
        LogThenThrowThisIfDSErrorMacro siStatus eParameterSendError ;;
        (* Add the auth method *)
        assignX set_siStatus (Add_tDataBuff_ToMsgX w idx kAuthMethod) ;;
        LogThenThrowThisIfDSErrorMacro siStatus (eParameterSendError - 1) ;;
        (* Add the Auth Only bool *)
        assignX set_siStatus
          (Add_Value_ToMsgX w idx (if inDirNodeAuthOnlyFlag then 1 else 0)
             kAuthOnlyBool) ;;
        LogThenThrowThisIfDSErrorMacro siStatus (eParameterSendError - 2) ;;
        (* Add the auth step data *)
        assignX set_siStatus (Add_tDataBuff_ToMsgX w idx kAuthStepBuff) ;;
        LogThenThrowThisIfDSErrorMacro siStatus (eParameterSendError - 3) ;;
        (* Add the auth step response *)
        assignX set_siStatus (Add_tDataBuff_ToMsgX w idx kAuthResponseBuff) ;;
        LogThenThrowThisIfDSErrorMacro siStatus (eParameterSendError - 4) ;;
        c <- getF ioContinueData ;;
        match c with
        | Some token =>
            (* Add the context data *)
            assignX set_siStatus
              (Add_Value_ToMsgX w idx (UInt32 token) kContextData) ;;
            LogThenThrowThisIfDSErrorMacro siStatus (eParameterReceiveError - 5)
        | None => ret tt
        end ;;
        (if negb (isNil inRecordType) then
           (* Make sure we have a non-null data buffer - partially
              redundant check *)
           modF (set_outResult
                   (VerifyTDataBuff inRecordType eDSNullRecType
                      eDSEmptyRecordType)) ;;
           LogThenThrowIfDSErrorMacro outResult ;;
           (* Add the Record Type *)
           assignX set_siStatus (Add_tDataBuff_ToMsgX w idx kRecTypeBuff) ;;
           LogThenThrowThisIfDSErrorMacro siStatus (eParameterSendError - 6)
         else ret tt) ;;
        (* Send the message *)
        (if isNil inRecordType then
           (* backward compatible with dsDoDirNodeAuth call *)
           assignX set_siStatus (SendInlineMessageX w idx kDoDirNodeAuth)
         else
           assignX set_siStatus
             (SendInlineMessageX w idx kDoDirNodeAuthOnRecordType)) ;;
        LogThenThrowIfDSErrorMacro siStatus ;;
        (* Get the reply *)
        assign set_siStatus (GetReplyMessage w idx) ;;
        LogThenThrowIfDSErrorMacro siStatus ;;
        (* Get the return result *)
        Get_Value_FromMsgX w idx kResult (fun v => modF (set_outResult v)) ;;
        LogThenThrowIfDSErrorMacro outResult ;;
        (if negb (isNil outAuthStepDataResponse) then
           (* Get the auth step response *)
           Get_tDataBuff_FromMsgX w idx kAuthStepDataResponse
         else ret tt) ;;
        c <- getF ioContinueData ;;
        if negb (isNil c) then
          (* Get the context data *)
          Get_Value_FromMsgX w idx kContextData
            (fun v => modF (set_ioContinueData (Some v))) ;;
          LogThenThrowThisIfDSErrorMacro siStatus eDataReceiveErr_NoContinueData
        else ret tt)
       (fun err => modF (set_outResult err)) ;;
     Unlock idx)
    (fun err => modF (set_outResult err)) ;;
  epilogue.

(** record type passed in as nil to be backward compatible *)
Definition dsDoDirNodeAuth (w : WorldX) (inNodeRef : Z)
    (inAuthMethod : option tDataBuffer) (inDirNodeAuthOnlyFlag : bool)
    (inAuthStepData outAuthStepDataResponse : option tDataBuffer)
    (contData : option Z) : MX Z :=
  dsDoDirNodeAuthOnRecordType w inNodeRef inAuthMethod inDirNodeAuthOnlyFlag
    inAuthStepData outAuthStepDataResponse contData None.

(** *** dsDoPlugInCustomCall *)

Definition dsDoPlugInCustomCall (w : WorldX) (inNodeRef inRequestCode : Z)
    (inDataBuff outDataBuff : option tDataBuffer) : MX Z :=
  enterX None no_cells ;;
  try_catchX
    (LogThenThrowIfTrueMacro (inNodeRef =? 0) eDSInvalidReference ;;
     assign set_messageIndex (GetMessageTableIndex w inNodeRef eNodeRefType) ;;
     idx <- getF messageIndex ;;
     LogThenThrowIfTrueMacro (idx >? gMaxEndpoints)
       eDSRefTableIndexOutOfBoundsError ;;
     e <- table_get idx ;;
     LogThenThrowIfNilMacro e eDSRefTableEntryNilError ;;
     Lock idx ;;
     try_catchX
       (ClearMessageBlock idx ;;
        (* Make sure we have a non-null data buffer *)
        (if isNil inDataBuff then modF (set_outResult eDSNullDataBuff)
         else ret tt) ;;
        LogThenThrowIfDSErrorMacro outResult ;;
        (* Calculate the send block length *)
        match inDataBuff with
        | None => undef
        | Some b =>
            match outDataBuff with
            | None => modC (set_blockLen (fBufferSize b))
            | Some o =>
                modC (set_blockLen (UInt32 (fBufferSize b + fBufferSize o)))
            end
        end ;;
        (* set up the server ref to FW ref mapping *)
        v <- GetRefNum w inNodeRef eNodeRefType ;;
        modC (set_serverNodeRef v) ;;
        (if LITTLE_ENDIAN then
           emitX (EvMapServerRefToLocalRef v inNodeRef)
         else ret tt) ;;
        (* Add the node reference *)
        assignX set_siStatus (Add_Value_ToMsgX w idx v ktNodeRef) ;;
        LogThenThrowThisIfDSErrorMacro siStatus eParameterSendError ;;
        (* Add the node map reference *)
        assignX set_siStatus (Add_Value_ToMsgX w idx inNodeRef ktNodeRefMap) ;;
        LogThenThrowThisIfDSErrorMacro siStatus (eParameterSendError - 1) ;;
        (* Add the request code *)
        assignX set_siStatus
          (Add_Value_ToMsgX w idx inRequestCode kCustomRequestCode) ;;
        LogThenThrowThisIfDSErrorMacro siStatus (eParameterSendError - 2) ;;
        (* Add the incoming data buffer *)
        assignX set_siStatus (Add_tDataBuff_ToMsgX w idx ktDataBuff) ;;
        LogThenThrowThisIfDSErrorMacro siStatus (eParameterSendError - 3) ;;
        match outDataBuff with
        | Some o =>
            (* Add the return buffer length *)
            assignX set_siStatus
              (Add_Value_ToMsgX w idx (fBufferSize o) kOutBuffLen) ;;
            LogThenThrowThisIfDSErrorMacro siStatus (eParameterSendError - 4)
        | None => ret tt
        end ;;
        (* Send the message *)
        assignX set_siStatus (SendInlineMessageX w idx kDoPlugInCustomCall) ;;
        LogThenThrowIfDSErrorMacro siStatus ;;
        (* Get the reply *)
        assign set_siStatus (GetReplyMessage w idx) ;;
        LogThenThrowIfDSErrorMacro siStatus ;;
        (* Get the return result *)
        Get_Value_FromMsgX w idx kResult (fun v => modF (set_outResult v)) ;;
        LogThenThrowIfDSErrorMacro outResult ;;
        if negb (isNil outDataBuff) then
          (* Get the data buffer *)
          Get_tDataBuff_FromMsgX w idx ktDataBuff
        else ret tt)
       (fun err => modF (set_outResult err)) ;;
     Unlock idx)
    (fun err => modF (set_outResult err)) ;;
  epilogue.

End SessionAPI.

(** ** Vocabulary of the further properties *)

(** The state [s1] of the loop of __ResetAllSessions that started in [s],
    after the slots [done]. *)
Definition reset_progress (s : St) (done : list Z) (s1 : St) : Prop :=
  length (gMessageTable (st_g s1)) = 9%nat
  /\ same_flags (st_g s) (st_g s1)
  /\ st_f s1 = st_f s
  /\ (forall j : nat, ~ In (Z.of_nat j) done ->
        gMessageTable (st_g s1) !! j = gMessageTable (st_g s) !! j)
  /\ (forall i, In i done -> free (st_g s1) i)
  /\ exists tr, st_tr s1 = st_tr s ++ tr
       /\ forall i, In i done -> occupied (st_g s) i ->
            In (EvCloseTCPEndpoint i) tr /\ In (EvDelete i) tr.

(** ** The locks

    [gLock] guards the table of endpoints; each endpoint has a lock of
    its own, taken around a request and its reply. *)
Inductive Mutex := gLock | endpoint_lock (i : Z).

(** What a call adds to the number of times [l] is held. *)
Definition acquires (l : Mutex) (e : Event) : Z :=
  match l, e with
  | gLock, EvWaitLock => 1
  | gLock, EvSignalLock => -1
  | endpoint_lock i, EvLock j => if j =? i then 1 else 0
  | endpoint_lock i, EvUnlock j => if j =? i then -1 else 0
  | _, _ => 0
  end.

(** The number of times [l] is held after the calls of a trace. *)
Fixpoint held (l : Mutex) (tr : list Event) : Z :=
  match tr with
  | [] => 0
  | e :: tr' => acquires l e + held l tr'
  end.

(** The calls that [l] protects: under [gLock] the endpoints are
    created, connected, closed and deleted; under the lock of an endpoint
    its message block is used and its connection is closed. *)
Definition needs (l : Mutex) (e : Event) : bool :=
  match l, e with
  | gLock, EvNew _ _ => true
  | gLock, EvDelete _ => true
  | gLock, EvOpenCommPort _ => true
  | gLock, EvChangeLocalDaemonUse _ => true
  | gLock, EvConfigTCP _ _ => true
  | gLock, EvOpenTCPEndpoint _ => true
  | gLock, EvCloseCommPort => true
  | gLock, EvCloseTCPEndpoint _ => true
  | endpoint_lock i, EvClearMessageBlock j => j =? i
  | endpoint_lock i, EvAdd j _ => j =? i
  | endpoint_lock i, EvSend j _ => j =? i
  | endpoint_lock i, EvGetReply j => j =? i
  | endpoint_lock i, EvGet j _ => j =? i
  | endpoint_lock i, EvSetServerVersion j _ => j =? i
  | endpoint_lock i, EvCloseTCPEndpoint j => j =? i
  | endpoint_lock i, EvCloseCommPort => 0 =? i
  | _, _ => false
  end.

(** Every call of the trace that [l] protects is made while [l] is held,
    where [l] is held [d] times at the start. *)
Fixpoint guarded (l : Mutex) (d : Z) (tr : list Event) : Prop :=
  match tr with
  | [] => True
  | e :: tr' => (needs l e = true -> 0 < d) /\ guarded l (d + acquires l e) tr'
  end.

(** The number [depth] of holds is the one of the way the code ended. *)
Definition outcome {A} (depth q e r : Z) (res : Res A) : Prop :=
  match res with
  | Ok _ => depth = q
  | Throw _ => depth = e
  | Return _ => depth = r
  | Undef => True
  end.

(** Started in a state of [P] with [l] held [n] times, [m] makes the
    calls that [l] protects under [l]; it ends normally with [l] held [q]
    times, throws with it held [e] times, returns with it held [r]
    times. *)
Definition locked_from (P : St -> Prop) (l : Mutex) (n : Z) {A} (m : M A)
    (q e r : Z) : Prop :=
  forall s res s',
    P s -> m s = (res, s') ->
    exists tr, st_tr s' = st_tr s ++ tr
      /\ guarded l n tr
      /\ outcome (n + held l tr) q e r res.

Definition locked (l : Mutex) (n : Z) {A} (m : M A) (q e r : Z) : Prop :=
  locked_from (fun _ => True) l n m q e r.

(** The slot of the session that is being opened: the local
    [messageIndex] names it, it is a TCP slot, and it holds an object. *)
Definition claimed (idx : Z) (s : St) : Prop :=
  messageIndex (st_f s) = idx /\ idx <> 0
  /\ exists c, gMessageTable (st_g s) !! Z.to_nat idx = Some (Some c).

Section SessionVocabulary.

Context `{StatusCodes} `{SessionCodes}.

(** The operations on an open session with their arguments. *)
Inductive SessionCall :=
| CallAddChildPIDToReference
    (inDirRef inValidChildPID inValidAPIReferenceToGrantChild : Z)
| CallGetDirNodeCount (inDirRef : Z) (outNodeCount : option Z)
| CallGetDirNodeCountWithInfo (inDirRef : Z)
    (outNodeCount outDirectoryNodeChangeToken : option Z)
| CallGetDirNodeList (inDirRef : Z) (outDataBuff : option tDataBuffer)
    (outNodeCount contData : option Z)
| CallReleaseContinueData (inDirReference inContinueData : Z)
| CallFindDirNodes (inDirRef : Z) (outDataBuff : option tDataBuffer)
    (inNodeNamePattern : option tDataList) (inPatternMatchType : Z)
    (outDirNodeCount contData : option Z)
| CallOpenDirNode (inDirRef : Z) (inDirNodeName : option tDataList)
    (outDirNodeRef : option Z)
| CallCloseDirNode (inNodeRef : Z)
| CallDoDirNodeAuth (inNodeRef : Z) (inAuthMethod : option tDataBuffer)
    (inDirNodeAuthOnlyFlag : bool)
    (inAuthStepData outAuthStepDataResponse : option tDataBuffer)
    (contData : option Z)
| CallDoDirNodeAuthOnRecordType (inNodeRef : Z)
    (inAuthMethod : option tDataBuffer) (inDirNodeAuthOnlyFlag : bool)
    (inAuthStepData outAuthStepDataResponse : option tDataBuffer)
    (contData : option Z) (inRecordType : option tDataBuffer)
| CallDoPlugInCustomCall (inNodeRef inRequestCode : Z)
    (inDataBuff outDataBuff : option tDataBuffer).

Definition performX (LITTLE_ENDIAN : bool) (w : WorldX) (c : SessionCall)
    : MX Z :=
  match c with
  | CallAddChildPIDToReference ref pid grant =>
      dsAddChildPIDToReference w ref pid grant
  | CallGetDirNodeCount ref n => dsGetDirNodeCount w ref n
  | CallGetDirNodeCountWithInfo ref n t => dsGetDirNodeCountWithInfo w ref n t
  | CallGetDirNodeList ref b n c => dsGetDirNodeList w ref b n c
  | CallReleaseContinueData ref c => dsReleaseContinueData w ref c
  | CallFindDirNodes ref b p t n c => dsFindDirNodes w ref b p t n c
  | CallOpenDirNode ref nm r => dsOpenDirNode w ref nm r
  | CallCloseDirNode ref => dsCloseDirNode w ref
  | CallDoDirNodeAuth ref m f a r c => dsDoDirNodeAuth w ref m f a r c
  | CallDoDirNodeAuthOnRecordType ref m f a r c t =>
      dsDoDirNodeAuthOnRecordType w ref m f a r c t
  | CallDoPlugInCustomCall ref code i o =>
      dsDoPlugInCustomCall LITTLE_ENDIAN w ref code i o
  end.

(** The reference an operation is called on, with its kind. *)
Definition reference (c : SessionCall) : Z * RefType :=
  match c with
  | CallAddChildPIDToReference ref _ _ => (ref, eDirectoryRefType)
  | CallGetDirNodeCount ref _ => (ref, eDirectoryRefType)
  | CallGetDirNodeCountWithInfo ref _ _ => (ref, eDirectoryRefType)
  | CallGetDirNodeList ref _ _ _ => (ref, eDirectoryRefType)
  | CallReleaseContinueData ref _ => (ref, eDirectoryRefType)
  | CallFindDirNodes ref _ _ _ _ _ => (ref, eDirectoryRefType)
  | CallOpenDirNode ref _ _ => (ref, eDirectoryRefType)
  | CallCloseDirNode ref => (ref, eNodeRefType)
  | CallDoDirNodeAuth ref _ _ _ _ _ => (ref, eNodeRefType)
  | CallDoDirNodeAuthOnRecordType ref _ _ _ _ _ _ => (ref, eNodeRefType)
  | CallDoPlugInCustomCall ref _ _ _ => (ref, eNodeRefType)
  end.

(** The slot of the table the reference map resolves the reference to. *)
Definition slot_of (w : World) (g : Globals) (c : SessionCall) : Z :=
  UInt32 (w_GetMessageTableIndex w (fst (reference c)) (snd (reference c))
            (gProcessPID g)).

End SessionVocabulary.

(** The same counts over the calls of the session operations. *)
Definition acquiresX (l : Mutex) (c : Call) : Z :=
  match c with
  | base e => acquires l e
  | _ => 0
  end.

Fixpoint heldX (l : Mutex) (tr : list Call) : Z :=
  match tr with
  | [] => 0
  | c :: tr' => acquiresX l c + heldX l tr'
  end.

Definition needsX (l : Mutex) (c : Call) : bool :=
  match l, c with
  | _, base e => needs l e
  | endpoint_lock i, EvAddValue j _ _ => j =? i
  | endpoint_lock i, EvAddBuff j _ => j =? i
  | endpoint_lock i, EvAddList j _ => j =? i
  | endpoint_lock i, EvSendRequest j _ => j =? i
  | endpoint_lock i, EvGetValue j _ => j =? i
  | endpoint_lock i, EvGetBuff j _ => j =? i
  | _, _ => false
  end.

Fixpoint guardedX (l : Mutex) (d : Z) (tr : list Call) : Prop :=
  match tr with
  | [] => True
  | c :: tr' =>
      (needsX l c = true -> 0 < d) /\ guardedX l (d + acquiresX l c) tr'
  end.

Definition lockedX (l : Mutex) (n : Z) {A} (m : MX A) (q e r : Z) : Prop :=
  forall s res s',
    m s = (res, s') ->
    exists tr, x_tr s' = x_tr s ++ tr
      /\ guardedX l n tr
      /\ outcome (n + heldX l tr) q e r res.




(** ** Sample inputs for the operations on an open session *)

Section SessionSamples.

#[local] Existing Instance ref_codes.
#[local] Existing Instance ref_session_codes.

(** Everything succeeds for a session of slot [idx]: the daemon answers
    eDSNoErr, counts 12 nodes with change token 99 and hands out the node
    reference 55. *)
Definition session_ok (idx : Z) : WorldX := {|
  wx_base := world_ok idx;
  w_AddField := fun _ => eDSNoErr;
  w_SendRequest := eDSNoErr;
  w_GetField := fun f =>
    match f with
    | common kResult => (eDSNoErr, Some eDSNoErr)
    | common kNodeCount => (eDSNoErr, Some 12)
    | kNodeChangeToken => (eDSNoErr, Some 99)
    | common ktNodeRef => (eDSNoErr, Some 55)
    | common kContextData => (eDSNoErr, Some 0)
    | _ => (eDSNoErr, Some 1)
    end;
  w_NewNodeRefMap := fun _ _ aRef _ => aRef + 2000;
  w_dsDataListGetNodeAlloc := Some {| fBufferSize := 16; fBufferLength := 5 |};
  w_calloc := true
|}.


End SessionSamples.

Create HintDb locked.

(** ** Symbolic execution *)

Ltac unfold_prims :=
  unfold epilogue, CheckToCleanUpLostTCPConnection, Lock, Unlock,
    ClearMessageBlock, CloseTCPEndpoint, CloseCommPort, ChangeLocalDaemonUse,
    OpenCommPort, ConfigTCP, OpenTCPEndpoint, Add_Value_ToMsg,
    Add_tDataBuff_ToMsg, Add_tDataList_ToMsg, SendInlineMessage,
    GetReplyMessage, Get_Value_FromMsg, Get_Value_FromMsg_local,
    Get_tDataBuff_FromMsg, GetMessageTableIndex, GetRefNum, NewDirRefMap,
    SetServerVersion, GetServerVersion, New, Delete,
    dsIsDirServiceRunning, dsIsDirServiceLocalRunning, lstat,
    LogThenThrowIfDSErrorMacro, LogThenThrowThisIfDSErrorMacro,
    LogThenThrowIfNilMacro, LogThenThrowIfTrueMacro, method, method_ret,
    deref, table_get, table_set, assign, enter, function, bind, ret, throw,
    undef, return_, try_catch, emit, getG, modG, getF, modF in *.

(** Case analysis on a test of the goal that contains no other test, so
    that the cases follow the order of execution. *)
Ltac step :=
  match goal with
  | |- context [match ?x with _ => _ end] =>
      lazymatch x with
      | context [match _ with _ => _ end] => fail
      | _ => let x' := eval cbn in x in
             change x with x'; destruct x' eqn:?
      end
  end.

Ltac bool_hyps :=
  repeat match goal with
  | H : (_ =? _) = true |- _ => apply Z.eqb_eq in H
  | H : (_ =? _) = false |- _ => apply Z.eqb_neq in H
  | H : (_ >? _) = true |- _ => rewrite Z.gtb_ltb in H; apply Z.ltb_lt in H
  | H : (_ >? _) = false |- _ => rewrite Z.gtb_ltb in H; apply Z.ltb_ge in H
  | H : (_ <? _) = true |- _ => apply Z.ltb_lt in H
  | H : (_ <? _) = false |- _ => apply Z.ltb_ge in H
  | H : negb _ = true |- _ => apply negb_true_iff in H
  | H : negb _ = false |- _ => apply negb_false_iff in H
  | H : _ && _ = true |- _ => apply andb_true_iff in H; destruct H
  | H : _ || _ = false |- _ => apply orb_false_iff in H; destruct H
  end.

(** Closes the cases that contradict what is known. *)
Ltac prune :=
  try discriminate; try congruence;
  try (exfalso; bool_hyps;
       unfold gMaxEndpoints, kDSFWMaxRemoteConnections in *;
       first [lia | congruence]).

(** Rewrites with the equations among the hypotheses. *)
Ltac rew_hyps :=
  match goal with
  | H : ?l = _ |- context [?l] => progress rewrite H
  end.

(** Runs the code as far as the hypotheses decide its tests. *)
Ltac drive := repeat first [progress cbn | rew_hyps].

(** Simplifies reads of the table, which has the length [Hlen] states. *)
Ltac look Hlen :=
  repeat rewrite list_lookup_insert_eq by (rewrite ?length_insert, Hlen; lia);
  repeat match goal with
  | H : context [<[?n := _]> _ !! ?n] |- _ =>
      rewrite list_lookup_insert_eq in H by (rewrite ?length_insert, Hlen; lia)
  | H : _ !! _ = None |- _ =>
      apply lookup_ge_None_1 in H; rewrite ?length_insert, Hlen in H
  end.

Section Properties.

Context `{StatusCodes}.

(** C10. dsVerifyDirRefNum returns eDSNoErr at once for the reference
    0x00F0F0F0 and eDSInvalidReference for the reference 0, in both cases
    without a call to the reference map or to the daemon (the trace is
    empty and the globals are unchanged).  The verify message is sent
    only for other references; for those the reference map is consulted
    first, and the message is sent when the reference resolves to a live
    endpoint and the request field is appended. *)
Theorem dsVerifyDirRefNum_shortcuts (w : World) (g : Globals) :
  run (dsVerifyDirRefNum w 0x00F0F0F0) g
    = (Ok eDSNoErr, {| st_g := g; st_f := frame0; st_tr := [] |})
  /\ run (dsVerifyDirRefNum w 0) g
    = (Ok eDSInvalidReference, {| st_g := g; st_f := frame0; st_tr := [] |})
  /\ (forall inDirRef idx,
        In (EvSend idx kVerifyDirRefNum)
           (st_tr (snd (run (dsVerifyDirRefNum w inDirRef) g))) ->
        inDirRef <> 0x00F0F0F0 /\ inDirRef <> 0)
  /\ (forall inDirRef,
        inDirRef <> 0x00F0F0F0 -> inDirRef <> 0 ->
        exists tr,
          st_tr (snd (run (dsVerifyDirRefNum w inDirRef) g))
            = EvGetMessageTableIndex inDirRef eDirectoryRefType :: tr)
  /\ (forall inDirRef c,
        inDirRef <> 0x00F0F0F0 -> inDirRef <> 0 ->
        let idx := UInt32 (w_GetMessageTableIndex w inDirRef
                             eDirectoryRefType (gProcessPID g)) in
        gMessageTable g !! Z.to_nat idx = Some (Some c) ->
        idx <= gMaxEndpoints ->
        w_Add w ktDirRef = eDSNoErr ->
        In (EvSend idx kVerifyDirRefNum)
           (st_tr (snd (run (dsVerifyDirRefNum w inDirRef) g)))).
Proof.
  split; [reflexivity|]. split; [reflexivity|]. split; [|split].
  - intros inDirRef idx. unfold run, dsVerifyDirRefNum.
    destruct (Z.eqb_spec inDirRef 0xF0F0F0) as [->|?]; [cbn; tauto|].
    destruct (Z.eqb_spec inDirRef 0) as [->|?]; [cbn; tauto|]. auto.
  - intros inDirRef Hf H0. unfold run, dsVerifyDirRefNum.
    destruct (Z.eqb_spec inDirRef 0xF0F0F0) as [|_]; [done|].
    destruct (Z.eqb_spec inDirRef 0) as [|_]; [done|].
    unfold_prims. cbn.
    repeat (step; cbn; try (eexists; reflexivity)).
  - intros inDirRef c Hf H0 idx Hc Hle Hadd. unfold run, dsVerifyDirRefNum.
    destruct (Z.eqb_spec inDirRef 0xF0F0F0) as [|_]; [done|].
    destruct (Z.eqb_spec inDirRef 0) as [|_]; [done|].
    unfold_prims. cbn. fold idx.
    repeat (step; cbn; prune; try (rewrite ?in_app_iff; cbn; tauto)).
Qed.


Lemma find_slot_cons (i : Z) (l : list Z) :
  find_slot (i :: l)
    = (modF (set_tableIndex i) ;;
       e <- table_get i ;;
       if isNil e then modF (set_messageIndex i) else find_slot l)%api.
Proof. reflexivity. Qed.

Lemma find_slot_app (l1 l2 : list Z) (i : Z) (s : St) :
  (forall j, In j l1 -> occupied (st_g s) j) ->
  free (st_g s) i ->
  find_slot (l1 ++ i :: l2) s
    = (Ok tt, {| st_g := st_g s;
                 st_f := set_messageIndex i (set_tableIndex i (st_f s));
                 st_tr := st_tr s |}).
Proof.
  revert s. induction l1 as [|a l1 IH]; intros s Hocc Hfree.
  - unfold free in Hfree. cbn [app]. rewrite find_slot_cons. unfold_prims. cbn. rewrite Hfree. reflexivity.
  - destruct (Hocc a) as [c Hc]; [by left|].
    cbn [app]. rewrite find_slot_cons. unfold bind at 1. unfold modF at 1.
    unfold bind at 1. unfold table_get at 1. cbn [st_g]. rewrite Hc.
    cbn [isNil]. rewrite IH; [reflexivity| |done].
    intros j Hj. apply Hocc. by right.
Qed.


Lemma remote_slots_split (i : Z) :
  1 <= i <= 8 ->
  remote_slots = seqZ 1 (i - 1) ++ i :: seqZ (i + 1) (8 - i).
Proof.
  intros Hi. unfold remote_slots, gMaxEndpoints, kDSFWMaxRemoteConnections.
  replace (8 + 1 - 1) with ((i - 1) + (1 + (8 - i))) by lia.
  rewrite seqZ_app by lia. f_equal.
  rewrite seqZ_app by lia. replace (1 + (i - 1)) with i by lia.
  f_equal. 
Qed.






Lemma for_each_cons (i : Z) (l : list Z) (body : Z -> M unit) :
  for_each (i :: l) body = (body i ;; for_each l body).
Proof. reflexivity. Qed.

(** A loop leaves the states related when every round does. *)
Lemma for_each_rel (R : St -> St -> Prop) (body : Z -> M unit) (l : list Z) :
  (forall s, R s s) ->
  (forall s1 s2 s3, R s1 s2 -> R s2 s3 -> R s1 s3) ->
  (forall i s r s', body i s = (r, s') -> R s s') ->
  forall s r s', for_each l body s = (r, s') -> R s s'.
Proof.
  intros Hrefl Htrans Hbody. induction l as [|i l IH]; intros s r s' Hrun.
  - cbv in Hrun. by simplify_eq.
  - rewrite for_each_cons in Hrun. unfold bind in Hrun.
    destruct (body i s) as [r1 s1] eqn:Hb. apply Hbody in Hb.
    destruct r1; simplify_eq; eauto.
Qed.

Lemma table_only_refl s : table_only s s.
Proof. by repeat split. Qed.

Lemma table_only_trans s1 s2 s3 :
  table_only s1 s2 -> table_only s2 s3 -> table_only s1 s3.
Proof.
  unfold table_only, same_flags. intros (H1 & F1) (H2 & F2).
  destruct_and!. repeat split; congruence.
Qed.

Ltac leaf_table_only :=
  intros; simplify_eq; repeat split; done.

Lemma __ResetAllSessions_spec (s : St) (r : Res unit) (s' : St) :
  __ResetAllSessions s = (r, s') ->
  gProcessForked (st_g s') = gProcessForked (st_g s)
  /\ gProcessPID (st_g s') = gProcessPID (st_g s)
  /\ st_f s' = st_f s
  /\ match r with
     | Ok _ => gNormalDaemonInUse (st_g s') = false
               /\ gLocalDaemonInUse (st_g s') = false
               /\ gDSConnections (st_g s') = 0
     | _ => gNormalDaemonInUse (st_g s') = gNormalDaemonInUse (st_g s)
            /\ gLocalDaemonInUse (st_g s') = gLocalDaemonInUse (st_g s)
            /\ gDSConnections (st_g s') = gDSConnections (st_g s)
     end.
Proof.
  unfold __ResetAllSessions.
  unfold bind at 1. unfold emit at 1. unfold bind at 1.
  match goal with
  | |- context [for_each ?l ?b ?s0] =>
      destruct (for_each l b s0) as [r1 s1] eqn:Hloop
  end.
  apply (for_each_rel table_only) in Hloop;
    [|apply table_only_refl|apply table_only_trans|].
  2:{ intros i s0 r0 s0'. unfold_prims. destruct s0 as [g0 f0 t0]. cbn.
      repeat (step; cbn). all: leaf_table_only. }
  destruct Hloop as ((Hn & Hl & Hf & Hc & Hp) & Hfr). cbn in *.
  destruct r1; [|intros; simplify_eq; done..].
  unfold_prims. destruct s1 as [g1 f1 t1]. cbn in *.
  repeat (step; cbn). all: intros; simplify_eq; cbn; done.
Qed.

Ltac reset_facts :=
  repeat match goal with
  | H : __ResetAllSessions _ = (_, ?s0) |- _ =>
      apply __ResetAllSessions_spec in H; destruct s0; cbn in H;
      destruct H as (? & ? & ? & ?); subst
  end.

Ltac leaf_exclusive :=
  intros; simplify_eq; unfold exclusive in *; cbn in *; destruct_and?;
  split; intros; try split; try congruence; try tauto; intuition congruence.

(** *** Predicates on the state that a computation keeps *)

Section Keeps.

Variable P : St -> Prop.

Lemma keeps_bind {A B} (m : M A) (k : A -> M B) :
  keeps P m -> (forall a, keeps P (k a)) -> keeps P (bind m k).
Proof.
  intros Hm Hk s r s' Hrun HP. unfold bind in Hrun.
  destruct (m s) as [r1 s1] eqn:Hms. pose proof (Hm _ _ _ Hms HP) as HP1.
  destruct r1; simplify_eq; eauto. by eapply Hk.
Qed.

Lemma keeps_try_catch {A} (m : M A) (h : Z -> M A) :
  keeps P m -> (forall e, keeps P (h e)) -> keeps P (try_catch m h).
Proof.
  intros Hm Hh s r s' Hrun HP. unfold try_catch in Hrun.
  destruct (m s) as [r1 s1] eqn:Hms. pose proof (Hm _ _ _ Hms HP) as HP1.
  destruct r1; simplify_eq; eauto. by eapply Hh.
Qed.

Lemma keeps_function (m : M Z) : keeps P m -> keeps P (function m).
Proof.
  intros Hm s r s' Hrun HP. unfold function in Hrun.
  destruct (m s) as [r1 s1] eqn:Hms. pose proof (Hm _ _ _ Hms HP) as HP1.
  destruct r1; by simplify_eq.
Qed.

Lemma keeps_ret {A} (a : A) : keeps P (ret a).
Proof. intros s r s' Hrun. cbv in Hrun. by simplify_eq. Qed.

Lemma keeps_throw {A} (e : Z) : keeps P (@throw A e).
Proof. intros s r s' Hrun. cbv in Hrun. by simplify_eq. Qed.

Lemma keeps_undef {A} : keeps P (@undef A).
Proof. intros s r s' Hrun. cbv in Hrun. by simplify_eq. Qed.

Lemma keeps_return {A} (v : Z) : keeps P (@return_ A v).
Proof. intros s r s' Hrun. cbv in Hrun. by simplify_eq. Qed.

Lemma keeps_emit (e : Event) :
  (forall s, P s ->
     P {| st_g := st_g s; st_f := st_f s; st_tr := st_tr s ++ [e] |}) ->
  keeps P (emit e).
Proof. intros He s r s' Hrun. unfold emit in Hrun. simplify_eq. apply He. Qed.

Lemma keeps_getG {A} (p : Globals -> A) : keeps P (getG p).
Proof. intros s r s' Hrun. unfold getG in Hrun. by simplify_eq. Qed.

Lemma keeps_getF {A} (p : Frame -> A) : keeps P (getF p).
Proof. intros s r s' Hrun. unfold getF in Hrun. by simplify_eq. Qed.

Lemma keeps_modF (u : Frame -> Frame) :
  (forall s, P s ->
     P {| st_g := st_g s; st_f := u (st_f s); st_tr := st_tr s |}) ->
  keeps P (modF u).
Proof. intros Hu s r s' Hrun. unfold modF in Hrun. simplify_eq. apply Hu. Qed.

Lemma keeps_modG (u : Globals -> Globals) :
  (forall s, P s ->
     P {| st_g := u (st_g s); st_f := st_f s; st_tr := st_tr s |}) ->
  keeps P (modG u).
Proof. intros Hu s r s' Hrun. unfold modG in Hrun. simplify_eq. apply Hu. Qed.

Lemma keeps_table_get (idx : Z) : keeps P (table_get idx).
Proof.
  intros s r s' Hrun. unfold table_get in Hrun.
  destruct (_ !! _); by simplify_eq.
Qed.

Lemma keeps_table_set (idx : Z) (v : option CMessaging) :
  (forall s t, P s ->
     P {| st_g := set_gMessageTable t (st_g s); st_f := st_f s;
          st_tr := st_tr s |}) ->
  keeps P (table_set idx v).
Proof.
  intros Ht s r s' Hrun. unfold table_set in Hrun.
  destruct (_ !! _); simplify_eq; [apply Ht|done].
Qed.

Lemma keeps_if {A} (b : bool) (m1 m2 : M A) :
  keeps P m1 -> keeps P m2 -> keeps P (if b then m1 else m2).
Proof. by destruct b. Qed.

Lemma keeps_for_each (l : list Z) (body : Z -> M unit) :
  (forall i, keeps P (body i)) -> keeps P (for_each l body).
Proof.
  intros Hb. induction l as [|i l IH]; [apply keeps_ret|].
  rewrite for_each_cons. apply keeps_bind; auto.
Qed.

Lemma keeps_find_slot (l : list Z) :
  (forall u, keeps P (modF u)) -> keeps P (find_slot l).
Proof.
  intros Hu. induction l as [|i l IH]; [apply Hu|].
  rewrite find_slot_cons.
  apply keeps_bind; [apply Hu|intros _].
  apply keeps_bind; [apply keeps_table_get|intros e].
  apply keeps_if; [apply Hu|done].
Qed.

End Keeps.

(** Unfolds the calls of the model down to the operations of the monad. *)
Ltac unfold_calls :=
  unfold epilogue, CheckToCleanUpLostTCPConnection, Lock, Unlock,
    ClearMessageBlock, CloseTCPEndpoint, CloseCommPort, ChangeLocalDaemonUse,
    OpenCommPort, ConfigTCP, OpenTCPEndpoint, Add_Value_ToMsg,
    Add_tDataBuff_ToMsg, Add_tDataList_ToMsg, SendInlineMessage,
    GetReplyMessage, Get_Value_FromMsg, Get_Value_FromMsg_local,
    Get_tDataBuff_FromMsg, GetMessageTableIndex, GetRefNum, NewDirRefMap,
    SetServerVersion, GetServerVersion, New, Delete,
    dsIsDirServiceRunning, dsIsDirServiceLocalRunning, lstat,
    LogThenThrowIfDSErrorMacro, LogThenThrowThisIfDSErrorMacro,
    LogThenThrowIfNilMacro, LogThenThrowIfTrueMacro, method, method_ret,
    deref, assign, enter.

(** An update that the predicate does not look at. *)
Ltac untouched := try (intros ? HP; exact HP).

(** Decomposes a [keeps] goal along the structure of the code; what is
    left are the updates that the predicate looks at. *)
Ltac keeps_step :=
  lazymatch goal with
  | |- keeps _ (bind (getG gNormalDaemonInUse) _) => fail
  | |- keeps _ (bind (getG gLocalDaemonInUse) _) => fail
  | |- _ =>
  first
    [ solve [auto with keeps]
    | apply keeps_bind; [|intro]
    | apply keeps_try_catch; [|intro]
    | apply keeps_function
    | apply keeps_ret | apply keeps_throw | apply keeps_undef
    | apply keeps_return | apply keeps_getG
    | apply keeps_getF | apply keeps_table_get
    | apply keeps_emit; untouched
    | apply keeps_modF; untouched
    | apply keeps_table_set; try (intros ? ? HP; exact HP)
    | apply keeps_modG; untouched
    | apply keeps_for_each; intro
    | apply keeps_find_slot; intro
    | match goal with
      | |- keeps _ (match ?x with _ => _ end) => destruct x
      end ]
  end.

Ltac keeps_auto := unfold_calls; repeat keeps_step.

Lemma exclusive_table (g : Globals) (t : list (option CMessaging)) :
  exclusive g -> exclusive (set_gMessageTable t g).
Proof. done. Qed.

Lemma keeps_exclusive_reset : keeps (on_globals exclusive) __ResetAllSessions.
Proof.
  intros s r s' Hrun Hex. apply __ResetAllSessions_spec in Hrun.
  destruct Hrun as (Hf & _ & _ & Hr). unfold on_globals, exclusive in *.
  destruct Hex as [Hex1 Hex2].
  destruct r; destruct Hr as (Hn & Hl & _); rewrite ?Hn, ?Hl, ?Hf;
    (split; [|done || tauto]); congruence || tauto.
Qed.

Ltac exclusive_updates :=
  try (intros; unfold on_globals, exclusive in *; cbn in *;
       intuition congruence).

Lemma dsVerifyDirRefNum_exclusive (w : World) (ref : Z) :
  keeps (on_globals exclusive) (dsVerifyDirRefNum w ref).
Proof. unfold dsVerifyDirRefNum. keeps_auto; exclusive_updates. Qed.

Lemma dsGetRecordList_exclusive w ref b l1 l2 l3 rc c :
  keeps (on_globals exclusive) (dsGetRecordList w ref b l1 l2 l3 rc c).
Proof. unfold dsGetRecordList. keeps_auto; exclusive_updates. Qed.

Lemma dsDoAttributeValueSearch_exclusive w ref b l b1 b2 rc c :
  keeps (on_globals exclusive) (dsDoAttributeValueSearch w ref b l b1 b2 rc c).
Proof. unfold dsDoAttributeValueSearch. keeps_auto; exclusive_updates. Qed.

Lemma dsCloseDirService_exclusive w ref :
  keeps (on_globals exclusive) (dsCloseDirService w ref).
Proof. unfold dsCloseDirService. keeps_auto; exclusive_updates. Qed.

#[local] Hint Resolve keeps_exclusive_reset : keeps.

Lemma dsOpenDirServiceProxy_exclusive w d port m a r c :
  keeps (on_globals exclusive) (dsOpenDirServiceProxy w d port m a r c).
Proof.
  unfold dsOpenDirServiceProxy. keeps_auto; exclusive_updates.
Qed.

(** A block of code that sets an in-use flag, case by case. *)
Ltac keeps_cases :=
  intros [g f t] r s'; unfold on_globals; unfold_prims; cbn;
  repeat (step; reset_facts; cbn in * );
  intros; simplify_eq; unfold exclusive in *; cbn in *; destruct_and?;
  split; intros; try split; try congruence; try tauto; intuition congruence.

Lemma dsOpenDirService_keeps_exclusive (w : World) (p : option Z) :
  keeps (on_globals exclusive) (dsOpenDirService w p).
Proof.
  unfold dsOpenDirService. keeps_auto; exclusive_updates.
  keeps_cases.
Qed.

#[local] Hint Resolve dsOpenDirService_keeps_exclusive : keeps.

Lemma normalize_path_keeps (P : Globals -> Prop) (pm : nat)
    (path : option (list ascii)) :
  keeps (on_globals P) (normalize_path pm path).
Proof. unfold normalize_path. keeps_auto. Qed.

#[local] Hint Resolve normalize_path_keeps : keeps.


Ltac keeps_step_until_fork :=
  lazymatch goal with
  | |- keeps _ (bind (getG gProcessForked) _) => fail
  | |- _ => keeps_step
  end.

Ltac open_facts :=
  repeat match goal with
  | H : dsOpenDirService _ _ _ = (_, _) |- _ =>
      apply dsOpenDirService_keeps_exclusive in H; unfold on_globals in H
  end.

Lemma dsOpenDirServiceLocal_exclusive (pm : nat) (w : World) (p : option Z)
    (path : option (list ascii)) :
  keeps (on_globals exclusive) (dsOpenDirServiceLocal pm w p path).
Proof.
  unfold dsOpenDirServiceLocal. unfold_calls.
  repeat keeps_step_until_fork; exclusive_updates.
  intros [g f t] r s'; unfold on_globals; unfold_prims; cbn.
  repeat (step; reset_facts; open_facts; cbn in * ).
  all: intros; simplify_eq; unfold exclusive in *; cbn in *; destruct_and?;
  split; intros; try split; try congruence; try tauto; intuition congruence.
Qed.


Lemma reachable_exclusive (g : Globals) : reachable g -> exclusive g.
Proof.
  induction 1 as [pid|g w c r s' Hg IH Hrun|g pid Hg IH].
  - by split.
  - revert Hrun IH. unfold run.
    destruct c; cbn [perform]; intros Hrun IH.
    + by eapply dsOpenDirService_keeps_exclusive.
    + by eapply dsOpenDirServiceProxy_exclusive.
    + by eapply dsOpenDirServiceLocal_exclusive.
    + by eapply dsCloseDirService_exclusive.
    + by eapply dsGetRecordList_exclusive.
    + by eapply dsDoAttributeValueSearch_exclusive.
    + by eapply dsVerifyDirRefNum_exclusive.
  - by split.
Qed.

Lemma normalize_path_frame (pm : nat) (path : option (list ascii)) (s : St) :
  siStatus (st_f s) = eDSNoErr ->
  normalize_path pm path s = (normalized pm path, s).
Proof.
  intros Hs. unfold normalized, normalize_path. unfold_prims.
  destruct s as [g f t]. cbn in *.
  repeat (step; cbn; prune). all: reflexivity.
Qed.

(** C5, as amended. In every reachable state gNormalDaemonInUse and
    gLocalDaemonInUse are not both true.  dsOpenDirService, called with a
    non-null outDirRef while gLocalDaemonInUse is set, returns
    eDSLocalDSDaemonInUse, changes no global and calls nothing but the
    global lock.  dsOpenDirServiceLocal, called in a reachable state with
    a non-null outDirRef while gNormalDaemonInUse is set, returns
    eDSNormalDSDaemonInUse and changes no global, provided that its path
    passes the normalisation and lstat and that the call is not handed to
    dsOpenDirService (the daemon is registered and the path is the file
    of its own store). *)
Theorem daemon_in_use_exclusive :
  eDSLocalDSDaemonInUse <> eDSNoErr ->
  eDSNormalDSDaemonInUse <> eDSNoErr ->
  eServerNotRunning <> eDSNoErr ->
  (forall g, reachable g ->
     ~ (gNormalDaemonInUse g = true /\ gLocalDaemonInUse g = true))
  /\ (forall w g d,
        gLocalDaemonInUse g = true ->
        exists s',
          run (dsOpenDirService w (Some d)) g = (Ok eDSLocalDSDaemonInUse, s')
          /\ st_g s' = g
          /\ st_tr s' = [EvWaitLock; EvSignalLock])
  /\ (forall pm w g d path buf p st,
        reachable g ->
        gNormalDaemonInUse g = true ->
        normalized pm path = Ok buf ->
        c_str buf = Some p ->
        w_lstat w p = Some st ->
        (w_bootstrap_look_up w false = 0 ->
         w_lstat w (str "/var/db/dslocal/nodes/Default") <> Some st) ->
        exists s',
          run (dsOpenDirServiceLocal pm w (Some d) path) g
            = (Ok eDSNormalDSDaemonInUse, s')
          /\ st_g s' = g).
Proof.
  intros Hl Hn Hsnr. split; [|split].
  - intros g Hg [H1 H2]. apply reachable_exclusive in Hg. destruct Hg as [Hg _].
    by apply Hg.
  - intros w g d Hin. unfold run, dsOpenDirService. unfold_prims. cbn.
    rewrite Hin. cbn. apply Z.eqb_neq in Hl. rewrite Hl. cbn.
    eexists. split; [reflexivity|]. done.
  - intros pm w g d path buf p st Hg Hin Hnorm Hstr Hlstat Hred.
    apply reachable_exclusive in Hg. destruct Hg as [_ Hfk].
    assert (Hf : gProcessForked g = false).
    { destruct (gProcessForked g); [|done]. destruct Hfk; congruence. }
    unfold run, dsOpenDirServiceLocal.
    unfold bind at 1. unfold function, enter. unfold modF at 1. cbn [st_g st_f st_tr].
    unfold bind at 1. unfold try_catch at 1.
    unfold bind at 1. unfold getF at 1. cbn [st_f outDirRef].
    unfold bind at 1. unfold LogThenThrowIfNilMacro at 1. unfold ret at 1.
    unfold bind at 1. rewrite normalize_path_frame by done. rewrite Hnorm.
    unfold_prims. cbn. rewrite Hf. cbn. rewrite Hstr. cbn. rewrite Hlstat. cbn.
    apply Z.eqb_neq in Hn.
    destruct st as [ino dev].
    unfold str in Hred. cbn in Hred.
    repeat (step; cbn; prune;
            try (exfalso; bool_hyps; subst; by apply Hred)).
    all: eexists; split; [reflexivity|done].
Qed.

(** *** The sibling paths of the operations

    What the code does on the paths next to the ones the concrete runs
    below take, for every world and every state of the globals. *)

(** A sequence that ends normally ran both of its parts. *)
Lemma bind_Ok {A B} (m : M A) (k : A -> M B) (s : St) (b : B) (s' : St) :
  bind m k s = (Ok b, s') ->
  exists a s1, m s = (Ok a, s1) /\ k a s1 = (Ok b, s').
Proof.
  unfold bind. destruct (m s) as [[a| | |] s1]; intros; simplify_eq. eauto.
Qed.

Ltac token_updates :=
  try (intros; unfold token_given in *; cbn in *; congruence).

(** dsGetRecordList, called with a continuation cell, leaves 0 in the
    cell whenever it returns a code other than eDSNoErr and
    eDSBufferTooSmall. *)
Lemma dsGetRecordList_clears_token (w : World) (g : Globals) (ref : Z)
    (b : option tDataBuffer) (l1 l2 l3 : option tDataList) (rc : option Z)
    (tok r : Z) (s' : St) :
  eDSBufferTooSmall <> eDSTCPSendError ->
  eDSBufferTooSmall <> eDSTCPReceiveError ->
  run (dsGetRecordList w ref b l1 l2 l3 rc (Some tok)) g = (Ok r, s') ->
  r <> eDSNoErr -> r <> eDSBufferTooSmall ->
  ioContinueData (st_f s') = Some 0.
Proof.
  intros Hb1 Hb2 Hrun Hr1 Hr2. unfold run, dsGetRecordList in Hrun.
  apply bind_Ok in Hrun as (a & s1 & Henter & Hrun).
  apply bind_Ok in Hrun as (a2 & s2 & Hbody & Htail).
  assert (Htok : token_given s2).
  { match type of Hbody with
    | ?m _ = _ => assert (Hk : keeps token_given m)
    end.
    { keeps_auto; token_updates. }
    eapply Hk; [exact Hbody|].
    unfold enter, modF in Henter. simplify_eq. done. }
  clear Hbody Henter. revert Htail. destruct s2 as [g2 f2 t2].
  unfold token_given in Htok. cbn in Htok.
  unfold_prims. cbn.
  repeat (step; cbn; prune).
  all: intros; simplify_eq; cbn; try done.
  all: bool_hyps; try congruence.
  all: destruct (ioContinueData f2); try done.
  all: cbn in *; bool_hyps; congruence.
Qed.

(** The two checks of a resolved index in dsVerifyDirRefNum: an index
    above 9 gives eDSRefTableIndexOutOfBoundsError, an empty slot among
    0..8 gives eDSRefTableEntryNilError, and index 9 passes the first
    check and is read from the table, which ends at index 8. *)
Lemma dsVerifyDirRefNum_resolution (w : World) (g : Globals) (ref idx : Z) :
  let r := run (dsVerifyDirRefNum w ref) g in
  length (gMessageTable g) = 9%nat ->
  ref <> 0x00F0F0F0 -> ref <> 0 ->
  UInt32 (w_GetMessageTableIndex w ref eDirectoryRefType (gProcessPID g)) = idx ->
  eDSRefTableIndexOutOfBoundsError <> eDSTCPSendError ->
  eDSRefTableIndexOutOfBoundsError <> eDSTCPReceiveError ->
  eDSRefTableEntryNilError <> eDSTCPSendError ->
  eDSRefTableEntryNilError <> eDSTCPReceiveError ->
  (9 < idx -> fst r = Ok eDSRefTableIndexOutOfBoundsError
              /\ st_g (snd r) = g)
  /\ (idx <= 8 -> free g idx ->
      fst r = Ok eDSRefTableEntryNilError /\ st_g (snd r) = g)
  /\ (idx = 9 -> fst r = Undef).
Proof.
  intros r Hlen Hr1 Hr2 Hidx Ho1 Ho2 Hn1 Hn2. subst r.
  assert (Hpos : 0 <= idx) by (subst idx; apply Z.mod_pos_bound; lia).
  unfold run, dsVerifyDirRefNum. unfold_prims. cbn.
  apply Z.eqb_neq in Hr1, Hr2. drive. clear Hidx.
  split; [|split].
  - intros Hi.
    repeat (step; cbn; look Hlen; prune). all: done.
  - intros Hi Hfree. unfold free in Hfree. drive.
    repeat (step; cbn; look Hlen; prune). all: done.
  - intros ->.
    assert (Hnone : gMessageTable g !! Z.to_nat 9 = None)
      by (apply lookup_ge_None_2; rewrite Hlen; lia).
    change (9 >? gMaxEndpoints) with false. drive. done.
Qed.

(** dsVerifyDirRefNum on a session whose send fails with
    eDSTCPSendError: on a remote slot the call returns
    eDSCannotAccessSession and the slot is closed, deleted and nil; on
    slot 0 it returns eDSTCPSendError and changes no global. *)
Lemma dsVerifyDirRefNum_lost_connection (w : World) (g : Globals)
    (ref idx : Z) :
  length (gMessageTable g) = 9%nat ->
  ref <> 0x00F0F0F0 -> ref <> 0 ->
  UInt32 (w_GetMessageTableIndex w ref eDirectoryRefType (gProcessPID g)) = idx ->
  occupied g idx ->
  w_Add w ktDirRef = eDSNoErr ->
  w_Send w = eDSTCPSendError ->
  eDSTCPSendError <> eDSNoErr ->
  (1 <= idx <= 8 ->
   exists s',
     run (dsVerifyDirRefNum w ref) g = (Ok eDSCannotAccessSession, s')
     /\ gMessageTable (st_g s') = <[Z.to_nat idx := None]> (gMessageTable g)
     /\ In (EvCloseTCPEndpoint idx) (st_tr s')
     /\ In (EvDelete idx) (st_tr s'))
  /\ (idx = 0 ->
      exists s',
        run (dsVerifyDirRefNum w ref) g = (Ok eDSTCPSendError, s')
        /\ st_g s' = g).
Proof.
  intros Hlen Hr1 Hr2 Hidx [c Hc] Hadd Hsend Hne.
  unfold run, dsVerifyDirRefNum. unfold_prims.
  apply Z.eqb_neq in Hr1, Hr2. apply Z.eqb_neq in Hne as Hne'.
  split.
  - intros Hi.
    assert (Hz : (idx =? 0) = false) by (apply Z.eqb_neq; lia).
    assert (Hgt : (idx >? gMaxEndpoints) = false).
    { rewrite Z.gtb_ltb. apply Z.ltb_ge.
      unfold gMaxEndpoints, kDSFWMaxRemoteConnections. lia. }
    repeat first [progress cbn | rew_hyps | rewrite Z.eqb_refl
                 | rewrite orb_true_r | progress look Hlen].
    eexists. split; [reflexivity|]. split; [done|].
    cbn. split; repeat (first [left; reflexivity | right]).
  - intros ->.
    assert (Hgt : (0 >? gMaxEndpoints) = false) by reflexivity.
    repeat first [progress cbn | rew_hyps | rewrite Z.eqb_refl].
    eexists. split; [reflexivity|]. done.
Qed.

(** Once the endpoint of the claimed slot is configured and connected,
    every failure of dsOpenDirServiceProxy closes the endpoint, deletes
    the object and leaves the slot nil. *)
Lemma dsOpenDirServiceProxy_failure_after_connect (w : World) (g : Globals)
    (d port : Z) (m a r : option tDataBuffer) (c : option Z) (i : Z)
    (res : Z) (s' : St) :
  length (gMessageTable g) = 9%nat ->
  gProcessForked g = false ->
  1 <= i <= 8 -> free g i -> (forall j, 1 <= j < i -> occupied g j) ->
  w_new w = true -> w_ConfigTCP w = eDSNoErr -> w_OpenTCPEndpoint w = eDSNoErr ->
  run (dsOpenDirServiceProxy w (Some d) port m a r c) g = (Ok res, s') ->
  res <> eDSNoErr ->
  free (st_g s') i
  /\ In (EvCloseTCPEndpoint i) (st_tr s')
  /\ In (EvDelete i) (st_tr s').
Proof.
  intros Hlen Hf Hi Hfree Hocc Hnew Hcfg Hopen.
  unfold run, dsOpenDirServiceProxy. unfold_prims. cbn.
  rewrite Hf. cbn. rewrite (remote_slots_split i Hi).
  rewrite find_slot_app;
    [|intros j Hj; apply Hocc; apply list_elem_of_In, elem_of_seqZ in Hj; lia
     |done].
  unfold free in *.
  assert (Hz : (i =? 0) = false) by (apply Z.eqb_neq; lia).
  drive. look Hlen.
  repeat (step; cbn; look Hlen; prune).
  all: intros; simplify_eq; cbn [st_g st_tr gMessageTable set_gMessageTable].
  all: try (bool_hyps; congruence).
  all: look Hlen.
  all: split; [done|]; split; cbn; repeat (first [left; reflexivity | right]).
Qed.

(** With the daemon registered and the local-only daemon not in use,
    dsOpenDirService adds one to gDSConnections and sets
    gNormalDaemonInUse whatever the call goes on to return. *)
Lemma dsOpenDirService_counts_every_attempt (w : World) (g : Globals) (d : Z) :
  length (gMessageTable g) = 9%nat ->
  gProcessForked g = false ->
  gLocalDaemonInUse g = false ->
  w_bootstrap_look_up w false = 0 ->
  w_new w = true ->
  exists res s',
    run (dsOpenDirService w (Some d)) g = (Ok res, s')
    /\ gDSConnections (st_g s') = UInt32 (gDSConnections g + 1)
    /\ gNormalDaemonInUse (st_g s') = true.
Proof.
  intros Hlen Hf Hl Hb Hn. unfold run, dsOpenDirService. unfold_prims. drive.
  repeat (step; cbn; look Hlen; prune; try (exfalso; by simplify_eq)).
  all: eexists _, _; split; [reflexivity|]; done.
Qed.

(** A dsCloseDirService that succeeds on a session of slot 0 takes one
    from gDSConnections; above 1 the Mach port stays open and the in-use
    flags stay, at 1 (and at 0, where the count stays 0) the port is
    closed and both flags are cleared. *)
Lemma dsCloseDirService_shared_channel (w : World) (g : Globals) (ref : Z)
    (s' : St) :
  length (gMessageTable g) = 9%nat ->
  ref <> 0 ->
  UInt32 (w_GetMessageTableIndex w ref eDirectoryRefType (gProcessPID g)) = 0 ->
  occupied g 0 ->
  eParameterSendError <> eDSNoErr ->
  run (dsCloseDirService w ref) g = (Ok eDSNoErr, s') ->
  (1 < gDSConnections g ->
     gDSConnections (st_g s') = gDSConnections g - 1
     /\ gNormalDaemonInUse (st_g s') = gNormalDaemonInUse g
     /\ gLocalDaemonInUse (st_g s') = gLocalDaemonInUse g
     /\ ~ In EvCloseCommPort (st_tr s'))
  /\ (gDSConnections g = 1 \/ gDSConnections g = 0 ->
     gDSConnections (st_g s') = 0
     /\ gNormalDaemonInUse (st_g s') = false
     /\ gLocalDaemonInUse (st_g s') = false
     /\ In EvCloseCommPort (st_tr s')).
Proof.
  intros Hlen Href Hidx [c Hc] Hps. unfold run, dsCloseDirService. unfold_prims.
  apply Z.eqb_neq in Href. drive.
  repeat (step; cbn; look Hlen; prune).
  all: intros; simplify_eq;
    cbn [st_g st_tr gDSConnections gNormalDaemonInUse gLocalDaemonInUse
         set_gDSConnections set_gNormalDaemonInUse set_gLocalDaemonInUse].
  all: try (exfalso; bool_hyps; congruence).
  all: bool_hyps; (split; intros; [try (exfalso; lia)|try (exfalso; lia)]).
  all: repeat split; try lia; try done.
  all: try (cbn; repeat (first [left; reflexivity | right]); fail).
  all: try (intros Hin; cbn in Hin;
            repeat (destruct Hin as [Hin|Hin]; [discriminate|]); exact Hin).
Qed.

(** The statements on newPath never throw: the length test uses a macro
    that looks at siStatus, which is eDSNoErr there. *)
Lemma normalize_path_never_throws (pm : nat) (path : option (list ascii))
    (e : Z) :
  normalized pm path <> Throw e.
Proof.
  unfold normalized, normalize_path.
  match goal with |- context [c_strlen ?x] => generalize x end.
  intros newPath. unfold frame0. unfold_prims.
  destruct (c_strlen newPath) as [n|]; [|done].
  destruct (pm <=? n)%nat; cbn [st_f siStatus]; rewrite ?Z.eqb_refl.
  all: destruct n; [done|]; destruct (newPath !! n); [|done].
  all: destruct (c_str _); [|done].
  all: destruct (strstr _ _); [destruct (str_eqb _ _)|]; done.
Qed.

(** *** The reset of all sessions and the child of a fork *)

Lemma for_each_invariant (I : list Z -> St -> Prop) (body : Z -> M unit)
    (l : list Z) (s : St) :
  I [] s ->
  (forall done i s1, In i l -> I done s1 ->
     exists s2, body i s1 = (Ok tt, s2) /\ I (done ++ [i]) s2) ->
  exists s', for_each l body s = (Ok tt, s') /\ I l s'.
Proof.
  intros H0 Hbody.
  assert (Hgen : forall l' done s1,
             (forall i, In i l' -> In i l) -> I done s1 ->
             exists s', for_each l' body s1 = (Ok tt, s') /\ I (done ++ l') s').
  { induction l' as [|i l' IH]; intros done s1 Hsub HI.
    - exists s1. rewrite app_nil_r. done.
    - destruct (Hbody done i s1) as (s2 & Hb & HI2); [apply Hsub; by left|done|].
      destruct (IH (done ++ [i]) s2) as (s' & Hrun & HI');
        [intros j Hj; apply Hsub; by right|done|].
      exists s'. rewrite for_each_cons. unfold bind. rewrite Hb.
      split; [done|]. by rewrite <- app_assoc in HI'. }
  apply (Hgen l [] s); done.
Qed.

(** What __ResetAllSessions does to a table of nine entries. *)
Lemma reset_effect (s : St) :
  length (gMessageTable (st_g s)) = 9%nat ->
  exists s',
    __ResetAllSessions s = (Ok tt, s')
    /\ length (gMessageTable (st_g s')) = 9%nat
    /\ (forall i, 1 <= i <= 8 -> free (st_g s') i)
    /\ gMessageTable (st_g s') !! 0%nat = gMessageTable (st_g s) !! 0%nat
    /\ gDSConnections (st_g s') = 0
    /\ gNormalDaemonInUse (st_g s') = false
    /\ gLocalDaemonInUse (st_g s') = false
    /\ gProcessForked (st_g s') = gProcessForked (st_g s)
    /\ gProcessPID (st_g s') = gProcessPID (st_g s)
    /\ st_f s' = st_f s
    /\ (forall i, 1 <= i <= 8 -> occupied (st_g s) i ->
          In (EvCloseTCPEndpoint i) (st_tr s') /\ In (EvDelete i) (st_tr s'))
    /\ (occupied (st_g s) 0 -> In EvCloseCommPort (st_tr s')).
Proof.
  intros Hlen. unfold __ResetAllSessions.
  unfold bind at 1. unfold emit at 1. unfold bind at 1.
  match goal with
  | |- context [for_each ?l ?b ?s0] =>
      destruct (for_each_invariant (reset_progress s0) b l s0) as (s1 & Hloop & HI)
  end.
  { repeat split; try done. exists []. rewrite app_nil_r. done. }
  { intros done i [g1 f1 t1] Hi (Hl1 & Hfl & Hfr & Hsame & Hfree & tr & Htr & Hev).
    apply list_elem_of_In, elem_of_seqZ in Hi.
    unfold gMaxEndpoints, kDSFWMaxRemoteConnections in Hi.
    cbn in *.
    destruct (lookup_lt_is_Some_2 g1.(gMessageTable) (Z.to_nat i)) as [e He]; [lia|].
    unfold_prims. cbn. rewrite He. destruct e as [c|]; cbn.
    - rewrite !He. cbn. rewrite !He. cbn. rewrite !He. cbn. rewrite !He. cbn.
      eexists. split; [reflexivity|]. unfold reset_progress, free. cbn.
      split; [by rewrite length_insert|]. split; [done|]. split; [done|].
      split; [|split].
      + intros j Hj. rewrite in_app_iff in Hj. cbn in Hj.
        rewrite list_lookup_insert_ne by (intros Heq; apply Hj; right; left; lia).
        apply Hsame. tauto.
      + intros k Hk. apply in_app_iff in Hk. cbn in Hk.
        destruct (decide (k = i)) as [->|Hne].
        * apply list_lookup_insert_eq. lia.
        * rewrite list_lookup_insert_ne by lia. apply Hfree. intuition congruence.
      + exists (tr ++ [EvLock i; EvCloseTCPEndpoint i; EvUnlock i; EvDelete i]).
        split; [rewrite Htr, <- !app_assoc; reflexivity|].
        intros k Hk Hocc. rewrite !in_app_iff. apply in_app_iff in Hk. cbn in Hk.
        destruct (decide (k = i)) as [->|Hne].
        * split; right; cbn; tauto.
        * destruct (Hev k) as [H1 H2]; [intuition congruence|done|]. tauto.
    - eexists. split; [reflexivity|]. unfold reset_progress, free. cbn.
      split; [done|]. split; [done|]. split; [done|]. split; [|split].
      + intros j Hj. apply Hsame. rewrite in_app_iff in Hj. tauto.
      + intros k Hk. apply in_app_iff in Hk. cbn in Hk.
        destruct Hk as [Hk|[->|[]]]; [by apply Hfree|done].
      + exists tr. split; [done|]. intros k Hk Hocc.
        apply in_app_iff in Hk. cbn in Hk.
        destruct Hk as [Hk|[->|[]]]; [by apply Hev|].
        destruct (in_dec Z.eq_dec k done) as [Hin|Hnin]; [by apply Hev|].
        exfalso. destruct Hocc as [c Hc]. cbn in Hc.
        rewrite <- (Hsame (Z.to_nat k)) in Hc by (rewrite Z2Nat.id by lia; done).
        congruence. }
  rewrite Hloop. clear Hloop.
  destruct HI as (Hl1 & Hfl & Hfr & Hsame & Hfree & tr & Htr & Hev).
  destruct s1 as [g1 f1 t1]. cbn in *.
  destruct (lookup_lt_is_Some_2 g1.(gMessageTable) 0%nat) as [e0 He0]; [lia|].
  destruct Hfl as (Hf1 & Hf2 & Hf3 & Hf4 & Hf5).
  assert (Hslots : forall i, 1 <= i <= 8 -> In i remote_slots).
  { intros i Hi. apply list_elem_of_In, elem_of_seqZ.
    unfold gMaxEndpoints, kDSFWMaxRemoteConnections. lia. }
  assert (H0 : ~ In (Z.of_nat 0) remote_slots).
  { intros Hin. apply list_elem_of_In, elem_of_seqZ in Hin. lia. }
  unfold_prims. cbn. change (Z.to_nat 0) with 0%nat. rewrite He0.
  destruct e0 as [c0|]; cbn; rewrite ?He0; cbn; rewrite ?He0; cbn; rewrite ?He0; cbn.
  all: eexists; split; [reflexivity|]; cbn.
  all: split; [done|].
  all: split; [intros i Hi; apply Hfree; auto|].
  all: split; [rewrite <- (Hsame 0%nat) by done; done|].
  all: repeat (split; [done|]).
  all: split.
  all: try (intros i Hi Hocc; rewrite Htr, <- ?app_assoc, !in_app_iff;
            destruct (Hev i) as [H1 H2]; [auto|done|]; tauto).
  - intros _. rewrite !in_app_iff. cbn. tauto.
  - intros [c Hc]. change (Z.to_nat 0) with 0%nat in Hc.
    rewrite <- (Hsame 0%nat) in Hc by done. congruence.
Qed.

(** X1. __ResetAllSessions, run on a table of nine entries, ends
    normally: every TCP slot is nil afterwards and each one that held a
    session had its endpoint closed and its object deleted; slot 0 keeps
    its object, whose Mach port is closed; gDSConnections is 0 and both
    in-use flags are false; the fork flag, the process id and the locals
    of the caller are as before. *)
Theorem ResetAllSessions_closes_every_session (s : St) :
  length (gMessageTable (st_g s)) = 9%nat ->
  exists s',
    __ResetAllSessions s = (Ok tt, s')
    /\ length (gMessageTable (st_g s')) = 9%nat
    /\ (forall i, 1 <= i <= 8 -> free (st_g s') i)
    /\ gMessageTable (st_g s') !! 0%nat = gMessageTable (st_g s) !! 0%nat
    /\ gDSConnections (st_g s') = 0
    /\ gNormalDaemonInUse (st_g s') = false
    /\ gLocalDaemonInUse (st_g s') = false
    /\ gProcessForked (st_g s') = gProcessForked (st_g s)
    /\ gProcessPID (st_g s') = gProcessPID (st_g s)
    /\ st_f s' = st_f s
    /\ (forall i, 1 <= i <= 8 -> occupied (st_g s) i ->
          In (EvCloseTCPEndpoint i) (st_tr s') /\ In (EvDelete i) (st_tr s'))
    /\ (occupied (st_g s) 0 -> In EvCloseCommPort (st_tr s')).
Proof. apply reset_effect. Qed.

(** X2. In the child of a fork (the globals after __ForkChild), the
    first dsOpenDirService with the daemon registered returns, and it
    starts from a clean registry: every TCP session inherited from the
    parent was closed and deleted and its slot is nil, the fork flag is
    cleared, and exactly one connection is counted, for the normal
    daemon. *)
Theorem fork_child_starts_fresh (w : World) (g : Globals) (pid d : Z) :
  length (gMessageTable g) = 9%nat ->
  w_bootstrap_look_up w false = 0 ->
  w_new w = true ->
  exists res s',
    run (dsOpenDirService w (Some d)) (__ForkChild pid g) = (Ok res, s')
    /\ gProcessForked (st_g s') = false
    /\ gProcessPID (st_g s') = pid
    /\ gDSConnections (st_g s') = 1
    /\ gNormalDaemonInUse (st_g s') = true
    /\ gLocalDaemonInUse (st_g s') = false
    /\ (forall i, 1 <= i <= 8 -> free (st_g s') i)
    /\ (forall i, 1 <= i <= 8 -> occupied g i ->
          In (EvCloseTCPEndpoint i) (st_tr s') /\ In (EvDelete i) (st_tr s')).
Proof.
  intros Hlen Hb Hnew. unfold run, dsOpenDirService, __ForkChild. unfold_prims.
  repeat first [progress cbn | rew_hyps | rewrite Z.eqb_refl].
  match goal with
  | |- context [__ResetAllSessions ?s0] =>
      destruct (reset_effect s0) as
        (s1 & Hr & Hl1 & Hfree & H0 & Hc & Hn & Hl & Hfk & Hpid & Hfr & Hev & _);
      [done|rewrite Hr; clear Hr]
  end.
  destruct s1 as [g1 f1 t1]. cbn in *. subst f1.
  repeat (step; cbn; look Hl1; prune; try (exfalso; by simplify_eq)).
  all: eexists _, _; (split; [reflexivity|]); cbn.
  all: split; [done|]; split; [done|].
  all: split; [unfold UInt32; rewrite Hc; reflexivity|].
  all: split; [done|]; split; [done|]; split.
  all: try (intros i Hi; unfold free; cbn;
            rewrite ?list_lookup_insert_ne by lia; by apply Hfree).
  all: intros i Hi Hocc; rewrite !in_app_iff;
    destruct (Hev i) as [H1 H2]; [done|done|]; tauto.
Qed.

(** *** dsOpenDirService without a daemon, dsCloseDirService *)

(** X3. When the DirectoryService daemon is not registered with the
    bootstrap server, dsOpenDirService returns eServerNotRunning: it
    takes and releases the global lock around the lookup and does
    nothing else; no endpoint is created, no connection is counted and no
    message is sent. *)
Theorem dsOpenDirService_daemon_not_registered (w : World) (g : Globals)
    (d : Z) :
  gLocalDaemonInUse g = false ->
  w_bootstrap_look_up w false <> 0 ->
  eServerNotRunning <> eDSNoErr ->
  exists s',
    run (dsOpenDirService w (Some d)) g = (Ok eServerNotRunning, s')
    /\ st_g s' = g
    /\ st_tr s' = [EvWaitLock; EvBootstrapLookUp false; EvSignalLock].
Proof.
  intros Hl Hb Hne. apply Z.eqb_neq in Hb, Hne.
  unfold run, dsOpenDirService. unfold_prims. drive.
  eexists. split; [reflexivity|]. by destruct g.
Qed.

(** X4. A dsCloseDirService that returns a code other than eDSNoErr
    and eDSCannotAccessSession has changed nothing: the globals are as
    before (the session is still counted and its slot still holds the
    endpoint) and the reference was not removed from the reference
    map. *)
Theorem dsCloseDirService_failure_keeps_session (w : World) (g : Globals)
    (ref r : Z) (s' : St) :
  run (dsCloseDirService w ref) g = (Ok r, s') ->
  r <> eDSNoErr -> r <> eDSCannotAccessSession ->
  st_g s' = g /\ ~ In (EvRemoveDirRef ref) (st_tr s').
Proof.
  unfold run, dsCloseDirService. unfold_prims. cbn.
  repeat (step; cbn; prune).
  all: intros; simplify_eq; cbn.
  all: try (exfalso; bool_hyps; congruence).
  all: split; [try done|].
  all: try (intros Hin; cbn in Hin;
            repeat (destruct Hin as [Hin|Hin]; [discriminate|]); exact Hin).
Qed.

(** X5. A dsCloseDirService that returns eDSNoErr for a reference of
    a TCP slot removed the reference from the reference map, closed the
    endpoint, deleted its object and left the slot nil; the other slots
    and the count of Mach connections are as before. *)
Theorem dsCloseDirService_success_frees_remote_slot (w : World)
    (g : Globals) (ref idx : Z) (s' : St) :
  length (gMessageTable g) = 9%nat ->
  UInt32 (w_GetMessageTableIndex w ref eDirectoryRefType (gProcessPID g)) = idx ->
  1 <= idx <= 8 ->
  eDSInvalidReference <> eDSNoErr ->
  eDSRefTableEntryNilError <> eDSNoErr ->
  eParameterSendError <> eDSNoErr ->
  eDSCannotAccessSession <> eDSNoErr ->
  run (dsCloseDirService w ref) g = (Ok eDSNoErr, s') ->
  gMessageTable (st_g s') = <[Z.to_nat idx := None]> (gMessageTable g)
  /\ gDSConnections (st_g s') = gDSConnections g
  /\ In (EvRemoveDirRef ref) (st_tr s')
  /\ In (EvCloseTCPEndpoint idx) (st_tr s')
  /\ In (EvDelete idx) (st_tr s').
Proof.
  intros Hlen Hidx Hi H1 H2 H3 H4.
  assert (Hz : (idx =? 0) = false) by (apply Z.eqb_neq; lia).
  assert (Hgt : (idx >? gMaxEndpoints) = false).
  { unfold gMaxEndpoints, kDSFWMaxRemoteConnections. lia. }
  unfold run, dsCloseDirService. unfold_prims. drive.
  repeat (step; cbn; look Hlen; prune).
  all: intros; simplify_eq; cbn.
  all: try (exfalso; bool_hyps; congruence).
  all: split; [reflexivity|]; split; [reflexivity|].
  all: split_and!; repeat (first [left; reflexivity | right]).
Qed.

(** *** The locks *)

Section Locked.

Variable l : Mutex.

Lemma held_app tr1 tr2 : held l (tr1 ++ tr2) = held l tr1 + held l tr2.
Proof. induction tr1 as [|e tr1 IH]; cbn [held app]; [done|]. rewrite IH. lia. Qed.

Lemma guarded_app d tr1 tr2 :
  guarded l d (tr1 ++ tr2) <->
  guarded l d tr1 /\ guarded l (d + held l tr1) tr2.
Proof.
  revert d. induction tr1 as [|e tr1 IH]; intros d; cbn [guarded held app].
  - rewrite Z.add_0_r. tauto.
  - rewrite IH, Z.add_assoc. tauto.
Qed.

(** A step that makes no call. *)
Lemma locked_silent {A} (P : St -> Prop) (m : M A) n q e r :
  (forall s res s', m s = (res, s') ->
     st_tr s' = st_tr s /\ outcome n q e r res) ->
  locked_from P l n m q e r.
Proof.
  intros Hm s res s' _ Hrun. destruct (Hm _ _ _ Hrun) as [Htr Hout].
  exists []. rewrite app_nil_r. cbn. rewrite Z.add_0_r. done.
Qed.

(** The rest of the code relies on what the first part establishes. *)
Lemma locked_from_bind {A B} (P : St -> Prop) (Q : A -> St -> Prop)
    (m : M A) (k : A -> M B) n q q' e r :
  locked_from P l n m q e r ->
  (forall s a s', P s -> m s = (Ok a, s') -> Q a s') ->
  (forall a, locked_from (Q a) l q (k a) q' e r) ->
  locked_from P l n (bind m k) q' e r.
Proof.
  intros Hm HQ Hk s res s' HP Hrun. unfold bind in Hrun.
  destruct (m s) as [r1 s1] eqn:Hms.
  destruct (Hm _ _ _ HP Hms) as (tr1 & Htr1 & Hg1 & Ho1).
  destruct r1 as [a| | |]; simplify_eq; try by exists tr1.
  cbn in Ho1. subst q.
  destruct (Hk a _ _ _ (HQ _ _ _ HP Hms) Hrun) as (tr2 & Htr2 & Hg2 & Ho2).
  exists (tr1 ++ tr2). rewrite Htr2, Htr1, app_assoc. split; [done|].
  rewrite guarded_app, held_app, Z.add_assoc. done.
Qed.

(** The handler relies on what holds where the block throws. *)
Lemma locked_from_try_catch {A} (P Q : St -> Prop) (m : M A) (h : Z -> M A)
    n q e e' r :
  locked_from P l n m q e r ->
  (forall s err s', P s -> m s = (Throw err, s') -> Q s') ->
  (forall err, locked_from Q l e (h err) q e' r) ->
  locked_from P l n (try_catch m h) q e' r.
Proof.
  intros Hm HQ Hh s res s' HP Hrun. unfold try_catch in Hrun.
  destruct (m s) as [r1 s1] eqn:Hms.
  destruct (Hm _ _ _ HP Hms) as (tr1 & Htr1 & Hg1 & Ho1).
  destruct r1 as [a|err| |]; simplify_eq; try by exists tr1.
  cbn in Ho1. subst e.
  destruct (Hh err _ _ _ (HQ _ _ _ HP Hms) Hrun) as (tr2 & Htr2 & Hg2 & Ho2).
  exists (tr1 ++ tr2). rewrite Htr2, Htr1, app_assoc. split; [done|].
  rewrite guarded_app, held_app, Z.add_assoc. done.
Qed.

Lemma locked_any {A} (P : St -> Prop) (m : M A) n q e r :
  locked l n m q e r -> locked_from P l n m q e r.
Proof. intros Hm s res s' _. by apply Hm. Qed.

Lemma locked_bind {A B} (m : M A) (k : A -> M B) n q q' e r :
  locked l n m q e r -> (forall a, locked l q (k a) q' e r) ->
  locked l n (bind m k) q' e r.
Proof.
  intros Hm Hk.
  apply (locked_from_bind (fun _ => True) (fun _ _ => True) m k n q q' e r); done.
Qed.

Lemma locked_try_catch {A} (m : M A) (h : Z -> M A) n q e e' r :
  locked l n m q e r -> (forall err, locked l e (h err) q e' r) ->
  locked l n (try_catch m h) q e' r.
Proof.
  intros Hm Hh.
  apply (locked_from_try_catch (fun _ => True) (fun _ => True) m h n q e e' r);
    done.
Qed.

Lemma locked_function (m : M Z) n q e r :
  locked l n m q e q -> locked l n (function m) q e r.
Proof.
  intros Hm s res s' _ Hrun. unfold function in Hrun.
  destruct (m s) as [r1 s1] eqn:Hms.
  destruct (Hm _ _ _ I Hms) as (tr & Htr & Hg & Ho).
  exists tr. destruct r1; by simplify_eq.
Qed.

Lemma locked_ret {A} (a : A) n e r : locked l n (ret a) n e r.
Proof. apply locked_silent. intros s res s' Hrun. cbv in Hrun. by simplify_eq. Qed.

Lemma locked_throw {A} (x : Z) n q r : locked l n (@throw A x) q n r.
Proof. apply locked_silent. intros s res s' Hrun. cbv in Hrun. by simplify_eq. Qed.

Lemma locked_return {A} (v : Z) n q e : locked l n (@return_ A v) q e n.
Proof. apply locked_silent. intros s res s' Hrun. cbv in Hrun. by simplify_eq. Qed.

Lemma locked_undef {A} n q e r : locked l n (@undef A) q e r.
Proof. apply locked_silent. intros s res s' Hrun. cbv in Hrun. by simplify_eq. Qed.

Lemma locked_emit (ev : Event) n e r :
  (needs l ev = true -> 0 < n) ->
  locked l n (emit ev) (n + acquires l ev) e r.
Proof.
  intros Hn s res s' _ Hrun. unfold emit in Hrun. simplify_eq.
  exists [ev]. cbn. split; [done|]. split; [done|]. lia.
Qed.

Lemma locked_getG {A} (p : Globals -> A) n e r : locked l n (getG p) n e r.
Proof. apply locked_silent. intros s res s' Hrun. unfold getG in Hrun. by simplify_eq. Qed.

Lemma locked_getF {A} (p : Frame -> A) n e r : locked l n (getF p) n e r.
Proof. apply locked_silent. intros s res s' Hrun. unfold getF in Hrun. by simplify_eq. Qed.

Lemma locked_modF (u : Frame -> Frame) n e r : locked l n (modF u) n e r.
Proof. apply locked_silent. intros s res s' Hrun. unfold modF in Hrun. by simplify_eq. Qed.

Lemma locked_modG (u : Globals -> Globals) n e r : locked l n (modG u) n e r.
Proof. apply locked_silent. intros s res s' Hrun. unfold modG in Hrun. by simplify_eq. Qed.

Lemma locked_table_get (idx : Z) n e r : locked l n (table_get idx) n e r.
Proof.
  apply locked_silent. intros s res s' Hrun. unfold table_get in Hrun.
  destruct (_ !! _); by simplify_eq.
Qed.

Lemma locked_table_set (idx : Z) v n e r : locked l n (table_set idx v) n e r.
Proof.
  apply locked_silent. intros s res s' Hrun. unfold table_set in Hrun.
  destruct (_ !! _); by simplify_eq.
Qed.

Lemma locked_for_each (ls : list Z) (body : Z -> M unit) n e r :
  (forall i, locked l n (body i) n e r) -> locked l n (for_each ls body) n e r.
Proof.
  intros Hb. induction ls as [|i ls IH]; [apply locked_ret|].
  rewrite for_each_cons. eapply locked_bind; [apply Hb|]. intros _. apply IH.
Qed.

Lemma locked_find_slot (ls : list Z) n e r : locked l n (find_slot ls) n e r.
Proof.
  induction ls as [|i ls IH]; [apply locked_modF|].
  rewrite find_slot_cons.
  eapply locked_bind; [apply locked_modF|intros _].
  eapply locked_bind; [apply locked_table_get|intros x].
  destruct (isNil x); [apply locked_modF|done].
Qed.

Lemma locked_conseq {A} (m : M A) n q e r q' e' r' :
  locked l n m q' e' r' -> q' = q -> e' = e -> r' = r -> locked l n m q e r.
Proof. by intros Hm <- <- <-. Qed.

End Locked.

Lemma keeps_table_set_at (P : St -> Prop) (idx : Z)
    (v : option CMessaging) :
  (forall s, P s ->
     P {| st_g := set_gMessageTable
                    (<[Z.to_nat idx := v]> (gMessageTable (st_g s))) (st_g s);
          st_f := st_f s; st_tr := st_tr s |}) ->
  keeps P (table_set idx v).
Proof.
  intros Ht s r s' Hrun. unfold table_set in Hrun.
  destruct (_ !! _); simplify_eq; [apply Ht|done].
Qed.

(** The numbers of holds agree: by unification where one is still open,
    else by cases on the lock a call takes. *)
Ltac locked_side :=
  cbv beta iota delta [acquires];
  first
    [ reflexivity
    | repeat match goal with
             | |- context [?a =? ?b] => destruct (a =? b)
             end;
      first [reflexivity | lia] ].

(** The lock is held where a call needs it. *)
Ltac locked_guard :=
  cbv beta iota delta [needs acquires];
  repeat match goal with
         | |- context [?a =? ?b] => destruct (a =? b)
         end;
  first [discriminate | intros _; lia].

Ltac locked_leaf rule :=
  eapply locked_conseq; [apply rule | locked_side | locked_side | locked_side].

(** Follows the code in the order of execution. *)
Ltac locked_go :=
  lazymatch goal with
  | |- locked _ _ (bind _ _) _ _ _ =>
      eapply locked_bind; [locked_go | intro; locked_go]
  | |- locked _ ?n (try_catch _ _) _ _ _ =>
      eapply locked_try_catch;
        [ locked_go
        | intro;
          lazymatch goal with
          | |- locked _ ?e' _ _ _ _ => tryif is_evar e' then unify e' n else idtac
          end;
          locked_go ]
  | |- locked _ _ (function _) _ _ _ => eapply locked_function; locked_go
  | |- locked _ _ (ret _) _ _ _ => locked_leaf locked_ret
  | |- locked _ _ (throw _) _ _ _ => locked_leaf locked_throw
  | |- locked _ _ (return_ _) _ _ _ => locked_leaf locked_return
  | |- locked _ _ undef _ _ _ => locked_leaf locked_undef
  | |- locked _ _ (emit _) _ _ _ =>
      eapply locked_conseq;
        [ apply locked_emit; locked_guard
        | locked_side | locked_side | locked_side ]
  | |- locked _ _ (getG _) _ _ _ => locked_leaf locked_getG
  | |- locked _ _ (getF _) _ _ _ => locked_leaf locked_getF
  | |- locked _ _ (modF _) _ _ _ => locked_leaf locked_modF
  | |- locked _ _ (modG _) _ _ _ => locked_leaf locked_modG
  | |- locked _ _ (table_get _) _ _ _ => locked_leaf locked_table_get
  | |- locked _ _ (table_set _ _) _ _ _ => locked_leaf locked_table_set
  | |- locked _ _ (for_each _ _) _ _ _ =>
      eapply locked_conseq;
        [ apply locked_for_each; intro; locked_go
        | locked_side | locked_side | locked_side ]
  | |- locked _ _ (find_slot _) _ _ _ => locked_leaf locked_find_slot
  | |- locked _ _ (match ?x with _ => _ end) _ _ _ => destruct x; locked_go
  | |- locked _ _ ?m _ _ _ =>
      first [ eapply locked_conseq;
                [ solve [eauto 2 with locked] | locked_side .. ]
            | fail 1000 "no rule for" m ]
  end.

Ltac locked_auto := unfold_calls; locked_go.

Lemma dsVerifyDirRefNum_locked l w ref e r :
  locked l 0 (dsVerifyDirRefNum w ref) 0 e r.
Proof. destruct l; unfold dsVerifyDirRefNum; locked_auto. Qed.

Lemma dsCloseDirService_locked l w ref e r :
  locked l 0 (dsCloseDirService w ref) 0 e r.
Proof. destruct l; unfold dsCloseDirService; locked_auto. Qed.

Lemma dsGetRecordList_locked l w ref b l1 l2 l3 rc c e r :
  locked l 0 (dsGetRecordList w ref b l1 l2 l3 rc c) 0 e r.
Proof. destruct l; unfold dsGetRecordList; locked_auto. Qed.

Lemma dsDoAttributeValueSearch_locked l w ref b ls b1 b2 rc c e r :
  locked l 0 (dsDoAttributeValueSearch w ref b ls b1 b2 rc c) 0 e r.
Proof. destruct l; unfold dsDoAttributeValueSearch; locked_auto. Qed.

(** __ResetAllSessions relies on its caller for [gLock]. *)
Lemma ResetAllSessions_locked l n e r :
  0 <= n -> (l = gLock -> 0 < n) -> locked l n __ResetAllSessions n e r.
Proof.
  intros Hn Hl. destruct l; [specialize (Hl eq_refl)|clear Hl].
  all: unfold __ResetAllSessions; locked_auto.
Qed.

#[local] Hint Extern 1 (locked _ _ __ResetAllSessions _ _ _) =>
  apply ResetAllSessions_locked; [lia | first [intros _; lia | discriminate]]
  : locked.

Lemma dsOpenDirService_locked l w d n e r :
  0 <= n -> locked l n (dsOpenDirService w d) n e r.
Proof. intros Hn. destruct l; unfold dsOpenDirService; locked_auto. Qed.

#[local] Hint Extern 1 (locked _ _ (dsOpenDirService _ _) _ _ _) =>
  apply dsOpenDirService_locked; lia : locked.

Lemma normalize_path_locked l pm p n r : locked l n (normalize_path pm p) n n r.
Proof. destruct l; unfold normalize_path; locked_auto. Qed.

#[local] Hint Resolve normalize_path_locked : locked.

Lemma dsOpenDirServiceLocal_locked l pm w d p e r :
  locked l 0 (dsOpenDirServiceLocal pm w d p) 0 e r.
Proof. destruct l; unfold dsOpenDirServiceLocal; locked_auto. Qed.

(** What a statement establishes for the code that follows it. *)
Ltac post :=
  intros ? ? ?; unfold claimed; intros HP; unfold_prims; cbn;
  repeat (step; cbn; prune);
  intros; destruct_and?; simplify_eq; cbn in *; eauto.

Lemma dsOpenDirServiceProxy_locked l w d port m a r0 c e r :
  locked l 0 (dsOpenDirServiceProxy w d port m a r0 c) 0 e r.
Proof.
  unfold dsOpenDirServiceProxy. destruct l.
  all: eapply locked_bind; [locked_auto|intro].
  all: eapply locked_bind; [|intro; locked_auto].
  all: eapply locked_try_catch; [|intro; locked_auto].
  all: eapply locked_bind; [locked_auto|intro].
  all: eapply locked_bind; [locked_auto|intro].
  all: eapply locked_bind; [locked_auto|intro].
  all: eapply locked_from_bind
         with (Q := fun _ s => messageIndex (st_f s) <> 0);
    [ apply locked_any; locked_auto | | intro ].
  1, 3: intros s x s' _ Hrun; unfold try_catch in Hrun;
    match type of Hrun with context [bind ?m ?k s] =>
      destruct (bind m k s) as [[| | |] s1] eqn:Hb end;
    try (revert Hrun; unfold_prims; cbn; intros; simplify_eq; fail);
    simplify_eq;
    apply bind_Ok in Hb as (forked & s1 & _ & Hb);
    apply bind_Ok in Hb as (? & s2 & _ & Hb);
    apply bind_Ok in Hb as (? & s3 & _ & Hb);
    apply bind_Ok in Hb as (idx & s4 & Hidx & Hb);
    apply bind_Ok in Hb as (? & s5 & Hnz & Hb);
    revert Hidx Hnz Hb; unfold_prims; cbn;
    intros Hidx; simplify_eq;
    destruct (messageIndex (st_f s4) =? 0) eqn:Hz; [done|];
    intros ?; simplify_eq;
    repeat (step; cbn; prune);
    intros; simplify_eq; cbn; by apply Z.eqb_neq.
  (* the lock is given back, the status of the connection is checked *)
  all: eapply locked_from_bind
         with (Q := fun _ s => messageIndex (st_f s) <> 0);
    [ apply locked_any; locked_auto | post | intro ].
  all: eapply locked_from_bind
         with (Q := fun _ s => messageIndex (st_f s) <> 0);
    [ apply locked_any; locked_auto | post | intro ].
  all: eapply locked_from_bind
         with (Q := fun idx s => messageIndex (st_f s) = idx /\ idx <> 0);
    [ apply locked_any; locked_auto | post | intros idx ].
  all: eapply locked_from_bind
         with (Q := fun e s => messageIndex (st_f s) = idx /\ idx <> 0
                  /\ gMessageTable (st_g s) !! Z.to_nat idx = Some e);
    [ apply locked_any; locked_auto | post | intros e0 ].
  all: eapply locked_from_bind with (Q := fun _ => claimed idx);
    [ apply locked_any; locked_auto | post | intro ].
  all: eapply locked_from_bind with (Q := fun _ => claimed idx);
    [ apply locked_any; locked_auto | post | intro ].
  all: eapply locked_from_bind with (Q := fun _ _ => True);
    [ eapply locked_from_try_catch with (Q := claimed idx);
        [ apply locked_any; locked_auto | | intro ]
    | done
    | intro; apply locked_any; locked_auto ].
  (* where the request throws, the slot is still the claimed one *)
  1, 3: intros s err s' HP Hrun;
    match type of Hrun with ?b s = _ =>
      assert (Hk : keeps (claimed idx) b); [|exact (Hk _ _ _ Hrun HP)]
    end;
    clear; unfold_calls;
    repeat first
      [ apply keeps_table_set_at;
        unfold claimed; cbn; intros s (Hm & Hz & c & Hc);
        split_and!; try done;
        eexists; apply list_lookup_insert_eq; by eapply lookup_lt_Some
      | keeps_step ].
  (* so that the handler closes the endpoint and gives its lock back *)
  all: intros s res s' (Hm & Hz & c0 & Hc); apply Z.eqb_neq in Hz.
  all: unfold_prims; drive.
  all: intros; simplify_eq; eexists; cbn.
  all: split; [rewrite <- !app_assoc; reflexivity|].
  all: cbn [app guarded held needs acquires]; unfold outcome.
  all: repeat match goal with
       | |- context [?x =? ?y] => destruct (x =? y)
       end.
  all: repeat split; first [lia | discriminate | intros _; lia].
Qed.

Lemma perform_locked l w c e r : locked l 0 (perform w c) 0 e r.
Proof.
  destruct c; cbn [perform].
  - apply dsOpenDirService_locked. lia.
  - apply dsOpenDirServiceProxy_locked.
  - apply dsOpenDirServiceLocal_locked.
  - apply dsCloseDirService_locked.
  - apply dsGetRecordList_locked.
  - apply dsDoAttributeValueSearch_locked.
  - apply dsVerifyDirRefNum_locked.
Qed.

(** X6. No exception and no early return escapes an API call, and an
    API call that returns holds every lock (the global lock and the lock
    of each endpoint) exactly as often as when it was called: whatever
    it takes it gives back, on every path. *)
Theorem api_calls_release_their_locks (w : World) (c : ApiCall) (l : Mutex)
    (s : St) :
  match perform w c s with
  | (Ok _, s') => held l (st_tr s') = held l (st_tr s)
  | (Undef, _) => True
  | _ => False
  end.
Proof.
  destruct (perform w c s) as [res s'] eqn:Hrun.
  destruct (perform_locked l w c 0 0 s res s' I Hrun) as (tr & Htr & _ & Ho).
  destruct (perform_locked l w c 1 1 s res s' I Hrun) as (tr' & Htr' & _ & Ho').
  rewrite Htr in Htr'. apply app_inv_head in Htr'. subst tr'.
  unfold outcome in Ho, Ho'. destruct res; try done; try lia.
  rewrite Htr, held_app. lia.
Qed.

(** X7. During an API call the endpoints are created, connected,
    closed and deleted only while the call holds the global lock, and
    the message block of an endpoint is used (cleared, filled, sent,
    received, read), its server version set and its connection closed
    only while the call holds the lock of that endpoint. *)
Theorem api_calls_hold_the_locks_they_need (w : World) (c : ApiCall)
    (l : Mutex) (g : Globals) :
  guarded l 0 (st_tr (snd (run (perform w c) g))).
Proof.
  unfold run. destruct (perform w c _) as [res s'] eqn:Hrun.
  destruct (perform_locked l w c 0 0 _ res s' I Hrun) as (tr & Htr & Hg & _).
  cbn in *. by rewrite Htr.
Qed.

(** *** The operations on an open session *)

Section Sessions.

Context `{SessionCodes}.

Ltac unfold_primsX :=
  unfold enterX, LogThenThrowIfZeroMacro, Add_Value_ToMsgX,
    Add_tDataBuff_ToMsgX, Add_tDataList_ToMsgX, SendInlineMessageX,
    Get_Value_FromMsgX, Get_Value_FromMsg_localX, Get_tDataBuff_FromMsgX,
    NewNodeRefMap, methodX, assignX, lift, bindX, try_catchX, emitX, getC,
    modC in *;
  unfold_prims.

Section LockedX.

Variable l : Mutex.

Lemma heldX_app tr1 tr2 : heldX l (tr1 ++ tr2) = heldX l tr1 + heldX l tr2.
Proof.
  induction tr1 as [|e tr1 IH]; cbn [heldX app]; [done|]. rewrite IH. lia.
Qed.

Lemma heldX_base tr : heldX l (map base tr) = held l tr.
Proof. induction tr as [|e tr IH]; cbn; [done|]. by rewrite IH. Qed.

Lemma guardedX_app d tr1 tr2 :
  guardedX l d (tr1 ++ tr2) <->
  guardedX l d tr1 /\ guardedX l (d + heldX l tr1) tr2.
Proof.
  revert d. induction tr1 as [|e tr1 IH]; intros d; cbn [guardedX heldX app].
  - rewrite Z.add_0_r. tauto.
  - rewrite IH, Z.add_assoc. tauto.
Qed.

Lemma guardedX_base d tr : guardedX l d (map base tr) <-> guarded l d tr.
Proof.
  revert d. induction tr as [|e tr IH]; intros d; cbn; [done|].
  rewrite IH. by destruct l.
Qed.

Lemma lockedX_lift {A} (m : M A) n q e r :
  locked l n m q e r -> lockedX l n (lift m) q e r.
Proof.
  intros Hm s res s' Hrun. unfold lift in Hrun.
  destruct (m _) as [r1 s1] eqn:Hms. simplify_eq. cbn.
  destruct (Hm _ _ _ I Hms) as (tr & Htr & Hg & Ho). cbn in Htr.
  exists (map base tr). rewrite Htr, guardedX_base, heldX_base. done.
Qed.

Lemma lockedX_bind {A B} (m : MX A) (k : A -> MX B) n q q' e r :
  lockedX l n m q e r -> (forall a, lockedX l q (k a) q' e r) ->
  lockedX l n (bindX m k) q' e r.
Proof.
  intros Hm Hk s res s' Hrun. unfold bindX in Hrun.
  destruct (m s) as [r1 s1] eqn:Hms.
  destruct (Hm _ _ _ Hms) as (tr1 & Htr1 & Hg1 & Ho1).
  destruct r1 as [a| | |]; simplify_eq; try by exists tr1.
  unfold outcome in Ho1. subst q.
  destruct (Hk a _ _ _ Hrun) as (tr2 & Htr2 & Hg2 & Ho2).
  exists (tr1 ++ tr2). rewrite Htr2, Htr1, app_assoc. split; [done|].
  rewrite guardedX_app, heldX_app, Z.add_assoc. done.
Qed.

Lemma lockedX_try_catch {A} (m : MX A) (h : Z -> MX A) n q e e' r :
  lockedX l n m q e r -> (forall err, lockedX l e (h err) q e' r) ->
  lockedX l n (try_catchX m h) q e' r.
Proof.
  intros Hm Hh s res s' Hrun. unfold try_catchX in Hrun.
  destruct (m s) as [r1 s1] eqn:Hms.
  destruct (Hm _ _ _ Hms) as (tr1 & Htr1 & Hg1 & Ho1).
  destruct r1 as [a|err| |]; simplify_eq; try by exists tr1.
  unfold outcome in Ho1. subst e.
  destruct (Hh err _ _ _ Hrun) as (tr2 & Htr2 & Hg2 & Ho2).
  exists (tr1 ++ tr2). rewrite Htr2, Htr1, app_assoc. split; [done|].
  rewrite guardedX_app, heldX_app, Z.add_assoc. done.
Qed.

Lemma lockedX_emit (c : Call) n e r :
  (needsX l c = true -> 0 < n) ->
  lockedX l n (emitX c) (n + acquiresX l c) e r.
Proof.
  intros Hn s res s' Hrun. unfold emitX in Hrun. simplify_eq.
  exists [c]. unfold outcome. cbn. split; [done|]. split; [done|]. lia.
Qed.

Lemma lockedX_getC {A} (p : Cells -> A) n e r : lockedX l n (getC p) n e r.
Proof.
  intros s res s' Hrun. unfold getC in Hrun. simplify_eq.
  exists []. unfold outcome. cbn. rewrite app_nil_r. split_and!; [done..|lia].
Qed.

Lemma lockedX_modC (u : Cells -> Cells) n e r : lockedX l n (modC u) n e r.
Proof.
  intros s res s' Hrun. unfold modC in Hrun. simplify_eq.
  exists []. unfold outcome. cbn. rewrite app_nil_r. split_and!; [done..|lia].
Qed.

Lemma lockedX_conseq {A} (m : MX A) n q e r q' e' r' :
  lockedX l n m q' e' r' -> q' = q -> e' = e -> r' = r -> lockedX l n m q e r.
Proof. by intros Hm <- <- <-. Qed.

End LockedX.

Ltac unfold_callsX :=
  unfold enterX, LogThenThrowIfZeroMacro, Add_Value_ToMsgX,
    Add_tDataBuff_ToMsgX, Add_tDataList_ToMsgX, SendInlineMessageX,
    Get_Value_FromMsgX, Get_Value_FromMsg_localX, Get_tDataBuff_FromMsgX,
    NewNodeRefMap, methodX, assignX.

Ltac lockedX_side :=
  cbv beta iota delta [acquires acquiresX];
  first
    [ reflexivity
    | repeat match goal with
             | |- context [?a =? ?b] => destruct (a =? b)
             end;
      first [reflexivity | lia] ].

Ltac lockedX_guard :=
  cbv beta iota delta [needs needsX acquires acquiresX];
  repeat match goal with
         | |- context [?a =? ?b] => destruct (a =? b)
         end;
  first [discriminate | intros _; lia].

Ltac lockedX_leaf rule :=
  eapply lockedX_conseq;
    [apply rule | lockedX_side | lockedX_side | lockedX_side].

Ltac lockedX_go :=
  lazymatch goal with
  | |- lockedX _ _ (bindX _ _) _ _ _ =>
      eapply lockedX_bind; [lockedX_go | intro; lockedX_go]
  | |- lockedX _ ?n (try_catchX _ _) _ _ _ =>
      eapply lockedX_try_catch;
        [ lockedX_go
        | intro;
          lazymatch goal with
          | |- lockedX _ ?e' _ _ _ _ =>
              tryif is_evar e' then unify e' n else idtac
          end;
          lockedX_go ]
  | |- lockedX _ _ (lift _) _ _ _ => apply lockedX_lift; locked_auto
  | |- lockedX _ _ (emitX _) _ _ _ =>
      eapply lockedX_conseq;
        [ apply lockedX_emit; lockedX_guard
        | lockedX_side | lockedX_side | lockedX_side ]
  | |- lockedX _ _ (getC _) _ _ _ => lockedX_leaf lockedX_getC
  | |- lockedX _ _ (modC _) _ _ _ => lockedX_leaf lockedX_modC
  | |- lockedX _ _ (match ?x with _ => _ end) _ _ _ => destruct x; lockedX_go
  | |- lockedX _ _ ?m _ _ _ => fail 1000 "no rule for" m
  end.

Ltac lockedX_auto := unfold_callsX; lockedX_go.

Lemma performX_locked l le w c e r : lockedX l 0 (performX le w c) 0 e r.
Proof.
  destruct c; cbn [performX];
    unfold dsAddChildPIDToReference, dsGetDirNodeCount,
      dsGetDirNodeCountWithInfo, dsGetDirNodeList, dsReleaseContinueData,
      dsFindDirNodes, dsOpenDirNode, dsCloseDirNode, dsDoDirNodeAuth,
      dsDoDirNodeAuthOnRecordType, dsDoPlugInCustomCall.
  all: destruct l; lockedX_auto.
Qed.

(** X8. No exception escapes an operation on an open session, and an
    operation that returns holds every lock exactly as often as when it
    was called. *)
Theorem session_calls_release_their_locks (le : bool) (w : WorldX)
    (c : SessionCall) (l : Mutex) (s : StX) :
  match performX le w c s with
  | (Ok _, s') => heldX l (x_tr s') = heldX l (x_tr s)
  | (Undef, _) => True
  | _ => False
  end.
Proof.
  destruct (performX le w c s) as [res s'] eqn:Hrun.
  destruct (performX_locked l le w c 0 0 s res s' Hrun) as (tr & Htr & _ & Ho).
  destruct (performX_locked l le w c 1 1 s res s' Hrun)
    as (tr' & Htr' & _ & Ho').
  rewrite Htr in Htr'. apply app_inv_head in Htr'. subst tr'.
  unfold outcome in Ho, Ho'. destruct res; try done; try lia.
  rewrite Htr, heldX_app. lia.
Qed.

(** X9. An operation on an open session uses the message block of an
    endpoint (clears it, adds a field, sends the request, gets the reply,
    reads a field) only while it holds the lock of that endpoint, and
    closes and deletes an endpoint only under the global lock. *)
Theorem session_calls_hold_the_locks_they_need (le : bool) (w : WorldX)
    (c : SessionCall) (l : Mutex) (g : Globals) :
  guardedX l 0 (x_tr (snd (runX (performX le w c) g))).
Proof.
  unfold runX. destruct (performX le w c _) as [res s'] eqn:Hrun.
  destruct (performX_locked l le w c 0 0 _ res s' Hrun) as (tr & Htr & Hg & _).
  cbn in *. by rewrite Htr.
Qed.

Section KeepsX.

Variable Q : Globals -> Frame -> Prop.







End KeepsX.








(** X11. Called with the reference 0, every operation on an open
    session returns at once: the result is eDSInvalidReference (for
    dsGetDirNodeCount without a cell for the count it is
    eDSNullParameter, which is checked first), no collaborator is called
    (no lock taken, nothing sent) and the globals are unchanged. *)
Theorem session_calls_reject_a_zero_reference (le : bool) (w : WorldX)
    (c : SessionCall) (g : Globals) :
  fst (reference c) = 0 ->
  exists r s',
    runX (performX le w c) g = (Ok r, s')
    /\ x_g s' = g /\ x_tr s' = []
    /\ (r = eDSInvalidReference
        \/ (r = eDSNullParameter /\ c = CallGetDirNodeCount 0 None)).
Proof.
  intros Href. destruct c; cbn in Href; subst.
  all: unfold runX, performX, dsAddChildPIDToReference, dsGetDirNodeCount,
      dsGetDirNodeCountWithInfo, dsGetDirNodeList, dsReleaseContinueData,
      dsFindDirNodes, dsOpenDirNode, dsCloseDirNode, dsDoDirNodeAuth,
      dsDoDirNodeAuthOnRecordType, dsDoPlugInCustomCall.
  all: unfold_primsX; cbn.
  all: repeat (step; cbn).
  all: eexists _, _; (split; [reflexivity|]); cbn.
  all: split; [done|]; split; [done|]; auto.
Qed.

(** X12. dsGetDirNodeCount without a cell for the count returns
    eDSNullParameter before it looks at the reference, with no call to a
    collaborator.  When it returns eDSNoErr, the field kNodeCount of the
    reply was read without error and the caller's cell holds the value
    that field stored. *)
Theorem dsGetDirNodeCount_delivers_the_count (w : WorldX) (g : Globals)
    (ref : Z) :
  (exists s',
     runX (dsGetDirNodeCount w ref None) g = (Ok eDSNullParameter, s')
     /\ x_g s' = g /\ x_tr s' = [])
  /\ (forall p s',
        eDSNullParameter <> eDSNoErr ->
        eDSInvalidReference <> eDSNoErr ->
        eDSRefTableIndexOutOfBoundsError <> eDSNoErr ->
        eDSRefTableEntryNilError <> eDSNoErr ->
        eParameterSendError <> eDSNoErr ->
        eDataReceiveErr_NoNodeCount <> eDSNoErr ->
        eDSCannotAccessSession <> eDSNoErr ->
        runX (dsGetDirNodeCount w ref (Some p)) g = (Ok eDSNoErr, s') ->
        outNodeCount (x_c s')
          = Some (default p (snd (w_GetField w kNodeCount)))
        /\ fst (w_GetField w kNodeCount) = eDSNoErr).
Proof.
  split.
  - unfold runX, dsGetDirNodeCount. unfold_primsX. cbn.
    repeat (step; cbn). all: eexists; split; [reflexivity|done].
  - intros p s' H1 H2 H3 H4 H5 H6 H7.
    unfold runX, dsGetDirNodeCount. unfold_primsX. cbn.
    repeat (step; cbn; prune).
    all: intros; simplify_eq; cbn.
    all: try (exfalso; bool_hyps; congruence).
    all: bool_hyps; split; [|done].
    all: repeat match goal with
         | Hq : snd _ = _ |- _ => rewrite Hq
         end; done.
Qed.

(** X13. dsGetDirNodeCountWithInfo reads from the reply only what the
    caller gave a cell for: the field kNodeCount only with a cell for
    the count, the field kNodeChangeToken only with a cell for the
    token; with neither cell (and a reference other than 0) it returns
    eDSNullParameter without a call to a collaborator. *)
Theorem dsGetDirNodeCountWithInfo_reads_what_is_asked (w : WorldX)
    (g : Globals) (ref : Z) (nodeCount changeToken : option Z) :
  let run := runX (dsGetDirNodeCountWithInfo w ref nodeCount changeToken) g in
  (forall idx, In (EvGetValue idx kNodeCount) (x_tr (snd run)) ->
     nodeCount <> None)
  /\ (forall idx, In (EvGetValue idx kNodeChangeToken) (x_tr (snd run)) ->
     changeToken <> None)
  /\ (nodeCount = None -> changeToken = None -> ref <> 0 ->
      fst run = Ok eDSNullParameter /\ x_tr (snd run) = []).
Proof.
  cbn zeta. destruct nodeCount as [n|], changeToken as [t|].
  all: unfold runX, dsGetDirNodeCountWithInfo; unfold_primsX; cbn.
  all: repeat (step; cbn; prune).
  all: split_and!; try (intros; congruence).
  all: try (intros idx Hin; exfalso;
            repeat (destruct Hin as [Hin|Hin]; [discriminate|]); exact Hin).
  all: intros _ _ Href; apply Z.eqb_neq in Href; split; congruence.
Qed.

(** X14. A dsOpenDirNode that returns eDSNoErr hands out the node
    reference by the slot of the session: on slot 0 (the local daemon)
    the caller's cell holds the reference of the reply itself and the
    reference map is not asked for a new entry; on a TCP slot the cell
    holds the reference that NewNodeRefMap made for the reply's
    reference, the directory reference and the slot. *)
Theorem dsOpenDirNode_reference_by_slot (w : WorldX) (g : Globals)
    (ref : Z) (nm : option tDataList) (p : Z) (s' : StX) :
  let idx := slot_of w g (CallOpenDirNode ref nm (Some p)) in
  let aRef := default 0 (snd (w_GetField w ktNodeRef)) in
  eDSInvalidReference <> eDSNoErr ->
  eDSRefTableIndexOutOfBoundsError <> eDSNoErr ->
  eDSRefTableEntryNilError <> eDSNoErr ->
  eParameterSendError <> eDSNoErr ->
  eParameterSendError - 1 <> eDSNoErr ->
  eParameterSendError - 2 <> eDSNoErr ->
  eDataReceiveErr_NoDirRef <> eDSNoErr ->
  eDSCannotAccessSession <> eDSNoErr ->
  runX (dsOpenDirNode w ref nm (Some p)) g = (Ok eDSNoErr, s') ->
  (idx = 0 ->
     outDirNodeRef (x_c s') = Some aRef
     /\ forall a b c d, ~ In (EvNewNodeRefMap a b c d) (x_tr s'))
  /\ (idx <> 0 ->
     outDirNodeRef (x_c s')
       = Some (w_NewNodeRefMap w ref (gProcessPID g) aRef idx)
     /\ exists n, In (EvNewNodeRefMap ref aRef idx n) (x_tr s')).
Proof.
  intros idx aRef H1 H2 H3 H4 H5 H6 H7 H8. subst idx aRef.
  unfold slot_of, reference. cbn [fst snd].
  unfold runX, dsOpenDirNode. unfold_primsX. cbn.
  repeat (step; cbn; prune).
  all: intros; simplify_eq; cbn.
  all: try (exfalso; bool_hyps; congruence).
  all: bool_hyps.
  all: split; intros Hi; try (exfalso; congruence).
  all: split; [reflexivity|].
  all: try (intros a b c0 d Hin;
            repeat (destruct Hin as [Hin|Hin]; [discriminate|]); exact Hin).
  all: eexists; cbn; repeat (first [left; reflexivity | right]).
Qed.

(** X15. dsCloseDirNode removes the node reference from the reference
    map exactly when it returns eDSNoErr: after any failure (validation,
    a field that cannot be added, transport, or an error result of the
    daemon) the reference is still mapped. *)
Theorem dsCloseDirNode_forgets_on_success (w : WorldX) (g : Globals)
    (ref r : Z) (s' : StX) :
  eDSInvalidReference <> eDSNoErr ->
  eDSRefTableIndexOutOfBoundsError <> eDSNoErr ->
  eDSRefTableEntryNilError <> eDSNoErr ->
  eParameterSendError <> eDSNoErr ->
  eDSCannotAccessSession <> eDSNoErr ->
  runX (dsCloseDirNode w ref) g = (Ok r, s') ->
  (r = eDSNoErr <-> In (EvRemoveNodeRef ref) (x_tr s')).
Proof.
  intros H1 H2 H3 H4 H5. unfold runX, dsCloseDirNode. unfold_primsX. cbn.
  repeat (step; cbn; prune).
  all: intros; simplify_eq; cbn.
  all: bool_hyps; split; intros Hx.
  all: try congruence.
  all: try (repeat (first [left; reflexivity | right]); fail).
  all: try (exfalso; repeat (destruct Hx as [Hx|Hx]; [discriminate|]); exact Hx).
  all: match goal with |- ?G => idtac "GOAL" G end.
Qed.

End Sessions.

End Properties.

(** ** The code on concrete inputs *)

Section Concrete.

#[local] Existing Instance ref_codes.

(** C1. dsDoAttributeValueSearch is called with a continuation token 5
    and the daemon answers eDSInvalidReference, which is neither eDSNoErr
    nor eDSBufferTooSmall: the call returns that code and the caller's
    token is still 5.  dsGetRecordList on the same answer sets it to 0. *)
Theorem dsDoAttributeValueSearch_keeps_stale_token :
  let w := with_result eDSInvalidReference (world_ok 0) in
  let r := run (dsDoAttributeValueSearch w 7 a_buffer a_list a_buffer a_buffer
                  (Some 10) (Some 5)) one_local_session in
  let r' := run (dsGetRecordList w 7 a_buffer a_list a_list a_list
                   (Some 10) (Some 5)) one_local_session in
  fst r = Ok eDSInvalidReference
  /\ eDSInvalidReference <> eDSNoErr
  /\ eDSInvalidReference <> eDSBufferTooSmall
  /\ ioContinueData (st_f (snd r)) = Some 5
  /\ fst r' = Ok eDSInvalidReference
  /\ ioContinueData (st_f (snd r')) = Some 0.
Proof. vm_compute. repeat split; discriminate. Qed.

(** C2. In dsCloseDirService the second request field (index 1, the
    connections count) cannot be appended: the call returns
    eParameterSendError, not eParameterSendError - 1.  In
    dsOpenDirServiceProxy the fifth field (index 4, the context data)
    cannot be appended: the call returns eParameterReceiveError - 4, not
    eParameterSendError - 4. *)
Theorem dsCloseDirService_second_field_not_offset :
  fst (run (dsCloseDirService (world_bad_field is_kNodeCount) 77)
         one_local_session)
    = Ok eParameterSendError
  /\ eParameterSendError <> eParameterSendError - 1
  /\ fst (run (dsOpenDirServiceProxy (world_bad_field is_kContextData)
                 (Some 0) 0 a_buffer a_buffer a_buffer (Some 0))
            one_local_session)
    = Ok (eParameterReceiveError - 4)
  /\ eParameterReceiveError - 4 <> eParameterSendError - 4.
Proof. vm_compute. repeat split; discriminate. Qed.


(** C5, counterexample. The normal-daemon flag is set, the daemon is
    registered and the path is the daemon's own store: dsOpenDirServiceLocal
    hands the call to dsOpenDirService and returns eDSNoErr, not
    eDSNormalDSDaemonInUse; gDSConnections goes from 1 to 2. *)
Lemma dsOpenDirServiceLocal_redirected_while_in_use :
  let r := run (dsOpenDirServiceLocal 1024 (world_ok 0) (Some 0) None)
             one_local_session in
  gNormalDaemonInUse one_local_session = true
  /\ fst r = Ok eDSNoErr
  /\ eDSNoErr <> eDSNormalDSDaemonInUse
  /\ gDSConnections one_local_session = 1
  /\ gDSConnections (st_g (snd r)) = 2.
Proof. vm_compute. repeat split; discriminate. Qed.

(** C6. The first dsOpenDirService of the process fails in the send: no
    session exists, yet gDSConnections is 1 and the normal-daemon flag is
    set.  A second open succeeds (count 2); closing that session, the only
    one there is, leaves the count at 1, does not close the Mach port and
    leaves the flag set. *)
Theorem gDSConnections_counts_failed_open :
  let r1 := run (dsOpenDirService (with_Send eDSCannotAccessSession (world_ok 0))
                   (Some 0)) (initial_globals 100) in
  let r2 := run (dsOpenDirService (world_ok 0) (Some 0)) (st_g (snd r1)) in
  let r3 := run (dsCloseDirService (world_ok 0) 77) (st_g (snd r2)) in
  fst r1 = Ok eDSCannotAccessSession
  /\ eDSCannotAccessSession <> eDSNoErr
  /\ gDSConnections (st_g (snd r1)) = 1
  /\ gNormalDaemonInUse (st_g (snd r1)) = true
  /\ fst r2 = Ok eDSNoErr
  /\ gDSConnections (st_g (snd r2)) = 2
  /\ fst r3 = Ok eDSNoErr
  /\ gDSConnections (st_g (snd r3)) = 1
  /\ gNormalDaemonInUse (st_g (snd r3)) = true
  /\ ~ In EvCloseCommPort (st_tr (snd r3)).
Proof.
  vm_compute. repeat split; try discriminate.
  intros Hin. repeat (destruct Hin as [Hin | Hin]; [discriminate|]). exact Hin.
Qed.

(** C7. dsOpenDirServiceProxy claims slot 1 and ConfigTCP fails: the call
    returns the error and slot 1 still holds the new endpoint, which was
    neither closed nor deleted.  The same holds when OpenTCPEndpoint
    fails.  After eight such calls all remote slots are taken and an open
    in a world where everything succeeds fails with eDSMaxSessionsOpen. *)
Theorem dsOpenDirServiceProxy_config_failure_keeps_slot :
  let r := run (dsOpenDirServiceProxy (with_ConfigTCP eDSNullParameter (world_ok 0))
                  (Some 0) 0 a_buffer a_buffer a_buffer None)
             one_local_session in
  let r' := run (dsOpenDirServiceProxy
                   (with_OpenTCPEndpoint eDSTCPSendError (world_ok 0))
                   (Some 0) 0 a_buffer a_buffer a_buffer None)
              one_local_session in
  gMessageTable one_local_session !! 1%nat = Some None
  /\ fst r = Ok eDSNullParameter
  /\ eDSNullParameter <> eDSNoErr
  /\ gMessageTable (st_g (snd r)) !! 1%nat
     = Some (Some {| fMachEndpoint := false; fServerVersion := 0 |})
  /\ st_tr (snd r) = [EvWaitLock; EvNew 1 false; EvConfigTCP 1 625; EvSignalLock]
  /\ fst r' = Ok eDSTCPSendError
  /\ gMessageTable (st_g (snd r')) !! 1%nat
     = Some (Some {| fMachEndpoint := false; fServerVersion := 0 |})
  /\ fst (run (dsOpenDirServiceProxy (world_ok 0)
                 (Some 0) 0 a_buffer a_buffer a_buffer None)
            (after_failed_configs 8))
     = Ok eDSMaxSessionsOpen.
Proof. vm_compute. repeat split; discriminate. Qed.

(** C8. With PATH_MAX = 1024, a path of 1024 characters that ends in a
    slash is not rejected: lstat is called on all 1024 characters and,
    the file system accepting it, the open message is sent and the call
    returns eDSNoErr.  A path of 1024 characters without a final slash is
    not rejected either: the slash is stored over the terminating NUL of
    newPath, and strstr then reads past the array. *)
Theorem dsOpenDirServiceLocal_overlength_not_rejected :
  let r := run (dsOpenDirServiceLocal 1024 world_local_only (Some 0)
                  (Some overlength_path)) (initial_globals 100) in
  let r' := run (dsOpenDirServiceLocal 1024 world_local_only (Some 0)
                   (Some (repeat "a"%char 1024))) (initial_globals 100) in
  length overlength_path = 1024%nat
  /\ fst r = Ok eDSNoErr
  /\ In (EvLstat overlength_path) (st_tr (snd r))
  /\ In (EvSend 0 kOpenDirServiceLocal) (st_tr (snd r))
  /\ fst r' = Undef
  /\ st_tr (snd r') = [].
Proof.
  vm_compute. repeat split; try discriminate.
  - do 2 right. left. reflexivity.
  - repeat (first [left; reflexivity | right]).
Qed.

(** C9. With the reference resolving to index 9, the bounds test
    [messageIndex > gMaxEndpoints] does not fire (9 > 9 is false) and the
    function goes on to read gMessageTable[9], past the nine entries of
    the table.  Index 10 is reported as out of bounds and an empty slot 8
    as nil. *)
Theorem resolve_index_nine_reads_past_table :
  (9 >? gMaxEndpoints) = false
  /\ length (gMessageTable one_local_session) = 9%nat
  /\ gMessageTable one_local_session !! 9%nat = None
  /\ fst (run (dsVerifyDirRefNum (world_ok 9) 5) one_local_session) = Undef
  /\ fst (run (dsCloseDirService (world_ok 9) 5) one_local_session) = Undef
  /\ fst (run (dsVerifyDirRefNum (world_ok 10) 5) one_local_session)
     = Ok eDSRefTableIndexOutOfBoundsError
  /\ fst (run (dsVerifyDirRefNum (world_ok 8) 5) one_local_session)
     = Ok eDSRefTableEntryNilError.
Proof. vm_compute. repeat split; discriminate. Qed.



(** C5, witness: one session with the normal daemon is open; a
    file-backed open of another store is refused, an open while the
    local-only daemon is in use is refused too. *)
Lemma daemon_in_use_exclusive_witness :
  eDSLocalDSDaemonInUse <> eDSNoErr
  /\ eDSNormalDSDaemonInUse <> eDSNoErr
  /\ eServerNotRunning <> eDSNoErr
  /\ ~ (gNormalDaemonInUse one_local_session = true
        /\ gLocalDaemonInUse one_local_session = true)
  /\ (exists s',
        run (dsOpenDirService (world_ok 0) (Some 0))
            (set_gLocalDaemonInUse true (initial_globals 100))
          = (Ok eDSLocalDSDaemonInUse, s')
        /\ st_g s' = set_gLocalDaemonInUse true (initial_globals 100)
        /\ st_tr s' = [EvWaitLock; EvSignalLock])
  /\ (exists s',
        run (dsOpenDirServiceLocal 16 (world_ok 0) (Some 0) (Some (str "/tmp/db")))
            one_local_session
          = (Ok eDSNormalDSDaemonInUse, s')
        /\ st_g s' = one_local_session).
Proof.
  assert (H1 : eDSLocalDSDaemonInUse <> eDSNoErr) by discriminate.
  assert (H2 : eDSNormalDSDaemonInUse <> eDSNoErr) by discriminate.
  assert (H3 : eServerNotRunning <> eDSNoErr) by discriminate.
  assert (Hreach : reachable one_local_session).
  { apply (reachable_call (initial_globals 100) (world_ok 0)
             (CallOpenDirService (Some 0)) 0
             (snd (run (dsOpenDirService (world_ok 0) (Some 0))
                     (initial_globals 100)))).
    - apply reachable_init.
    - vm_compute. reflexivity. }
  destruct (daemon_in_use_exclusive H1 H2 H3) as (Hex & Hopen & Hlocal).
  repeat (split; [done|]). split; [by apply Hex|]. split.
  - by apply Hopen.
  - eapply (Hlocal 16%nat (world_ok 0) one_local_session 0
              (Some (str "/tmp/db")) _ _ (3, 1)); done.
Defined.

(** The statements on newPath, with PATH_MAX = 64: no path, the empty
    path and "Default" give the default store; a final slash is added
    where there is none; "Default/" is added after ".../dslocal/nodes". *)
Lemma normalize_path_examples :
  let dflt := str "/var/db/dslocal/nodes/Default/" in
  (exists buf, normalized 64 None = Ok buf /\ c_str buf = Some dflt)
  /\ normalized 64 (Some []) = normalized 64 None
  /\ normalized 64 (Some (str "Default")) = normalized 64 None
  /\ (exists buf, normalized 64 (Some (str "/tmp/db")) = Ok buf
                  /\ c_str buf = Some (str "/tmp/db/"))
  /\ (exists buf, normalized 64 (Some (str "/tmp/db/")) = Ok buf
                  /\ c_str buf = Some (str "/tmp/db/"))
  /\ (exists buf, normalized 64 (Some (str "/x/dslocal/nodes")) = Ok buf
                  /\ c_str buf = Some (str "/x/dslocal/nodes/Default/")).
Proof.
  vm_compute. repeat split; try (eexists; split; reflexivity).
Qed.

(** dsGetRecordList reports the request field of index i that cannot be
    appended as eParameterSendError - i, for its fields 0 to 7. *)
Lemma dsGetRecordList_field_offsets :
  let result bad :=
    fst (run (dsGetRecordList (world_bad_field bad) 7 a_buffer a_list a_list
                a_list (Some 10) (Some 5)) one_local_session) in
  result (fun t => match t with ktNodeRef => true | _ => false end)
    = Ok eParameterSendError
  /\ result (fun t => match t with ktDataBuff => true | _ => false end)
    = Ok (eParameterSendError - 1)
  /\ result (fun t => match t with kRecNameList => true | _ => false end)
    = Ok (eParameterSendError - 2)
  /\ result (fun t => match t with ktDirPattMatch => true | _ => false end)
    = Ok (eParameterSendError - 3)
  /\ result (fun t => match t with kRecTypeList => true | _ => false end)
    = Ok (eParameterSendError - 4)
  /\ result (fun t => match t with kAttrTypeList => true | _ => false end)
    = Ok (eParameterSendError - 5)
  /\ result (fun t => match t with kAttrInfoOnly => true | _ => false end)
    = Ok (eParameterSendError - 6)
  /\ result (fun t => match t with kAttrRecEntryCount => true | _ => false end)
    = Ok (eParameterSendError - 7).
Proof. vm_compute. repeat split. Qed.

(** *** The further properties on concrete inputs *)

#[local] Existing Instance ref_session_codes.

(** X1 on the table in which all eight remote slots hold a session. *)
Lemma ResetAllSessions_closes_every_session_witness :
  length (gMessageTable eight_sessions) = 9%nat
  /\ exists s',
       __ResetAllSessions
         {| st_g := eight_sessions; st_f := frame0; st_tr := [] |}
         = (Ok tt, s')
       /\ (forall i, 1 <= i <= 8 -> free (st_g s') i)
       /\ gDSConnections (st_g s') = 0.
Proof.
  split; [reflexivity|].
  destruct (ResetAllSessions_closes_every_session
              {| st_g := eight_sessions; st_f := frame0; st_tr := [] |}
              eq_refl)
    as (s' & Hrun & _ & Hfree & _ & Hc & _).
  exists s'. split; [exact Hrun|]. split; [exact Hfree|exact Hc].
Defined.

(** X2 for the child of a process that held eight remote sessions. *)
Lemma fork_child_starts_fresh_witness :
  length (gMessageTable eight_sessions) = 9%nat
  /\ w_bootstrap_look_up (world_ok 0) false = 0
  /\ w_new (world_ok 0) = true
  /\ exists res s',
       run (dsOpenDirService (world_ok 0) (Some 0))
         (__ForkChild 200 eight_sessions) = (Ok res, s')
       /\ gDSConnections (st_g s') = 1
       /\ (forall i, 1 <= i <= 8 -> free (st_g s') i).
Proof.
  split; [reflexivity|]. split; [reflexivity|]. split; [reflexivity|].
  destruct (fork_child_starts_fresh (world_ok 0) eight_sessions 200 0
              eq_refl eq_refl eq_refl)
    as (res & s' & Hrun & _ & _ & Hc & _ & _ & Hfree & _).
  exists res, s'. split; [exact Hrun|]. split; [exact Hc|exact Hfree].
Defined.

(** X3 at program start, with only the local-only daemon registered. *)
Lemma dsOpenDirService_daemon_not_registered_witness :
  gLocalDaemonInUse (initial_globals 100) = false
  /\ w_bootstrap_look_up world_local_only false <> 0
  /\ eServerNotRunning <> eDSNoErr
  /\ exists s',
       run (dsOpenDirService world_local_only (Some 0)) (initial_globals 100)
         = (Ok eServerNotRunning, s')
       /\ st_g s' = initial_globals 100.
Proof.
  split; [reflexivity|]. split; [discriminate|]. split; [discriminate|].
  assert (Hb : w_bootstrap_look_up world_local_only false <> 0)
    by discriminate.
  assert (Hne : eServerNotRunning <> eDSNoErr) by discriminate.
  destruct (dsOpenDirService_daemon_not_registered world_local_only
              (initial_globals 100) 0 eq_refl Hb Hne)
    as (s' & Hrun & Hg & _).
  exists s'. split; [exact Hrun|exact Hg].
Defined.

(** X4: the daemon answers the close request with eDSInvalidReference. *)
Lemma dsCloseDirService_failure_keeps_session_witness :
  let w := with_result eDSInvalidReference (world_ok 0) in
  let r := run (dsCloseDirService w 7) one_local_session in
  fst r = Ok eDSInvalidReference
  /\ st_g (snd r) = one_local_session
  /\ ~ In (EvRemoveDirRef 7) (st_tr (snd r)).
Proof.
  cbn zeta. split; [vm_compute; reflexivity|].
  apply (dsCloseDirService_failure_keeps_session
           (with_result eDSInvalidReference (world_ok 0)) one_local_session 7
           eDSInvalidReference
           (snd (run (dsCloseDirService
                        (with_result eDSInvalidReference (world_ok 0)) 7)
                   one_local_session))).
  - vm_compute. reflexivity.
  - discriminate.
  - discriminate.
Defined.

(** X5: the session of slot 3 of eight remote sessions is closed. *)
Lemma dsCloseDirService_success_frees_remote_slot_witness :
  let r := run (dsCloseDirService (world_ok 3) 7) eight_sessions in
  fst r = Ok eDSNoErr
  /\ gMessageTable (st_g (snd r))
       = <[3%nat := None]> (gMessageTable eight_sessions)
  /\ In (EvCloseTCPEndpoint 3) (st_tr (snd r)).
Proof.
  cbn zeta. split; [vm_compute; reflexivity|].
  assert (Hi : 1 <= 3 <= 8) by lia.
  assert (H1 : eDSInvalidReference <> eDSNoErr) by discriminate.
  assert (H2 : eDSRefTableEntryNilError <> eDSNoErr) by discriminate.
  assert (H3 : eParameterSendError <> eDSNoErr) by discriminate.
  assert (H4 : eDSCannotAccessSession <> eDSNoErr) by discriminate.
  assert (Hidx : UInt32 (w_GetMessageTableIndex (world_ok 3) 7
                           eDirectoryRefType (gProcessPID eight_sessions)) = 3)
    by (vm_compute; reflexivity).
  assert (Hrun : run (dsCloseDirService (world_ok 3) 7) eight_sessions
                 = (Ok eDSNoErr,
                    snd (run (dsCloseDirService (world_ok 3) 7) eight_sessions)))
    by (vm_compute; reflexivity).
  destruct (dsCloseDirService_success_frees_remote_slot (world_ok 3)
              eight_sessions 7 3 _ eq_refl Hidx Hi H1 H2 H3 H4 Hrun)
    as (Htable & _ & _ & Hclose & _).
  split; [exact Htable|exact Hclose].
Defined.


(** X11 for dsCloseDirNode. *)
Lemma session_calls_reject_a_zero_reference_witness :
  fst (reference (CallCloseDirNode 0)) = 0
  /\ exists r s',
       runX (performX false (session_ok 0) (CallCloseDirNode 0))
         one_local_session = (Ok r, s')
       /\ x_g s' = one_local_session /\ x_tr s' = [].
Proof.
  split; [reflexivity|].
  destruct (session_calls_reject_a_zero_reference false (session_ok 0)
              (CallCloseDirNode 0) one_local_session eq_refl)
    as (r & s' & Hrun & Hg & Htr & _).
  exists r, s'. split; [exact Hrun|]. split; [exact Hg|exact Htr].
Defined.

(** X14 on the session of slot 3: the reply's reference 55 is mapped. *)
Lemma dsOpenDirNode_reference_by_slot_witness :
  let r := runX (dsOpenDirNode (session_ok 3) 7 a_list (Some 0))
             eight_sessions in
  fst r = Ok eDSNoErr
  /\ outDirNodeRef (x_c (snd r)) = Some 2055.
Proof.
  cbn zeta. split; [vm_compute; reflexivity|].
  assert (H1 : eDSInvalidReference <> eDSNoErr) by discriminate.
  assert (H2 : eDSRefTableIndexOutOfBoundsError <> eDSNoErr) by discriminate.
  assert (H3 : eDSRefTableEntryNilError <> eDSNoErr) by discriminate.
  assert (H4 : eParameterSendError <> eDSNoErr) by discriminate.
  assert (H5 : eParameterSendError - 1 <> eDSNoErr) by discriminate.
  assert (H6 : eParameterSendError - 2 <> eDSNoErr) by discriminate.
  assert (H7 : eDataReceiveErr_NoDirRef <> eDSNoErr) by discriminate.
  assert (H8 : eDSCannotAccessSession <> eDSNoErr) by discriminate.
  assert (Hrun : runX (dsOpenDirNode (session_ok 3) 7 a_list (Some 0))
                   eight_sessions
                 = (Ok eDSNoErr,
                    snd (runX (dsOpenDirNode (session_ok 3) 7 a_list (Some 0))
                           eight_sessions)))
    by (vm_compute; reflexivity).
  destruct (dsOpenDirNode_reference_by_slot (session_ok 3) eight_sessions 7
              a_list 0 _ H1 H2 H3 H4 H5 H6 H7 H8 Hrun)
    as [_ Hremote].
  destruct Hremote as [Hcell _]; [vm_compute; discriminate|].
  etrans; [exact Hcell|]. vm_compute. reflexivity.
Defined.

(** X15 on the session of slot 3. *)
Lemma dsCloseDirNode_forgets_on_success_witness :
  let r := runX (dsCloseDirNode (session_ok 3) 7) eight_sessions in
  fst r = Ok eDSNoErr
  /\ In (EvRemoveNodeRef 7) (x_tr (snd r)).
Proof.
  cbn zeta. split; [vm_compute; reflexivity|].
  assert (H1 : eDSInvalidReference <> eDSNoErr) by discriminate.
  assert (H2 : eDSRefTableIndexOutOfBoundsError <> eDSNoErr) by discriminate.
  assert (H3 : eDSRefTableEntryNilError <> eDSNoErr) by discriminate.
  assert (H4 : eParameterSendError <> eDSNoErr) by discriminate.
  assert (H5 : eDSCannotAccessSession <> eDSNoErr) by discriminate.
  assert (Hrun : runX (dsCloseDirNode (session_ok 3) 7) eight_sessions
                 = (Ok eDSNoErr,
                    snd (runX (dsCloseDirNode (session_ok 3) 7) eight_sessions)))
    by (vm_compute; reflexivity).
  apply (dsCloseDirNode_forgets_on_success (session_ok 3) eight_sessions 7
           eDSNoErr _ H1 H2 H3 H4 H5 Hrun).
  reflexivity.
Defined.

End Concrete.
